(** * The three parameter pipelines of prisma-generator-nestjs-dto

    Shallow embedding of [computeEntityParams], [computeCreateDtoParams] and
    [computeUpdateDtoParams] (src/generator/compute-model-params), and the
    properties of the field lists, overrides, import lists and of the shared
    field records they leave behind. *)

From Stdlib Require Import List String Ascii Bool Arith Permutation Sorted.
Import ListNotations.

Local Open Scope string_scope.
Local Open Scope list_scope.

Set Implicit Arguments.

(** ** Exceptions

    A pipeline either returns or throws an [Error] carrying a message. *)

Inductive Outcome (A : Type) : Type :=
| Return (a : A)
| Throw (msg : string).

Arguments Return {A} a.
Arguments Throw {A} msg.

Definition andThen {A B : Type} (c : Outcome A) (k : A -> Outcome B) : Outcome B :=
  match c with
  | Return a => k a
  | Throw msg => Throw msg
  end.

Notation "'attempt' x '<-' c ';' k" := (andThen c (fun x => k))
  (at level 10, x pattern, c at level 100, k at level 200).

(** [Array.prototype.reduce] with a callback that may throw. *)
Fixpoint reduceM {S A : Type} (step : S -> A -> Outcome S) (xs : list A) (acc : S)
  : Outcome S :=
  match xs with
  | [] => Return acc
  | x :: rest => attempt acc' <- step acc x; reduceM step rest acc'
  end.

(** ** Strings *)

(** [xs.includes(x)] on an array of strings. *)
Definition includes (x : string) (xs : list string) : bool :=
  existsb (String.eqb x) xs.

(** [s.replace(pat, rep)] with a string pattern: the first occurrence only. *)
Fixpoint replaceFirst (pat rep s : string) : string :=
  if prefix pat s
  then (rep ++ substring (String.length pat) (String.length s - String.length pat) s)%string
  else match s with
       | EmptyString => EmptyString
       | String c rest => String c (replaceFirst pat rep rest)
       end.

(** Truthiness of a possibly undefined string. *)
Definition truthy (s : option string) : bool :=
  match s with
  | Some v => negb (v =? "")%string
  | None => false
  end.

(** [sub] occurs somewhere inside [s]. *)
Definition occursIn (sub s : string) : Prop :=
  exists before after : string, s = (before ++ sub ++ after)%string.

(** [strings.sort()]: ascending by code unit, as insertion into a sorted list. *)
Fixpoint insertSorted (x : string) (xs : list string) : list string :=
  match xs with
  | [] => [x]
  | y :: rest => if String.leb x y then x :: xs else y :: insertSorted x rest
  end.

Definition sortStrings (xs : list string) : list string :=
  fold_right insertSorted [] xs.

(** ** Data model *)

(** Directives a field can carry (the constants of [../annotations]). *)
Inductive Directive : Type :=
| DTO_ENTITY_HIDDEN
| DTO_RELATION_REQUIRED
| DTO_CREATE_HIDDEN
| DTO_UPDATE_HIDDEN
| DTO_CREATE_OPTIONAL
| DTO_UPDATE_OPTIONAL
| DTO_TYPE_FULL_UPDATE
| DTO_RELATION_INCLUDE_ID
| DTO_RELATION_CAN_CREATE_ON_CREATE
| DTO_RELATION_CAN_CONNECT_ON_CREATE
| DTO_RELATION_CAN_CREATE_ON_UPDATE
| DTO_RELATION_CAN_CONNECT_ON_UPDATE
| DTO_RELATION_CAN_UPDATE_ON_UPDATE
| DTO_CREATE_API_RESP
| DTO_UPDATE_API_RESP.

Definition Directive_eq_dec (a b : Directive) : {a = b} + {a <> b}.
Proof. decide equality. Defined.

Definition directive_eqb (a b : Directive) : bool :=
  if Directive_eq_dec a b then true else false.

(** Kind tag of a field. *)
Inductive FieldKind : Type :=
| KScalar
| KRelation
| KType
| KEnum.

Record Field : Type := {
  f_name : string;
  f_type : string;
  f_kind : FieldKind;
  f_isList : bool;
  f_isRequired : bool;
  f_isReadOnly : bool;
  f_hasDefaultValue : bool;
  f_isId : bool;
  f_isUpdatedAt : bool;
  f_documentation : option string;
  f_annotations : list Directive;
  f_relationFromFields : list string
}.

(** In-place assignments to a field record. *)
Definition assign_isReadOnly (v : bool) (f : Field) : Field :=
  {| f_name := f_name f; f_type := f_type f; f_kind := f_kind f;
     f_isList := f_isList f; f_isRequired := f_isRequired f;
     f_isReadOnly := v; f_hasDefaultValue := f_hasDefaultValue f;
     f_isId := f_isId f; f_isUpdatedAt := f_isUpdatedAt f;
     f_documentation := f_documentation f; f_annotations := f_annotations f;
     f_relationFromFields := f_relationFromFields f |}.

Definition assign_type (v : string) (f : Field) : Field :=
  {| f_name := f_name f; f_type := v; f_kind := f_kind f;
     f_isList := f_isList f; f_isRequired := f_isRequired f;
     f_isReadOnly := f_isReadOnly f; f_hasDefaultValue := f_hasDefaultValue f;
     f_isId := f_isId f; f_isUpdatedAt := f_isUpdatedAt f;
     f_documentation := f_documentation f; f_annotations := f_annotations f;
     f_relationFromFields := f_relationFromFields f |}.

Definition assign_documentation (v : option string) (f : Field) : Field :=
  {| f_name := f_name f; f_type := f_type f; f_kind := f_kind f;
     f_isList := f_isList f; f_isRequired := f_isRequired f;
     f_isReadOnly := f_isReadOnly f; f_hasDefaultValue := f_hasDefaultValue f;
     f_isId := f_isId f; f_isUpdatedAt := f_isUpdatedAt f;
     f_documentation := v; f_annotations := f_annotations f;
     f_relationFromFields := f_relationFromFields f |}.

(** [field.documentation += suffix]; an undefined documentation is
    stringified by the concatenation. *)
Definition appendDocumentation (suffix : string) (f : Field) : Field :=
  let before := match f_documentation f with
                | Some d => d
                | None => "undefined"
                end in
  assign_documentation (Some (before ++ suffix)%string) f.

Record Output : Type := {
  out_dto : string;
  out_entity : string
}.

Record Model : Type := {
  m_name : string;
  m_fields : list Field;
  m_output : Output
}.

(** The same entity with its field records as a pipeline left them. *)
Definition withFields (m : Model) (fs : list Field) : Model :=
  {| m_name := m_name m; m_fields := fs; m_output := m_output m |}.

Record Config : Type := {
  noDependencies : bool;
  classValidation : bool;
  prismaClientImportPath : string
}.

Record TemplateHelpers : Type := {
  config : Config;
  entityName : string -> string;
  plainDtoName : string -> string;
  createDtoName : string -> string;
  updateDtoName : string -> string;
  connectDtoName : string -> string;
  entityFilename : string -> string;
  plainDtoFilename : string -> string;
  createDtoFilename : string -> string;
  updateDtoFilename : string -> string;
  connectDtoFilename : string -> string;
  transformClassNameCase : string -> string
}.

Record ImportStatementParams : Type := {
  imp_from : string;
  imp_destruct : list string
}.

Record IApiProperty : Type := {
  ap_name : string;
  ap_value : string;
  ap_noEncapsulation : option bool
}.

Record IClassValidator : Type := {
  cv_name : string;
  cv_value : option string
}.

(** [Partial<DMMF.Field>] as the pipelines fill it. *)
Record Overrides : Type := {
  o_isRequired : option bool;
  o_isNullable : option bool;
  o_type : option string;
  o_isList : option bool;
  o_createApiResp : option bool;
  o_updateApiResp : option bool
}.

Definition noOverrides : Overrides :=
  {| o_isRequired := None; o_isNullable := None; o_type := None;
     o_isList := None; o_createApiResp := None; o_updateApiResp := None |}.

Definition set_isRequired (v : bool) (o : Overrides) : Overrides :=
  {| o_isRequired := Some v; o_isNullable := o_isNullable o; o_type := o_type o;
     o_isList := o_isList o; o_createApiResp := o_createApiResp o;
     o_updateApiResp := o_updateApiResp o |}.

Definition set_isNullable (v : bool) (o : Overrides) : Overrides :=
  {| o_isRequired := o_isRequired o; o_isNullable := Some v; o_type := o_type o;
     o_isList := o_isList o; o_createApiResp := o_createApiResp o;
     o_updateApiResp := o_updateApiResp o |}.

Definition set_type (v : string) (o : Overrides) : Overrides :=
  {| o_isRequired := o_isRequired o; o_isNullable := o_isNullable o; o_type := Some v;
     o_isList := o_isList o; o_createApiResp := o_createApiResp o;
     o_updateApiResp := o_updateApiResp o |}.

Definition set_isList (v : bool) (o : Overrides) : Overrides :=
  {| o_isRequired := o_isRequired o; o_isNullable := o_isNullable o; o_type := o_type o;
     o_isList := Some v; o_createApiResp := o_createApiResp o;
     o_updateApiResp := o_updateApiResp o |}.

Definition set_createApiResp (v : bool) (o : Overrides) : Overrides :=
  {| o_isRequired := o_isRequired o; o_isNullable := o_isNullable o; o_type := o_type o;
     o_isList := o_isList o; o_createApiResp := Some v;
     o_updateApiResp := o_updateApiResp o |}.

Definition set_updateApiResp (v : bool) (o : Overrides) : Overrides :=
  {| o_isRequired := o_isRequired o; o_isNullable := o_isNullable o; o_type := o_type o;
     o_isList := o_isList o; o_createApiResp := o_createApiResp o;
     o_updateApiResp := Some v |}.

Record Decorators : Type := {
  d_apiProperties : option (list IApiProperty);
  d_classValidators : option (list IClassValidator)
}.

Definition noDecorators : Decorators :=
  {| d_apiProperties := None; d_classValidators := None |}.

(** A field of the output: the field record with the overrides spread over
    it, the override-only attributes, and the decorators. *)
Record ParsedField : Type := {
  pf_field : Field;
  pf_isNullable : option bool;
  pf_createApiResp : option bool;
  pf_updateApiResp : option bool;
  pf_apiProperties : option (list IApiProperty);
  pf_classValidators : option (list IClassValidator)
}.

Definition pf_name (p : ParsedField) : string := f_name (pf_field p).
Definition pf_type (p : ParsedField) : string := f_type (pf_field p).
Definition pf_isRequired (p : ParsedField) : bool := f_isRequired (pf_field p).
Definition pf_documentation (p : ParsedField) : option string :=
  f_documentation (pf_field p).

Definition orElse {A : Type} (o : option A) (d : A) : A :=
  match o with
  | Some v => v
  | None => d
  end.

(** Modelled from the spec: [mapDMMFToParsedField] of [../helpers] is not
    among the sources; it merges the override set and the decorators into
    the output field, an override taking precedence over the field's own
    attribute. *)
Definition mapDMMFToParsedField (field : Field) (overrides : Overrides)
  (decorators : Decorators) : ParsedField :=
  {| pf_field :=
       {| f_name := f_name field;
          f_type := orElse (o_type overrides) (f_type field);
          f_kind := f_kind field;
          f_isList := orElse (o_isList overrides) (f_isList field);
          f_isRequired := orElse (o_isRequired overrides) (f_isRequired field);
          f_isReadOnly := f_isReadOnly field;
          f_hasDefaultValue := f_hasDefaultValue field;
          f_isId := f_isId field;
          f_isUpdatedAt := f_isUpdatedAt field;
          f_documentation := f_documentation field;
          f_annotations := f_annotations field;
          f_relationFromFields := f_relationFromFields field |};
     pf_isNullable := o_isNullable overrides;
     pf_createApiResp := o_createApiResp overrides;
     pf_updateApiResp := o_updateApiResp overrides;
     pf_apiProperties := d_apiProperties decorators;
     pf_classValidators := d_classValidators decorators |}.

(** ** Field classifiers

    Modelled from the spec: [../field-classifiers] is not among the sources;
    the classifiers are total predicates over a field and its annotation
    set (spec 4.1). *)

Definition isAnnotatedWith (field : Field) (annotation : Directive) : bool :=
  existsb (directive_eqb annotation) (f_annotations field).

Definition isAnnotatedWithOneOf (field : Field) (annotations : list Directive) : bool :=
  existsb (isAnnotatedWith field) annotations.

Definition isRelation (field : Field) : bool :=
  match f_kind field with
  | KRelation => true
  | _ => false
  end.

Definition isType (field : Field) : bool :=
  match f_kind field with
  | KType => true
  | _ => false
  end.

Definition isId (field : Field) : bool := f_isId field.
Definition isRequired (field : Field) : bool := f_isRequired field.
Definition isReadOnly (field : Field) : bool := f_isReadOnly field.
Definition isUpdatedAt (field : Field) : bool := f_isUpdatedAt field.

Definition isIdWithDefaultValue (field : Field) : bool :=
  isId field && f_hasDefaultValue field.

Definition isRequiredWithDefaultValue (field : Field) : bool :=
  isRequired field && f_hasDefaultValue field.

(** ** Helpers *)

(** Modelled from the spec: [getRelationScalars] of [../helpers] is not among
    the sources; it scans the relation fields and records, for each of their
    foreign-key field names, the names of the relation fields that reference
    it (spec 4.2).  The object is kept as its list of entries. *)
Definition getRelationScalars (fields : list Field) : list (string * list string) :=
  let scalars :=
    flat_map (fun f => if isRelation f then f_relationFromFields f else []) fields in
  map (fun scalar =>
         (scalar,
          map f_name
            (filter (fun f => isRelation f && includes scalar (f_relationFromFields f))
               fields)))
    scalars.

(** [Object.keys(relationScalarFields)]. *)
Definition objectKeys {V : Type} (entries : list (string * V)) : list string :=
  map fst entries.

(** [relationScalarFields[name]], read after [includes] has succeeded. *)
Definition lookupEntry (name : string) (entries : list (string * list string))
  : list string :=
  match find (fun e => (fst e =? name)%string) entries with
  | Some e => snd e
  | None => []
  end.

(** Modelled from the spec: [concatIntoArray] of [../helpers] is not among the
    sources; it pushes every item of [source] onto [target]. *)
Definition concatIntoArray {A : Type} (source target : list A) : list A :=
  target ++ source.

(** Modelled from the spec: [concatUniqueIntoArray (source, target, 'name')] of
    [../helpers] is not among the sources; it pushes the items of [source]
    whose name is not yet in [target], so that the collected validators stay
    deduplicated by name (spec 3). *)
Definition concatUniqueIntoArray (source target : list IClassValidator)
  : list IClassValidator :=
  fold_left
    (fun tgt item =>
       if existsb (fun v => (cv_name v =? cv_name item)%string) tgt
       then tgt
       else tgt ++ [item])
    source target.

(** Stable duplicate removal, the first occurrence winning. *)
Fixpoint uniq (seen xs : list string) : list string :=
  match xs with
  | [] => []
  | x :: rest =>
      if includes x seen then uniq seen rest else x :: uniq (x :: seen) rest
  end.

(** Merge one record into the records already zipped. *)
Fixpoint mergeImportStatements (item : ImportStatementParams)
  (zipped : list ImportStatementParams) : list ImportStatementParams :=
  match zipped with
  | [] => [{| imp_from := imp_from item; imp_destruct := uniq [] (imp_destruct item) |}]
  | first :: rest =>
      if (imp_from first =? imp_from item)%string
      then {| imp_from := imp_from first;
              imp_destruct := uniq [] (imp_destruct first ++ imp_destruct item) |}
           :: rest
      else first :: mergeImportStatements item rest
  end.

(** Modelled from the spec: [zipImportStatementParams] of [../helpers] is not
    among the sources; the import canonicalizer yields one record per
    distinct source, in order of first appearance, each holding the
    duplicate-free, stable-order union of the requested names (spec 4.7). *)
Definition zipImportStatementParams (items : list ImportStatementParams)
  : list ImportStatementParams :=
  fold_left (fun zipped item => mergeImportStatements item zipped) items [].

(** ** Imported collaborators

    What the three source files import and call but do not define: path
    handling, the decorator builders, the client-module imports, the relation
    input synthesizer, and two constants of [../annotations].  The pipelines
    are defined over any implementation of them. *)

Record RelationInputParam : Type := {
  rip_field : Field;
  rip_model : Model;
  rip_allModels : list Model;
  rip_templateHelpers : TemplateHelpers;
  rip_preAndSuffixClassName : string -> string;
  rip_canCreateAnnotation : Directive;
  rip_canConnectAnnotation : Directive;
  rip_canUpdateAnnotation : Directive
}.

Record RelationInput : Type := {
  ri_type : string;
  ri_imports : list ImportStatementParams;
  ri_generatedClasses : list string;
  ri_apiExtraModels : list string;
  ri_classValidators : list IClassValidator
}.

(** Second argument of [parseClassValidators]: a type name or a naming
    convention. *)
Inductive TypeHint : Type :=
| HintName (typeName : string)
| HintNaming (naming : string -> string).

Record ApiPropertyOptions : Type := {
  opt_default : option bool;
  opt_type : option bool
}.

Record Imported : Type := {
  path_sep : string;
  slash : string -> string;
  getRelativePath : string -> string -> string;
  PrismaScalarToFormat : string -> option string;
  parseApiProperty : ParsedField -> ApiPropertyOptions -> list IApiProperty;
  parseClassValidators : ParsedField -> TypeHint -> list IClassValidator;
  makeImportsFromPrismaClient : list ParsedField -> string -> list ImportStatementParams;
  generateRelationInput : RelationInputParam -> Outcome RelationInput;
  DTO_RELATION_MODIFIERS_ON_CREATE : list Directive;
  DTO_RELATION_MODIFIERS_ON_UPDATE : list Directive
}.

(** The parameter object of the three [compute...Params] functions. *)
Record ComputeParam : Type := {
  model : Model;
  allModels : list Model;
  templateHelpers : TemplateHelpers
}.

Record EntityParams : Type := {
  ep_model : Model;
  ep_fields : list ParsedField;
  ep_imports : list ImportStatementParams;
  ep_apiExtraModels : list string
}.

(** [CreateDtoParams] and [UpdateDtoParams] have the same shape. *)
Record DtoParams : Type := {
  dp_model : Model;
  dp_fields : list ParsedField;
  dp_imports : list ImportStatementParams;
  dp_extraClasses : list string;
  dp_apiExtraModels : list string
}.

(** Closure variables of [computeEntityParams] while it reduces, with the
    field records already visited as they were left. *)
Record EntityAcc : Type := {
  ea_hasApiProperty : bool;
  ea_imports : list ImportStatementParams;
  ea_result : list ParsedField;
  ea_fields : list Field
}.

(** Closure variables of [computeCreateDtoParams] and
    [computeUpdateDtoParams] while they reduce. *)
Record DtoAcc : Type := {
  da_hasApiProperty : bool;
  da_hasApiRespProperty : bool;
  da_imports : list ImportStatementParams;
  da_apiExtraModels : list string;
  da_extraClasses : list string;
  da_classValidators : list IClassValidator;
  da_result : list ParsedField;
  da_fields : list Field
}.

Definition newline : string := String "010"%char EmptyString.

Definition nonEmpty {A : Type} (xs : list A) : bool :=
  match xs with
  | [] => false
  | _ :: _ => true
  end.

(** [if (field.type === 'Json') field.type = 'Object';
     else if (field.type === 'Decimal') field.type = 'Float';] *)
Definition genericType (field : Field) : Field :=
  if (f_type field =? "Json")%string then assign_type "Object" field
  else if (f_type field =? "Decimal")%string then assign_type "Float" field
  else field.

(** The import-once test and push shared by every cross-entity import. *)
Definition importOnce (importName importFrom : string)
  (imports : list ImportStatementParams) : list ImportStatementParams :=
  if existsb
       (fun item =>
          includes importName (imp_destruct item) && (imp_from item =? importFrom)%string)
       imports
  then imports
  else imports ++ [{| imp_from := importFrom; imp_destruct := [importName] |}].

Section Pipelines.

Variable I : Imported.
Variable param : ComputeParam.

Local Abbreviation cfg := (config (templateHelpers param)).

Definition relationScalarFields : list (string * list string) :=
  getRelationScalars (m_fields (model param)).

Definition relationScalarFieldNames : list string :=
  objectKeys relationScalarFields.

(** The message of the only [throw] of the three files. *)
Definition notFound (what : string) (field : Field) : string :=
  ("related " ++ what ++ " '" ++ f_type field ++ "' for '"
     ++ m_name (model param) ++ "." ++ f_name field ++ "' not found")%string.

(** The block of the three files that resolves the entity named by
    [field.type] and imports its artifact, skipped for the entity itself
    (part_000 58-91 and 106-139, part_001 162-194, update 138-176). *)
Definition importRelated (what : string) (field : Field) (fromOutput : string)
  (toOutput : Output -> string) (naming filenaming : string -> string)
  (imports : list ImportStatementParams) : Outcome (list ImportStatementParams) :=
  if negb (f_type field =? m_name (model param))%string
  then
    match find (fun m => (m_name m =? f_type field)%string) (allModels param) with
    | None => Throw (notFound what field)
    | Some modelToImportFrom =>
        let importName := naming (f_type field) in
        let importFrom :=
          slash I
            (getRelativePath I fromOutput (toOutput (m_output modelToImportFrom))
               ++ path_sep I ++ filenaming (f_type field))%string in
        Return (importOnce importName importFrom imports)
    end
  else Return imports.

(** *** computeEntityParams (part_000) *)

Definition entityInit : EntityAcc :=
  {| ea_hasApiProperty := false; ea_imports := []; ea_result := []; ea_fields := [] |}.

(** Lines 97-103. *)
Definition entityRelationOverrides (field : Field) (overrides : Overrides) : Overrides :=
  if isRelation field
  then
    set_isNullable
      (if f_isList field then false
       else if f_isRequired field then false
       else negb (isAnnotatedWith field DTO_RELATION_REQUIRED))
      (set_isRequired (isAnnotatedWith field DTO_RELATION_REQUIRED) overrides)
  else overrides.

(** Lines 144-154.  [model.fields] is read from the shared entity; the
    pipeline has so far rewritten nothing but type names in it. *)
Definition isAnyRelationRequired (name : string) : bool :=
  existsb
    (fun relationFieldName =>
       match find (fun anyField => (f_name anyField =? relationFieldName)%string)
               (m_fields (model param)) with
       | None => false
       | Some relationField =>
           isRequired relationField || isAnnotatedWith relationField DTO_RELATION_REQUIRED
       end)
    (lookupEntry name relationScalarFields).

(** Lines 142-158. *)
Definition entityScalarOverrides (field : Field) (overrides : Overrides) : Overrides :=
  if includes (f_name field) relationScalarFieldNames
  then set_isNullable (negb (isAnyRelationRequired (f_name field)))
         (set_isRequired true overrides)
  else overrides.

Definition isPlainType (typeName : string) : bool :=
  includes typeName ["String"; "Json"; "Boolean"].

Definition classTransformerType : ImportStatementParams :=
  {| imp_from := "class-transformer"; imp_destruct := ["Type"] |}.

(** Lines 160-193: the decorators, the imports and [hasApiProperty]. *)
Definition entityDecorate (field : Field) (imports : list ImportStatementParams)
  (hasApiProperty : bool) : Decorators * list ImportStatementParams * bool :=
  if negb (noDependencies cfg)
  then
    let parsed :=
      parseApiProperty I
        (mapDMMFToParsedField field
           (set_isNullable (negb (f_isRequired field))
              (set_isRequired (f_isRequired field) noOverrides))
           noDecorators)
        {| opt_default := Some false; opt_type := None |} in
    let '(apiProperties, imports') :=
      if negb (truthy (PrismaScalarToFormat I (f_type field)))
      then
        let withType :=
          parsed ++
            [{| ap_name := "type";
                ap_value := if isPlainType (f_type field) then f_type field
                            else ("() => " ++ f_type field)%string;
                ap_noEncapsulation := Some true |}] in
        if negb (isPlainType (f_type field))
           && negb (match f_kind field with KEnum => true | _ => false end)
        then
          (withType ++
             [{| ap_name := "type_decorator"; ap_value := f_type field;
                 ap_noEncapsulation := Some true |}],
           classTransformerType :: imports)
        else (withType, imports)
      else (parsed, imports) in
    ({| d_apiProperties := Some apiProperties; d_classValidators := None |},
     imports',
     if nonEmpty apiProperties then true else hasApiProperty)
  else (noDecorators, imports, hasApiProperty).

(** The callback of [model.fields.reduce] (lines 46-201). *)
Definition entityStep (acc : EntityAcc) (field : Field) : Outcome EntityAcc :=
  let overrides :=
    set_isNullable (negb (f_isRequired field)) (set_isRequired true noOverrides) in
  if isAnnotatedWith field DTO_ENTITY_HIDDEN
  then Return {| ea_hasApiProperty := ea_hasApiProperty acc;
                 ea_imports := ea_imports acc;
                 ea_result := ea_result acc;
                 ea_fields := ea_fields acc ++ [field] |}
  else
    attempt imports1 <-
      (if isType field
       then importRelated "type" field (out_entity (m_output (model param))) out_dto
              (plainDtoName (templateHelpers param))
              (plainDtoFilename (templateHelpers param)) (ea_imports acc)
       else Return (ea_imports acc));
    let overrides1 := entityRelationOverrides field overrides in
    attempt imports2 <-
      (if isRelation field
       then importRelated "model" field (out_entity (m_output (model param))) out_entity
              (entityName (templateHelpers param))
              (entityFilename (templateHelpers param)) imports1
       else Return imports1);
    let overrides2 := entityScalarOverrides field overrides1 in
    let '(decorators, imports3, hasApiProperty) :=
      entityDecorate field imports2 (ea_hasApiProperty acc) in
    let field' := if noDependencies cfg then genericType field else field in
    Return {| ea_hasApiProperty := hasApiProperty;
              ea_imports := imports3;
              ea_result := ea_result acc
                             ++ [mapDMMFToParsedField field' overrides2 decorators];
              ea_fields := ea_fields acc ++ [field'] |}.

(** Lines 203-208 of part_000 and 241-247 of part_001. *)
Definition swaggerImport (apiExtraModels : list string)
  (hasApiProperty hasApiRespProperty : bool) (imports : list ImportStatementParams)
  : list ImportStatementParams :=
  if nonEmpty apiExtraModels || hasApiProperty || hasApiRespProperty
  then {| imp_from := "@nestjs/swagger";
          imp_destruct :=
            (if nonEmpty apiExtraModels then ["ApiExtraModels"] else [])
              ++ (if hasApiProperty then ["ApiProperty"] else [])
              ++ (if hasApiRespProperty then ["ApiResponseProperty"] else []) |}
       :: imports
  else imports.

Definition entityFinish (acc : EntityAcc) : EntityParams :=
  let apiExtraModels : list string := [] in
  let fields := ea_result acc in
  let imports := swaggerImport apiExtraModels (ea_hasApiProperty acc) false (ea_imports acc) in
  let importPrismaClient :=
    makeImportsFromPrismaClient I fields (prismaClientImportPath cfg) in
  let imports' :=
    {| imp_from := "class-transformer"; imp_destruct := ["Expose"] |} :: imports in
  {| ep_model := withFields (model param) (ea_fields acc);
     ep_fields := fields;
     ep_imports := zipImportStatementParams (importPrismaClient ++ imports');
     ep_apiExtraModels := apiExtraModels |}.

Definition computeEntityParams : Outcome EntityParams :=
  attempt acc <- reduceM entityStep (m_fields (model param)) entityInit;
  Return (entityFinish acc).

(** *** computeCreateDtoParams (part_001) *)

Definition dtoInit : DtoAcc :=
  {| da_hasApiProperty := false; da_hasApiRespProperty := false; da_imports := [];
     da_apiExtraModels := []; da_extraClasses := []; da_classValidators := [];
     da_result := []; da_fields := [] |}.

(** [return result]: the field is dropped; the closure variables keep what
    was pushed so far and the field record stays as it was left. *)
Definition dropField (acc : DtoAcc) (field : Field) : DtoAcc :=
  {| da_hasApiProperty := da_hasApiProperty acc;
     da_hasApiRespProperty := da_hasApiRespProperty acc;
     da_imports := da_imports acc;
     da_apiExtraModels := da_apiExtraModels acc;
     da_extraClasses := da_extraClasses acc;
     da_classValidators := da_classValidators acc;
     da_result := da_result acc;
     da_fields := da_fields acc ++ [field] |}.

(** Lines 78-82 (update 80-84): [field.isReadOnly = false]. *)
Definition includeIdentifier (field : Field) : Field :=
  if isAnnotatedWith field DTO_RELATION_INCLUDE_ID
     && includes (f_name field) relationScalarFieldNames
  then assign_isReadOnly false field
  else field.

(** Lines 117-125 (update 107-115): what a composite relation input adds
    to the closure variables. *)
Definition collectRelationInput (relationInputType : RelationInput) (acc : DtoAcc)
  : DtoAcc :=
  {| da_hasApiProperty := da_hasApiProperty acc;
     da_hasApiRespProperty := da_hasApiRespProperty acc;
     da_imports := concatIntoArray (ri_imports relationInputType) (da_imports acc);
     da_apiExtraModels :=
       if negb (noDependencies cfg)
       then concatIntoArray (ri_apiExtraModels relationInputType) (da_apiExtraModels acc)
       else da_apiExtraModels acc;
     da_extraClasses :=
       concatIntoArray (ri_generatedClasses relationInputType) (da_extraClasses acc);
     da_classValidators :=
       concatUniqueIntoArray (ri_classValidators relationInputType)
         (da_classValidators acc);
     da_result := da_result acc;
     da_fields := da_fields acc |}.

Definition withImports (imports : list ImportStatementParams) (acc : DtoAcc) : DtoAcc :=
  {| da_hasApiProperty := da_hasApiProperty acc;
     da_hasApiRespProperty := da_hasApiRespProperty acc;
     da_imports := imports;
     da_apiExtraModels := da_apiExtraModels acc;
     da_extraClasses := da_extraClasses acc;
     da_classValidators := da_classValidators acc;
     da_result := da_result acc;
     da_fields := da_fields acc |}.

Definition createRelationInputParam (field : Field) : RelationInputParam :=
  {| rip_field := field;
     rip_model := model param;
     rip_allModels := allModels param;
     rip_templateHelpers := templateHelpers param;
     rip_preAndSuffixClassName := createDtoName (templateHelpers param);
     rip_canCreateAnnotation := DTO_RELATION_CAN_CREATE_ON_CREATE;
     rip_canConnectAnnotation := DTO_RELATION_CAN_CONNECT_ON_CREATE;
     rip_canUpdateAnnotation := DTO_RELATION_CAN_UPDATE_ON_UPDATE |}.

(** [relationInputType.classValidators.find((cv) => cv.name === 'Type')]. *)
Definition findType (classValidators : list IClassValidator) : option IClassValidator :=
  find (fun cv => (cv_name cv =? "Type")%string) classValidators.

(** Lines 101-137, once the synthesizer has answered. *)
Definition createApplyRelationInput (relationInputType : RelationInput)
  (acc : DtoAcc) (field : Field) (overrides : Overrides)
  : DtoAcc * Field * Overrides :=
  if (1 <? List.length (ri_imports relationInputType))%nat
  then
    let overrides1 :=
      if isAnnotatedWith field DTO_RELATION_REQUIRED
      then set_isRequired true overrides else overrides in
    let overrides2 :=
      if f_isList field then set_isRequired false overrides1 else overrides1 in
    (collectRelationInput relationInputType acc, field,
     set_type (ri_type relationInputType) overrides2)
  else
    let acc' :=
      withImports (concatIntoArray (ri_imports relationInputType) (da_imports acc)) acc in
    match findType (ri_classValidators relationInputType) with
    | Some type =>
        match cv_value type with
        | Some value =>
            if negb (value =? "")%string
            then (acc',
                  appendDocumentation
                    (newline ++ "%" ++ replaceFirst "() => " "" value ++ "%")%string field,
                  set_type value overrides)
            else (acc', field, overrides)
        | None => (acc', field, overrides)
        end
    | None => (acc', field, overrides)
    end.

(** Lines 86-138; [None] stands for [return result]. *)
Definition createRelation (acc : DtoAcc) (field : Field) (overrides : Overrides)
  : Outcome (option (DtoAcc * Field * Overrides)) :=
  if isRelation field
  then
    if negb (isAnnotatedWithOneOf field (DTO_RELATION_MODIFIERS_ON_CREATE I))
    then Return None
    else
      attempt relationInputType <- generateRelationInput I (createRelationInputParam field);
      Return (Some (createApplyRelationInput relationInputType acc field overrides))
  else Return (Some (acc, field, overrides)).

(** [overrides.type?.replace('() =>', '') || templateHelpers.createDtoName]. *)
Definition createTypeHint (overrides : Overrides) : TypeHint :=
  match o_type overrides with
  | Some typeName =>
      let stripped := replaceFirst "() =>" "" typeName in
      if (stripped =? "")%string
      then HintNaming (createDtoName (templateHelpers param))
      else HintName stripped
  | None => HintNaming (createDtoName (templateHelpers param))
  end.

(** Lines 197-231: validators, response flag and documentation decorators. *)
Definition createDecorate (acc : DtoAcc) (field : Field) (overrides : Overrides)
  : DtoAcc * Overrides * Decorators :=
  let '(classValidators, collected) :=
    if classValidation cfg
    then
      let parsed :=
        parseClassValidators I (mapDMMFToParsedField field overrides noDecorators)
          (createTypeHint overrides) in
      (Some parsed, concatUniqueIntoArray parsed (da_classValidators acc))
    else (None, da_classValidators acc) in
  if negb (noDependencies cfg)
  then
    let createApiResp := isAnnotatedWith field DTO_CREATE_API_RESP in
    let overrides' := set_createApiResp createApiResp overrides in
    let parsed :=
      parseApiProperty I (mapDMMFToParsedField field noOverrides noDecorators)
        {| opt_default := None; opt_type := Some (negb (truthy (o_type overrides'))) |} in
    let withArray :=
      if f_isList field
      then parsed ++ [{| ap_name := "isArray"; ap_value := "true";
                         ap_noEncapsulation := None |}]
      else parsed in
    let apiProperties :=
      match o_type overrides' with
      | Some typeName =>
          if negb (typeName =? "")%string
          then withArray ++ [{| ap_name := "type"; ap_value := typeName;
                                ap_noEncapsulation := Some true |}]
          else withArray
      | None => withArray
      end in
    ({| da_hasApiProperty :=
          if nonEmpty apiProperties then true else da_hasApiProperty acc;
        da_hasApiRespProperty := da_hasApiRespProperty acc || createApiResp;
        da_imports := da_imports acc;
        da_apiExtraModels := da_apiExtraModels acc;
        da_extraClasses := da_extraClasses acc;
        da_classValidators := collected;
        da_result := da_result acc;
        da_fields := da_fields acc |},
     overrides',
     {| d_apiProperties := Some apiProperties; d_classValidators := classValidators |})
  else
    ({| da_hasApiProperty := da_hasApiProperty acc;
        da_hasApiRespProperty := da_hasApiRespProperty acc;
        da_imports := da_imports acc;
        da_apiExtraModels := da_apiExtraModels acc;
        da_extraClasses := da_extraClasses acc;
        da_classValidators := collected;
        da_result := da_result acc;
        da_fields := da_fields acc |},
     overrides,
     {| d_apiProperties := None; d_classValidators := classValidators |}).

(** [return [...result, mapDMMFToParsedField(field, overrides, decorators)]],
    after the rewrite of the type name under [noDependencies]. *)
Definition emitField (acc : DtoAcc) (field : Field) (overrides : Overrides)
  (decorators : Decorators) : DtoAcc :=
  let field' := if noDependencies cfg then genericType field else field in
  {| da_hasApiProperty := da_hasApiProperty acc;
     da_hasApiRespProperty := da_hasApiRespProperty acc;
     da_imports := da_imports acc;
     da_apiExtraModels := da_apiExtraModels acc;
     da_extraClasses := da_extraClasses acc;
     da_classValidators := da_classValidators acc;
     da_result := da_result acc ++ [mapDMMFToParsedField field' overrides decorators];
     da_fields := da_fields acc ++ [field'] |}.

(** Lines 140-238, after the relation block. *)
Definition createRest (acc : DtoAcc) (field : Field) (overrides : Overrides)
  : Outcome DtoAcc :=
  if negb (isAnnotatedWith field DTO_RELATION_INCLUDE_ID)
     && includes (f_name field) relationScalarFieldNames
  then Return (dropField acc field)
  else
    let isDtoOptional := isAnnotatedWith field DTO_CREATE_OPTIONAL in
    if negb isDtoOptional
       && (isIdWithDefaultValue field || isUpdatedAt field
           || isRequiredWithDefaultValue field)
    then Return (dropField acc field)
    else
      let overrides1 :=
        if isDtoOptional then set_isRequired false overrides else overrides in
      attempt imports <-
        (if isType field
         then importRelated "type" field (out_dto (m_output (model param))) out_dto
                (createDtoName (templateHelpers param))
                (createDtoFilename (templateHelpers param)) (da_imports acc)
         else Return (da_imports acc));
      let '(acc', overrides2, decorators) :=
        createDecorate (withImports imports acc) field overrides1 in
      Return (emitField acc' field overrides2 decorators).

(** The callback of [model.fields.reduce] (lines 68-239). *)
Definition createStep (acc : DtoAcc) (field0 : Field) : Outcome DtoAcc :=
  let overrides := set_createApiResp false noOverrides in
  let field := includeIdentifier field0 in
  if isAnnotatedWith field DTO_CREATE_HIDDEN then Return (dropField acc field)
  else if isReadOnly field then Return (dropField acc field)
  else
    attempt related <- createRelation acc field overrides;
    match related with
    | None => Return (dropField acc field)
    | Some (acc1, field1, overrides1) => createRest acc1 field1 overrides1
    end.

(** Lines 249-263 (update 235-249). *)
Definition validatorImports (classValidators : list IClassValidator)
  (imports : list ImportStatementParams) : list ImportStatementParams :=
  if nonEmpty classValidators
  then
    let imports' :=
      match findType classValidators with
      | Some _ => classTransformerType :: imports
      | None => imports
      end in
    {| imp_from := "class-validator";
       imp_destruct :=
         sortStrings
           (map cv_name
              (filter (fun cv => negb (cv_name cv =? "Type")%string) classValidators)) |}
    :: imports'
  else imports.

(** Lines 241-276 (update 227-262). *)
Definition dtoFinish (acc : DtoAcc) : DtoParams :=
  let fields := da_result acc in
  let imports :=
    validatorImports (da_classValidators acc)
      (swaggerImport (da_apiExtraModels acc) (da_hasApiProperty acc)
         (da_hasApiRespProperty acc) (da_imports acc)) in
  let importPrismaClient :=
    makeImportsFromPrismaClient I fields (prismaClientImportPath cfg) in
  {| dp_model := withFields (model param) (da_fields acc);
     dp_fields := fields;
     dp_imports := zipImportStatementParams (importPrismaClient ++ imports);
     dp_extraClasses := da_extraClasses acc;
     dp_apiExtraModels := da_apiExtraModels acc |}.

Definition createReduce : Outcome DtoAcc :=
  reduceM createStep (m_fields (model param)) dtoInit.

Definition computeCreateDtoParams : Outcome DtoParams :=
  attempt acc <- createReduce;
  Return (dtoFinish acc).

(** *** computeUpdateDtoParams (compute-update-dto-params.ts) *)

Definition updateRelationInputParam (field : Field) : RelationInputParam :=
  {| rip_field := field;
     rip_model := model param;
     rip_allModels := allModels param;
     rip_templateHelpers := templateHelpers param;
     rip_preAndSuffixClassName := updateDtoName (templateHelpers param);
     rip_canCreateAnnotation := DTO_RELATION_CAN_CREATE_ON_UPDATE;
     rip_canConnectAnnotation := DTO_RELATION_CAN_CONNECT_ON_UPDATE;
     rip_canUpdateAnnotation := DTO_RELATION_CAN_UPDATE_ON_UPDATE |}.

(** Lines 88-116; [None] stands for [return result]. *)
Definition updateRelation (acc : DtoAcc) (field : Field) (overrides : Overrides)
  : Outcome (option (DtoAcc * Overrides)) :=
  if isRelation field
  then
    if negb (isAnnotatedWithOneOf field (DTO_RELATION_MODIFIERS_ON_UPDATE I))
    then Return None
    else
      attempt relationInputType <- generateRelationInput I (updateRelationInputParam field);
      Return (Some (collectRelationInput relationInputType acc,
                    set_isNullable false
                      (set_isList false
                         (set_type (ri_type relationInputType) overrides))))
  else Return (Some (acc, overrides)).

(** [overrides.type || (isType(field) && doFullUpdate
      ? templateHelpers.createDtoName : templateHelpers.updateDtoName)]. *)
Definition updateTypeHint (field : Field) (overrides : Overrides) : TypeHint :=
  let naming :=
    if isType field && isAnnotatedWith field DTO_TYPE_FULL_UPDATE
    then createDtoName (templateHelpers param)
    else updateDtoName (templateHelpers param) in
  match o_type overrides with
  | Some typeName =>
      if negb (typeName =? "")%string then HintName typeName else HintNaming naming
  | None => HintNaming naming
  end.

(** Lines 179-217. *)
Definition updateDecorate (acc : DtoAcc) (field : Field) (overrides : Overrides)
  : DtoAcc * Overrides * Decorators :=
  let '(classValidators, collected) :=
    if classValidation cfg
    then
      let parsed :=
        parseClassValidators I (mapDMMFToParsedField field overrides noDecorators)
          (updateTypeHint field overrides) in
      (Some parsed, concatUniqueIntoArray parsed (da_classValidators acc))
    else (None, da_classValidators acc) in
  if negb (noDependencies cfg)
  then
    let updateApiResp := isAnnotatedWith field DTO_UPDATE_API_RESP in
    let overrides' := set_updateApiResp updateApiResp overrides in
    let parsed :=
      parseApiProperty I
        (mapDMMFToParsedField field
           (set_isNullable (negb (f_isRequired field)) overrides') noDecorators)
        {| opt_default := None; opt_type := Some (negb (truthy (o_type overrides'))) |} in
    let apiProperties :=
      match o_type overrides' with
      | Some typeName =>
          if negb (typeName =? "")%string
          then parsed ++ [{| ap_name := "type"; ap_value := typeName;
                             ap_noEncapsulation := Some true |}]
          else parsed
      | None => parsed
      end in
    ({| da_hasApiProperty :=
          if nonEmpty apiProperties then true else da_hasApiProperty acc;
        da_hasApiRespProperty := da_hasApiRespProperty acc || updateApiResp;
        da_imports := da_imports acc;
        da_apiExtraModels := da_apiExtraModels acc;
        da_extraClasses := da_extraClasses acc;
        da_classValidators := collected;
        da_result := da_result acc;
        da_fields := da_fields acc |},
     overrides',
     {| d_apiProperties := Some apiProperties; d_classValidators := classValidators |})
  else
    ({| da_hasApiProperty := da_hasApiProperty acc;
        da_hasApiRespProperty := da_hasApiRespProperty acc;
        da_imports := da_imports acc;
        da_apiExtraModels := da_apiExtraModels acc;
        da_extraClasses := da_extraClasses acc;
        da_classValidators := collected;
        da_result := da_result acc;
        da_fields := da_fields acc |},
     overrides,
     {| d_apiProperties := None; d_classValidators := classValidators |}).

(** Lines 118-224, after the relation block. *)
Definition updateRest (acc : DtoAcc) (field : Field) (overrides : Overrides)
  : Outcome DtoAcc :=
  if negb (isAnnotatedWith field DTO_RELATION_INCLUDE_ID)
     && includes (f_name field) relationScalarFieldNames
  then Return (dropField acc field)
  else
    let isDtoOptional := isAnnotatedWith field DTO_UPDATE_OPTIONAL in
    let doFullUpdate := isAnnotatedWith field DTO_TYPE_FULL_UPDATE in
    if negb isDtoOptional
       && (isId field || isUpdatedAt field || isRequiredWithDefaultValue field)
    then Return (dropField acc field)
    else
      attempt imports <-
        (if isType field
         then importRelated "type" field (out_dto (m_output (model param))) out_dto
                (if doFullUpdate then createDtoName (templateHelpers param)
                 else updateDtoName (templateHelpers param))
                (if doFullUpdate then createDtoFilename (templateHelpers param)
                 else updateDtoFilename (templateHelpers param))
                (da_imports acc)
         else Return (da_imports acc));
      let '(acc', overrides1, decorators) :=
        updateDecorate (withImports imports acc) field overrides in
      Return (emitField acc' field overrides1 decorators).

(** The callback of [model.fields.reduce] (lines 68-225). *)
Definition updateStep (acc : DtoAcc) (field0 : Field) : Outcome DtoAcc :=
  let overrides :=
    set_updateApiResp false
      (set_isNullable (negb (f_isRequired field0)) (set_isRequired false noOverrides)) in
  let field := includeIdentifier field0 in
  if isAnnotatedWith field DTO_UPDATE_HIDDEN then Return (dropField acc field)
  else if isReadOnly field then Return (dropField acc field)
  else
    attempt related <- updateRelation acc field overrides;
    match related with
    | None => Return (dropField acc field)
    | Some (acc1, overrides1) => updateRest acc1 field overrides1
    end.

Definition updateReduce : Outcome DtoAcc :=
  reduceM updateStep (m_fields (model param)) dtoInit.

Definition computeUpdateDtoParams : Outcome DtoParams :=
  attempt acc <- updateReduce;
  Return (dtoFinish acc).

End Pipelines.

(** ** The relation input synthesizer *)

(** Modelled from the spec: [generateRelationInput] of [../helpers] is not
    among the sources.  It resolves the target entity in the full entity set
    and fails with the owning entity and field names when it is absent; it
    reads the three permission directives; exactly one enabled mode collapses
    to a direct reference to the target artifact, with its coercion target;
    otherwise a composite nested-input type is synthesized, with one import
    per enabled mode and the composite as auxiliary generated type (spec
    4.3).  The import records are those needed to reference the type, one
    per enabled mode, whatever the target.  The path functions are those of
    [Imported]. *)
Definition generateRelationInputModel (sep : string) (slashFn : string -> string)
  (relativePath : string -> string -> string) (p : RelationInputParam)
  : Outcome RelationInput :=
  let field := rip_field p in
  let t := rip_templateHelpers p in
  match find (fun m => (m_name m =? f_type field)%string) (rip_allModels p) with
  | None =>
      Throw ("related model '" ++ f_type field ++ "' for '"
               ++ m_name (rip_model p) ++ "." ++ f_name field ++ "' not found")%string
  | Some target =>
      let mode (annotation : Directive) (naming filenaming : string -> string) :=
        if isAnnotatedWith field annotation
        then [(naming (f_type field),
               {| imp_from :=
                    slashFn
                      (relativePath (out_dto (m_output (rip_model p)))
                         (out_dto (m_output target))
                         ++ sep ++ filenaming (f_type field))%string;
                  imp_destruct := [naming (f_type field)] |})]
        else [] in
      let modes :=
        mode (rip_canCreateAnnotation p) (createDtoName t) (createDtoFilename t)
          ++ mode (rip_canConnectAnnotation p) (connectDtoName t) (connectDtoFilename t)
          ++ mode (rip_canUpdateAnnotation p) (updateDtoName t) (updateDtoFilename t) in
      let imports := map snd modes in
      match modes with
      | [(typeName, _)] =>
          Return {| ri_type := typeName;
                    ri_imports := imports;
                    ri_generatedClasses := [];
                    ri_apiExtraModels := [typeName];
                    ri_classValidators :=
                      [{| cv_name := "ValidateNested"; cv_value := None |};
                       {| cv_name := "Type";
                          cv_value := Some ("() => " ++ typeName)%string |}] |}
      | _ =>
          let composite :=
            rip_preAndSuffixClassName p
              (transformClassNameCase t (m_name (rip_model p))
                 ++ transformClassNameCase t (f_name field) ++ "RelationInput")%string in
          Return {| ri_type := composite;
                    ri_imports := imports;
                    ri_generatedClasses := [composite];
                    ri_apiExtraModels := map fst modes ++ [composite];
                    ri_classValidators :=
                      [{| cv_name := "ValidateNested"; cv_value := None |};
                       {| cv_name := "Type";
                          cv_value := Some ("() => " ++ composite)%string |}] |}
      end
  end.

(** ** A schema to run the pipelines on *)

Module Sample.

Definition helpers (noDeps validation : bool) : TemplateHelpers :=
  {| config := {| noDependencies := noDeps; classValidation := validation;
                  prismaClientImportPath := "@prisma/client" |};
     entityName := fun n => n;
     plainDtoName := fun n => (n ++ "Dto")%string;
     createDtoName := fun n => ("Create" ++ n ++ "Dto")%string;
     updateDtoName := fun n => ("Update" ++ n ++ "Dto")%string;
     connectDtoName := fun n => ("Connect" ++ n ++ "Dto")%string;
     entityFilename := fun n => (n ++ ".entity")%string;
     plainDtoFilename := fun n => (n ++ ".dto")%string;
     createDtoFilename := fun n => ("create-" ++ n ++ ".dto")%string;
     updateDtoFilename := fun n => ("update-" ++ n ++ ".dto")%string;
     connectDtoFilename := fun n => ("connect-" ++ n ++ ".dto")%string;
     transformClassNameCase := fun n => n |}.

(** Collaborators that keep every source a relative path, attach no
    documentation decorator and validate presence and, for nested shapes,
    the coercion target. *)
Definition imported : Imported :=
  {| path_sep := "/";
     slash := fun s => s;
     getRelativePath := fun _ _ => ".";
     PrismaScalarToFormat := fun _ => None;
     parseApiProperty := fun _ _ => [];
     parseClassValidators :=
       fun pf hint =>
         {| cv_name := if pf_isRequired pf then "IsNotEmpty" else "IsOptional";
            cv_value := None |}
         :: match hint with
            | HintName typeName =>
                [{| cv_name := "ValidateNested"; cv_value := None |};
                 {| cv_name := "Type"; cv_value := Some ("() => " ++ typeName)%string |}]
            | HintNaming _ => [{| cv_name := "IsDefined"; cv_value := None |}]
            end;
     makeImportsFromPrismaClient := fun _ _ => [];
     generateRelationInput := generateRelationInputModel "/" (fun s => s) (fun _ _ => ".");
     DTO_RELATION_MODIFIERS_ON_CREATE :=
       [DTO_RELATION_CAN_CREATE_ON_CREATE; DTO_RELATION_CAN_CONNECT_ON_CREATE];
     DTO_RELATION_MODIFIERS_ON_UPDATE :=
       [DTO_RELATION_CAN_CREATE_ON_UPDATE; DTO_RELATION_CAN_CONNECT_ON_UPDATE] |}.

Definition scalar (name typeName : string) (required : bool) (annotations : list Directive)
  : Field :=
  {| f_name := name; f_type := typeName; f_kind := KScalar; f_isList := false;
     f_isRequired := required; f_isReadOnly := false; f_hasDefaultValue := false;
     f_isId := false; f_isUpdatedAt := false; f_documentation := None;
     f_annotations := annotations; f_relationFromFields := [] |}.

Definition identifier : Field :=
  {| f_name := "id"; f_type := "Int"; f_kind := KScalar; f_isList := false;
     f_isRequired := true; f_isReadOnly := false; f_hasDefaultValue := true;
     f_isId := true; f_isUpdatedAt := false; f_documentation := None;
     f_annotations := []; f_relationFromFields := [] |}.

(** A foreign-key scalar, read-only as the schema introspection hands it. *)
Definition foreignKey (name : string) (required : bool) (annotations : list Directive)
  : Field :=
  {| f_name := name; f_type := "Int"; f_kind := KScalar; f_isList := false;
     f_isRequired := required; f_isReadOnly := true; f_hasDefaultValue := false;
     f_isId := false; f_isUpdatedAt := false; f_documentation := None;
     f_annotations := annotations; f_relationFromFields := [] |}.

Definition relation (name target : string) (many required : bool)
  (keys : list string) (annotations : list Directive) : Field :=
  {| f_name := name; f_type := target; f_kind := KRelation; f_isList := many;
     f_isRequired := required; f_isReadOnly := false; f_hasDefaultValue := false;
     f_isId := false; f_isUpdatedAt := false; f_documentation := Some "";
     f_annotations := annotations; f_relationFromFields := keys |}.

Definition nested (name typeName : string) (annotations : list Directive) : Field :=
  {| f_name := name; f_type := typeName; f_kind := KType; f_isList := false;
     f_isRequired := true; f_isReadOnly := false; f_hasDefaultValue := false;
     f_isId := false; f_isUpdatedAt := false; f_documentation := None;
     f_annotations := annotations; f_relationFromFields := [] |}.

Definition entity (name : string) (fields : list Field) : Model :=
  {| m_name := name; m_fields := fields;
     m_output := {| out_dto := "src/dto"; out_entity := "src/entities" |} |}.

Definition user : Model :=
  entity "User" [identifier; scalar "name" "String" true []].

Definition comment : Model :=
  entity "Comment" [identifier; scalar "text" "String" true []].

Definition authorId : Field :=
  foreignKey "authorId" true [DTO_RELATION_INCLUDE_ID].

Definition author : Field :=
  relation "author" "User" false true ["authorId"]
    [DTO_RELATION_CAN_CONNECT_ON_CREATE; DTO_RELATION_CAN_CONNECT_ON_UPDATE].

Definition parent : Field :=
  relation "parent" "Post" false false ["parentId"]
    [DTO_RELATION_CAN_CONNECT_ON_CREATE; DTO_RELATION_CAN_CONNECT_ON_UPDATE].

Definition comments : Field :=
  relation "comments" "Comment" true true []
    [DTO_RELATION_REQUIRED; DTO_RELATION_CAN_CREATE_ON_CREATE;
     DTO_RELATION_CAN_CONNECT_ON_CREATE].

Definition post : Model :=
  entity "Post"
    [identifier;
     scalar "title" "String" true [];
     authorId;
     author;
     foreignKey "parentId" false [];
     parent;
     comments].

(** Required with a default value, create-optional, and hidden from create. *)
Definition createdAt : Field :=
  {| f_name := "createdAt"; f_type := "DateTime"; f_kind := KScalar; f_isList := false;
     f_isRequired := true; f_isReadOnly := false; f_hasDefaultValue := true;
     f_isId := false; f_isUpdatedAt := false; f_documentation := None;
     f_annotations := [DTO_CREATE_OPTIONAL; DTO_CREATE_HIDDEN];
     f_relationFromFields := [] |}.

Definition updatedAt : Field :=
  {| f_name := "updatedAt"; f_type := "DateTime"; f_kind := KScalar; f_isList := false;
     f_isRequired := true; f_isReadOnly := false; f_hasDefaultValue := false;
     f_isId := false; f_isUpdatedAt := true; f_documentation := None;
     f_annotations := [DTO_CREATE_OPTIONAL; DTO_UPDATE_OPTIONAL];
     f_relationFromFields := [] |}.

Definition audit : Model :=
  entity "Audit" [identifier; createdAt; updatedAt; scalar "payload" "Json" true []].

(** An entity with a relation to an entity that the schema does not have. *)
Definition ghost : Field :=
  relation "ghost" "Ghost" false false []
    [DTO_RELATION_CAN_CONNECT_ON_CREATE; DTO_RELATION_CAN_CONNECT_ON_UPDATE].

Definition haunted : Model :=
  entity "Haunted" [identifier; ghost].

Definition schema : list Model := [user; comment; post; audit; haunted].

Definition onPost (noDeps validation : bool) : ComputeParam :=
  {| model := post; allModels := schema; templateHelpers := helpers noDeps validation |}.

Definition onAudit (noDeps validation : bool) : ComputeParam :=
  {| model := audit; allModels := schema; templateHelpers := helpers noDeps validation |}.

Definition onHaunted (noDeps validation : bool) : ComputeParam :=
  {| model := haunted; allModels := schema; templateHelpers := helpers noDeps validation |}.

End Sample.

(** Collaborators with a scalar format for [Int] and [DateTime] and a
    documentation parser that reports requiredness and nullability. *)
Module Formats.

Definition imported : Imported :=
  {| path_sep := path_sep Sample.imported;
     slash := slash Sample.imported;
     getRelativePath := getRelativePath Sample.imported;
     PrismaScalarToFormat :=
       fun typeName =>
         if (typeName =? "Int")%string then Some "int32"
         else if (typeName =? "DateTime")%string then Some "date-time"
         else None;
     parseApiProperty :=
       fun pf _ =>
         [{| ap_name := "required";
             ap_value := if pf_isRequired pf then "true" else "false";
             ap_noEncapsulation := None |};
          {| ap_name := "nullable";
             ap_value := match pf_isNullable pf with
                         | Some true => "true"
                         | _ => "false"
                         end;
             ap_noEncapsulation := None |}];
     parseClassValidators := parseClassValidators Sample.imported;
     makeImportsFromPrismaClient := makeImportsFromPrismaClient Sample.imported;
     generateRelationInput := generateRelationInput Sample.imported;
     DTO_RELATION_MODIFIERS_ON_CREATE := DTO_RELATION_MODIFIERS_ON_CREATE Sample.imported;
     DTO_RELATION_MODIFIERS_ON_UPDATE := DTO_RELATION_MODIFIERS_ON_UPDATE Sample.imported |}.

End Formats.

(** ** Vocabulary of the properties *)

(** The name of [field] is a key of the relation scalar index of the entity. *)
Definition tracked (param : ComputeParam) (field : Field) : bool :=
  includes (f_name field) (relationScalarFieldNames param).

(** Some relation field of the entity that has [field] among its foreign
    keys is required by the schema or carries the relation-required
    directive. *)
Definition anyOwningRelationRequired (m : Model) (field : Field) : bool :=
  existsb
    (fun r =>
       isRelation r && includes (f_name field) (f_relationFromFields r)
       && (f_isRequired r || isAnnotatedWith r DTO_RELATION_REQUIRED))
    (m_fields m).

(** Field names identify the fields of an entity. *)
Definition uniqueNames (m : Model) : Prop :=
  NoDup (map f_name (m_fields m)).

Definition entityKeeps (field : Field) : bool :=
  negb (isAnnotatedWith field DTO_ENTITY_HIDDEN).

(** The override set the Entity pipeline resolves for [field]. *)
Definition entityOverrides (param : ComputeParam) (field : Field) : Overrides :=
  entityScalarOverrides param field
    (entityRelationOverrides field
       (set_isNullable (negb (f_isRequired field)) (set_isRequired true noOverrides))).

(** No relation field of the entity is itself listed as a foreign key:
    the foreign keys of a schema are scalar fields. *)
Definition foreignKeysAreScalars (param : ComputeParam) : bool :=
  forallb (fun r => negb (isRelation r && tracked param r)) (m_fields (model param)).

(** [field] is a foreign key of the relation field [r]. *)
Definition ownedBy (field r : Field) : bool :=
  isRelation r && includes (f_name field) (f_relationFromFields r).

(** The rewrite of the type name under [noDependencies], as the output sees it. *)
Definition emittedField (param : ComputeParam) (field : Field) : Field :=
  if noDependencies (config (templateHelpers param)) then genericType field else field.

(** The coercion target a direct reference comes with: the value of the
    validator named [Type], when it is a non-empty string. *)
Definition coercionTarget (relationInputType : RelationInput) : option string :=
  match findType (ri_classValidators relationInputType) with
  | Some type =>
      match cv_value type with
      | Some value => if negb (value =? "")%string then Some value else None
      | None => None
      end
  | None => None
  end.

(** What the pipeline appends to the documentation for a coercion target. *)
Definition coercionNote (value : string) : string :=
  (newline ++ "%" ++ replaceFirst "() => " "" value ++ "%")%string.

(** The read-only flag is set and is not cleared by lines 78-82. *)
Definition staysReadOnly (param : ComputeParam) (field : Field) : bool :=
  f_isReadOnly field
  && negb (isAnnotatedWith field DTO_RELATION_INCLUDE_ID && tracked param field).

(** The rules of the Create pipeline ahead of the rule on defaults: not
    hidden from create, not read-only, a relation only with a create-time
    modifier, a foreign key only with relation-include-identifier. *)
Definition createGates (I : Imported) (param : ComputeParam) (field : Field) : bool :=
  negb (isAnnotatedWith field DTO_CREATE_HIDDEN)
  && negb (staysReadOnly param field)
  && (negb (isRelation field)
      || isAnnotatedWithOneOf field (DTO_RELATION_MODIFIERS_ON_CREATE I))
  && (isAnnotatedWith field DTO_RELATION_INCLUDE_ID || negb (tracked param field)).

(** Identifier with default, auto-timestamp or required with default value. *)
Definition hasCreateDefault (field : Field) : bool :=
  isIdWithDefaultValue field || isUpdatedAt field || isRequiredWithDefaultValue field.

Definition createKeeps (I : Imported) (param : ComputeParam) (field : Field) : bool :=
  createGates I param field
  && (isAnnotatedWith field DTO_CREATE_OPTIONAL || negb (hasCreateDefault field)).

(** The rules of the Update pipeline, likewise. *)
Definition updateGates (I : Imported) (param : ComputeParam) (field : Field) : bool :=
  negb (isAnnotatedWith field DTO_UPDATE_HIDDEN)
  && negb (staysReadOnly param field)
  && (negb (isRelation field)
      || isAnnotatedWithOneOf field (DTO_RELATION_MODIFIERS_ON_UPDATE I))
  && (isAnnotatedWith field DTO_RELATION_INCLUDE_ID || negb (tracked param field)).

Definition hasUpdateDefault (field : Field) : bool :=
  isId field || isUpdatedAt field || isRequiredWithDefaultValue field.

Definition updateKeeps (I : Imported) (param : ComputeParam) (field : Field) : bool :=
  updateGates I param field
  && (isAnnotatedWith field DTO_UPDATE_OPTIONAL || negb (hasUpdateDefault field)).

(** A relation field reaches the relation input synthesizer. *)
Definition createSynthesizes (I : Imported) (param : ComputeParam) (f : Field) : bool :=
  isRelation f
  && negb (isAnnotatedWith f DTO_CREATE_HIDDEN)
  && negb (staysReadOnly param f)
  && isAnnotatedWithOneOf f (DTO_RELATION_MODIFIERS_ON_CREATE I).

Definition updateSynthesizes (I : Imported) (param : ComputeParam) (f : Field) : bool :=
  isRelation f
  && negb (isAnnotatedWith f DTO_UPDATE_HIDDEN)
  && negb (staysReadOnly param f)
  && isAnnotatedWithOneOf f (DTO_RELATION_MODIFIERS_ON_UPDATE I).



(** The coercion target the Create pipeline notes in the documentation of
    [f] (part_001 126-134): that of a relation input with at most one import
    record, for a relation field that reaches the synthesizer. *)
Definition createNote (I : Imported) (param : ComputeParam) (f : Field)
  : option string :=
  if createSynthesizes I param f
  then
    match generateRelationInput I
            (createRelationInputParam param (includeIdentifier param f)) with
    | Return ri =>
        if (1 <? List.length (ri_imports ri))%nat then None else coercionTarget ri
    | Throw _ => None
    end
  else None.

(** How an output field of the Create pipeline relates to the field it
    comes from. *)
Definition CreateEmits (I : Imported) (param : ComputeParam) (f : Field)
  (pf : ParsedField) : Prop :=
  pf_name pf = f_name f
  /\ (isAnnotatedWith f DTO_CREATE_OPTIONAL = true -> pf_isRequired pf = false)
  /\ (isRelation f = false ->
      pf_documentation pf = f_documentation f
      /\ pf_type pf = f_type (emittedField param f))
  /\ (isRelation f = true ->
      exists ri,
        generateRelationInput I (createRelationInputParam param (includeIdentifier param f))
        = Return ri
        /\ if (1 <? List.length (ri_imports ri))%nat
           then pf_type pf = ri_type ri
                /\ (f_isList f = true -> pf_isRequired pf = false)
                /\ pf_documentation pf = f_documentation f
           else match coercionTarget ri with
                | Some value =>
                    pf_type pf = value
                    /\ pf_documentation pf
                       = Some (orElse (f_documentation f) "undefined"
                                 ++ coercionNote value)%string
                | None =>
                    pf_type pf = f_type (emittedField param f)
                    /\ pf_documentation pf = f_documentation f
                end).

(** How an output field of the Update pipeline relates to the field it
    comes from. *)
Definition UpdateEmits (f : Field) (pf : ParsedField) : Prop :=
  pf_name pf = f_name f
  /\ f_isReadOnly (pf_field pf) = false
  /\ (isRelation f = false -> pf_isRequired pf = false).

(** How a pipeline leaves the field record [f'] of the shared entity,
    compared with the record [f] it found. *)
Definition EntityLeaves (param : ComputeParam) (f f' : Field) : Prop :=
  f_name f' = f_name f
  /\ f_isReadOnly f' = f_isReadOnly f
  /\ f_documentation f' = f_documentation f
  /\ f_type f' = f_type (if entityKeeps f then emittedField param f else f).

Definition CreateLeaves (I : Imported) (param : ComputeParam) (f f' : Field) : Prop :=
  f_name f' = f_name f
  /\ f_isReadOnly f' = staysReadOnly param f
  /\ f_type f' = f_type (if createKeeps I param f then emittedField param f else f)
  /\ f_documentation f'
     = match createNote I param f with
       | Some value =>
           Some (orElse (f_documentation f) "undefined" ++ coercionNote value)%string
       | None => f_documentation f
       end.

Definition UpdateLeaves (I : Imported) (param : ComputeParam) (f f' : Field) : Prop :=
  f_name f' = f_name f
  /\ f_isReadOnly f' = staysReadOnly param f
  /\ f_type f' = f_type (if updateKeeps I param f then emittedField param f else f)
  /\ f_documentation f' = f_documentation f.

(** The entity set as the caller finds it once a computation has returned.
    The callbacks assign to the field records of [model.fields] alone
    ([field.isReadOnly], [field.documentation], [field.type]); [left] is the
    processed entity as they leave it, standing in the set under its name. *)
Definition entitiesAfter (param : ComputeParam) (left : Model) : list Model :=
  map (fun m => if (m_name m =? m_name (model param))%string then left else m)
    (allModels param).

(** The records of the entities other than the processed one are as before. *)
Definition OthersUntouched (param : ComputeParam) (after : list Model) : Prop :=
  Forall2 (fun m m' => m_name m <> m_name (model param) -> m' = m)
    (allModels param) after.

(** The declared type of [field] names an entity that is absent from the
    full entity set and is not the entity being processed. *)
Definition unresolved (param : ComputeParam) (field : Field) : bool :=
  negb (f_type field =? m_name (model param))%string
  && match find (fun m => (m_name m =? f_type field)%string) (allModels param) with
     | Some _ => false
     | None => true
     end.

(** The relation and nested structured type fields a pipeline resolves:
    those it does not drop ahead of the resolution. *)
Definition entityResolves (field : Field) : bool :=
  entityKeeps field && (isType field || isRelation field).

Definition createResolves (I : Imported) (param : ComputeParam) (field : Field) : bool :=
  (isRelation field
   && negb (isAnnotatedWith field DTO_CREATE_HIDDEN)
   && negb (staysReadOnly param field)
   && isAnnotatedWithOneOf field (DTO_RELATION_MODIFIERS_ON_CREATE I))
  || (isType field && createKeeps I param field).

Definition updateResolves (I : Imported) (param : ComputeParam) (field : Field) : bool :=
  (isRelation field
   && negb (isAnnotatedWith field DTO_UPDATE_HIDDEN)
   && negb (staysReadOnly param field)
   && isAnnotatedWithOneOf field (DTO_RELATION_MODIFIERS_ON_UPDATE I))
  || (isType field && updateKeeps I param field).

(** Contract of the relation input synthesizer (spec 4.3): it fails exactly
    when the target entity is absent from the full entity set, and the
    failure carries the owning entity name and the field name. *)
Definition SynthesizerResolves (I : Imported) : Prop :=
  forall p : RelationInputParam,
    match generateRelationInput I p with
    | Return _ =>
        find (fun m => (m_name m =? f_type (rip_field p))%string) (rip_allModels p)
        <> None
    | Throw msg =>
        find (fun m => (m_name m =? f_type (rip_field p))%string) (rip_allModels p)
        = None
        /\ occursIn (m_name (rip_model p)) msg
        /\ occursIn (f_name (rip_field p)) msg
    end.

(** The entity being processed is one of the full entity set. *)
Definition entityInSet (param : ComputeParam) : Prop :=
  find (fun m => (m_name m =? m_name (model param))%string) (allModels param) <> None.

(** A pipeline throws on [field]. *)
Definition Fails (param : ComputeParam) (resolves : Field -> bool) (field : Field)
  : Prop :=
  In field (m_fields (model param))
  /\ resolves field = true /\ unresolved param field = true.

(** Sources of the validation and type-coercion libraries. *)
Definition librarySource (source : string) : Prop :=
  source = "class-validator" \/ source = "class-transformer".

(** No collaborator hands out an import record from the two libraries: the
    client-module imports, the imports of the relation input synthesizer
    and the cross-entity paths have other sources. *)
Definition LibrarySourcesApart (I : Imported) : Prop :=
  (forall fields path,
     Forall (fun r => ~ librarySource (imp_from r))
       (makeImportsFromPrismaClient I fields path))
  /\ (forall p ri, generateRelationInput I p = Return ri ->
        Forall (fun r => ~ librarySource (imp_from r)) (ri_imports ri))
  /\ (forall a b file,
        ~ librarySource (slash I (getRelativePath I a b ++ path_sep I ++ file)%string)).

Definition ascending (names : list string) : Prop :=
  Sorted (fun a b => String.leb a b = true) names.

(** The names of the validators collected, [Type] left out. *)
Definition validatorNames (acc : DtoAcc) : list string :=
  map cv_name
    (filter (fun cv => negb (cv_name cv =? "Type")%string) (da_classValidators acc)).

(** What the returned import list holds for the validators collected. *)
Definition ValidatorImports (acc : DtoAcc) (out : DtoParams) : Prop :=
  (exists r, In r (dp_imports out)
             /\ imp_from r = "class-validator"
             /\ imp_destruct r = sortStrings (validatorNames acc)
             /\ Permutation (imp_destruct r) (validatorNames acc)
             /\ ascending (imp_destruct r)
             /\ NoDup (imp_destruct r))
  /\ ((exists cv, In cv (da_classValidators acc) /\ cv_name cv = "Type") ->
      In classTransformerType (dp_imports out)).

(** Two records that agree on everything a classifier reads except the
    read-only flag and the documentation. *)
Definition sameShape (f g : Field) : Prop :=
  f_name g = f_name f /\ f_type g = f_type f /\ f_kind g = f_kind f
  /\ f_isList g = f_isList f /\ f_isRequired g = f_isRequired f
  /\ f_hasDefaultValue g = f_hasDefaultValue f /\ f_isId g = f_isId f
  /\ f_isUpdatedAt g = f_isUpdatedAt f /\ f_annotations g = f_annotations f
  /\ f_relationFromFields g = f_relationFromFields f.

(** The rules after the relation block, for the field as it then is. *)
Definition createRestKeeps (param : ComputeParam) (f : Field) : bool :=
  (isAnnotatedWith f DTO_RELATION_INCLUDE_ID
   || negb (includes (f_name f) (relationScalarFieldNames param)))
  && (isAnnotatedWith f DTO_CREATE_OPTIONAL || negb (hasCreateDefault f)).

(** The rules of the Update pipeline after the relation block. *)
Definition updateRestKeeps (param : ComputeParam) (f : Field) : bool :=
  (isAnnotatedWith f DTO_RELATION_INCLUDE_ID
   || negb (includes (f_name f) (relationScalarFieldNames param)))
  && (isAnnotatedWith f DTO_UPDATE_OPTIONAL || negb (hasUpdateDefault f)).

(** The override set the Update callback starts from (lines 70-74). *)
Definition updateInitialOverrides (f : Field) : Overrides :=
  set_updateApiResp false
    (set_isNullable (negb (f_isRequired f)) (set_isRequired false noOverrides)).

(** What a callback does on a field: it throws a message naming the entity
    and the field when the field is resolved and unresolvable, and returns
    otherwise. *)
Definition Decides {S : Type} (param : ComputeParam) (bad : Field -> bool)
  (step : S -> Field -> Outcome S) : Prop :=
  forall acc f,
    if bad f
    then exists msg, step acc f = Throw msg
                     /\ occursIn (m_name (model param)) msg /\ occursIn (f_name f) msg
    else exists acc', step acc f = Return acc'.

(** What the reduction keeps true of the validators and imports collected:
    validator names are unique, no import comes from the two libraries. *)
Definition Collected (acc : DtoAcc) : Prop :=
  NoDup (map cv_name (da_classValidators acc))
  /\ Forall (fun r => ~ librarySource (imp_from r)) (da_imports acc).

(** How an output field of the Entity pipeline relates to the field it
    comes from. *)
Definition EntityEmits (param : ComputeParam) (f : Field) (pf : ParsedField) : Prop :=
  pf_name pf = f_name f
  /\ Some (pf_isRequired pf) = o_isRequired (entityOverrides param f)
  /\ pf_isNullable pf = o_isNullable (entityOverrides param f).

(** ** Vocabulary of the further properties *)

(** The decorators of an output field are those the configuration asks for:
    documentation decorators unless [noDependencies], validators when
    [classValidation]. *)
Definition DecoratedAsConfigured (param : ComputeParam) (pf : ParsedField) : Prop :=
  (pf_apiProperties pf = None <-> noDependencies (config (templateHelpers param)) = true)
  /\ (pf_classValidators pf = None
      <-> classValidation (config (templateHelpers param)) = false).

(** What an output field of the Entity pipeline takes over from its field. *)
Definition EntityShape (param : ComputeParam) (f : Field) (pf : ParsedField) : Prop :=
  pf_type pf = f_type (emittedField param f)
  /\ f_isList (pf_field pf) = f_isList f
  /\ pf_documentation pf = f_documentation f
  /\ pf_classValidators pf = None
  /\ (pf_apiProperties pf = None
      <-> noDependencies (config (templateHelpers param)) = true)
  /\ pf_createApiResp pf = None
  /\ pf_updateApiResp pf = None.

(** The requiredness the Create pipeline resolves for a field without
    create-optional. *)
Definition createRequired (I : Imported) (param : ComputeParam) (f : Field) : bool :=
  if isRelation f
  then
    match generateRelationInput I
            (createRelationInputParam param (includeIdentifier param f)) with
    | Return ri =>
        if (1 <? List.length (ri_imports ri))%nat
        then if f_isList f then false
             else isAnnotatedWith f DTO_RELATION_REQUIRED || f_isRequired f
        else f_isRequired f
    | Throw _ => f_isRequired f
    end
  else f_isRequired f.

(** What an output field of the Create pipeline has besides what
    [CreateEmits] says. *)
Definition CreateShape (I : Imported) (param : ComputeParam) (f : Field)
  (pf : ParsedField) : Prop :=
  pf_isNullable pf = None
  /\ f_isList (pf_field pf) = f_isList f
  /\ pf_createApiResp pf
     = Some (negb (noDependencies (config (templateHelpers param)))
             && isAnnotatedWith f DTO_CREATE_API_RESP)
  /\ pf_updateApiResp pf = None
  /\ DecoratedAsConfigured param pf
  /\ (isAnnotatedWith f DTO_CREATE_OPTIONAL = false ->
      pf_isRequired pf = createRequired I param f).

(** What an output field of the Update pipeline has besides what
    [UpdateEmits] says. *)
Definition UpdateShape (I : Imported) (param : ComputeParam) (f : Field)
  (pf : ParsedField) : Prop :=
  pf_isRequired pf = false
  /\ pf_documentation pf = f_documentation f
  /\ pf_createApiResp pf = None
  /\ pf_updateApiResp pf
     = Some (negb (noDependencies (config (templateHelpers param)))
             && isAnnotatedWith f DTO_UPDATE_API_RESP)
  /\ DecoratedAsConfigured param pf
  /\ (isRelation f = false ->
      pf_isNullable pf = Some (negb (f_isRequired f))
      /\ f_isList (pf_field pf) = f_isList f
      /\ pf_type pf = f_type (emittedField param f))
  /\ (isRelation f = true ->
      exists ri,
        generateRelationInput I (updateRelationInputParam param (includeIdentifier param f))
        = Return ri
        /\ pf_type pf = ri_type ri
        /\ f_isList (pf_field pf) = false
        /\ pf_isNullable pf = Some false).

(** The auxiliary generated classes a field adds in the Create pipeline:
    those of a composite relation input, none for a direct reference. *)
Definition createGenerated (I : Imported) (param : ComputeParam) (f : Field)
  : list string :=
  if createSynthesizes I param f
  then
    match generateRelationInput I
            (createRelationInputParam param (includeIdentifier param f)) with
    | Return ri =>
        if (1 <? List.length (ri_imports ri))%nat then ri_generatedClasses ri else []
    | Throw _ => []
    end
  else [].

(** The auxiliary generated classes a field adds in the Update pipeline:
    those of its relation input, composite or not. *)
Definition updateGenerated (I : Imported) (param : ComputeParam) (f : Field)
  : list string :=
  if updateSynthesizes I param f
  then
    match generateRelationInput I
            (updateRelationInputParam param (includeIdentifier param f)) with
    | Return ri => ri_generatedClasses ri
    | Throw _ => []
    end
  else [].

(** The message of the [throw] the Entity pipeline reaches on [f]. *)
Definition entityMessage (param : ComputeParam) (f : Field) : string :=
  notFound param (if isType f then "type" else "model") f.

(** The names a field adds to the extra documentation models in the Create
    pipeline: those of a composite relation input, unless [noDependencies]. *)
Definition createExtraModels (I : Imported) (param : ComputeParam) (f : Field)
  : list string :=
  if createSynthesizes I param f && negb (noDependencies (config (templateHelpers param)))
  then
    match generateRelationInput I
            (createRelationInputParam param (includeIdentifier param f)) with
    | Return ri =>
        if (1 <? List.length (ri_imports ri))%nat then ri_apiExtraModels ri else []
    | Throw _ => []
    end
  else [].

(** The names a field adds to the extra documentation models in the Update
    pipeline: those of its relation input, unless [noDependencies]. *)
Definition updateExtraModels (I : Imported) (param : ComputeParam) (f : Field)
  : list string :=
  if updateSynthesizes I param f && negb (noDependencies (config (templateHelpers param)))
  then
    match generateRelationInput I
            (updateRelationInputParam param (includeIdentifier param f)) with
    | Return ri => ri_apiExtraModels ri
    | Throw _ => []
    end
  else [].

(** No field of [fields] is resolved and unresolvable in the Entity
    pipeline. *)
Definition entityPasses (param : ComputeParam) (fields : list Field) : bool :=
  forallb (fun g => negb (entityResolves g && unresolved param g)) fields.

(** The documentation property that carries a type. *)
Definition typeProperty (name value : string) : IApiProperty :=
  {| ap_name := name; ap_value := value; ap_noEncapsulation := Some true |}.

(** The documentation properties the Entity pipeline adds for a type named
    [typeName] of a field of kind [kind] (part_000 170-191). *)
Definition entityTypeProperties (I : Imported) (typeName : string) (kind : FieldKind)
  : list IApiProperty :=
  if truthy (PrismaScalarToFormat I typeName) then []
  else
    typeProperty "type"
      (if isPlainType typeName then typeName else ("() => " ++ typeName)%string)
    :: (if isPlainType typeName then []
        else match kind with
             | KEnum => []
             | _ => [typeProperty "type_decorator" typeName]
             end).

(** The type the Create pipeline overrides the type of a field with: the
    relation input type of a composite, the coercion target of a direct
    reference. *)
Definition createTypeOverride (I : Imported) (param : ComputeParam) (f : Field)
  : option string :=
  if isRelation f
  then
    match generateRelationInput I
            (createRelationInputParam param (includeIdentifier param f)) with
    | Return ri =>
        if (1 <? List.length (ri_imports ri))%nat then Some (ri_type ri)
        else coercionTarget ri
    | Throw _ => None
    end
  else None.

(** The type the Update pipeline overrides the type of a field with. *)
Definition updateTypeOverride (I : Imported) (param : ComputeParam) (f : Field)
  : option string :=
  if isRelation f
  then
    match generateRelationInput I
            (updateRelationInputParam param (includeIdentifier param f)) with
    | Return ri => Some (ri_type ri)
    | Throw _ => None
    end
  else None.

(** [if (overrides.type) decorators.apiProperties.push({ name: 'type', ... })]. *)
Definition overrideTypeProperties (override : option string) : list IApiProperty :=
  match override with
  | Some typeName =>
      if negb (typeName =? "")%string then [typeProperty "type" typeName] else []
  | None => []
  end.

Definition isArrayProperties (isList : bool) : list IApiProperty :=
  if isList
  then [{| ap_name := "isArray"; ap_value := "true"; ap_noEncapsulation := None |}]
  else [].

(** The record the Entity pipeline hands to the documentation parser:
    [{...field, isRequired: field.isRequired, isNullable: !field.isRequired}]
    (part_000 162-166). *)
Definition entityDocumented (f : Field) : ParsedField :=
  mapDMMFToParsedField f
    (set_isNullable (negb (f_isRequired f))
       (set_isRequired (f_isRequired f) noOverrides))
    noDecorators.



(** The override set of the Update pipeline when it parses the validators
    of [f] (update 70-74, 103-105). *)
Definition updateOverrides (I : Imported) (param : ComputeParam) (f : Field)
  : Overrides :=
  {| o_isRequired := Some false;
     o_isNullable := Some (if isRelation f then false else negb (f_isRequired f));
     o_type := updateTypeOverride I param f;
     o_isList := if isRelation f then Some false else None;
     o_createApiResp := None;
     o_updateApiResp := Some false |}.

(** The record the Update pipeline hands to the documentation parser:
    [{...field, ...overrides, isNullable: !field.isRequired}], the
    update-response flag already assigned (update 198-205). *)
Definition updateDocumented (I : Imported) (param : ComputeParam) (f : Field)
  : ParsedField :=
  mapDMMFToParsedField (includeIdentifier param f)
    (set_isNullable (negb (f_isRequired f))
       (set_updateApiResp (isAnnotatedWith f DTO_UPDATE_API_RESP)
          (updateOverrides I param f)))
    noDecorators.

Unset Implicit Arguments.

(** * Properties *)

(** Once the decorators of the Entity callback are named, the callback
    returns. *)
Ltac returns_after_decorating :=
  match goal with
  | |- context [entityDecorate ?I ?param ?f ?imports ?has] =>
      destruct (entityDecorate I param f imports has) as [[? ?] ?];
      eexists; reflexivity
  end.

(** ** Reductions that may throw *)

Section Reduce.

Variables (S A B : Type).
Variable step : S -> A -> Outcome S.
Variable proj : S -> list B.
Variable keep : A -> bool.
Variable R : A -> B -> Prop.

Hypothesis step_emits :
  forall acc x acc', step acc x = Return acc' ->
    if keep x then exists b, proj acc' = proj acc ++ [b] /\ R x b
    else proj acc' = proj acc.

Lemma reduceM_emits :
  forall xs acc acc', reduceM step xs acc = Return acc' ->
    exists bs, proj acc' = proj acc ++ bs /\ Forall2 R (filter keep xs) bs.
Proof.
  induction xs as [|x rest IH]; intros acc acc' Hred; simpl in Hred.
  - inversion Hred; subst. exists []. rewrite app_nil_r. split; [reflexivity|constructor].
  - destruct (step acc x) as [acc1|msg] eqn:Hstep; simpl in Hred; [|discriminate].
    pose proof (step_emits _ _ _ Hstep) as Hem.
    destruct (IH _ _ Hred) as [bs [Hproj Hall]].
    simpl. destruct (keep x).
    + destruct Hem as [b [Hb HR]].
      exists (b :: bs). split.
      * rewrite Hproj, Hb, <- app_assoc. reflexivity.
      * constructor; assumption.
    + exists bs. split; [rewrite Hproj, Hem; reflexivity|assumption].
Qed.

End Reduce.

Section ReduceThrows.

Variables (S A : Type).
Variable step : S -> A -> Outcome S.
Variable bad : A -> bool.
Variable P : A -> string -> Prop.

Hypothesis step_throws :
  forall acc x, (exists msg, step acc x = Throw msg) <-> bad x = true.

Hypothesis step_message :
  forall acc x msg, step acc x = Throw msg -> P x msg.

Lemma reduceM_throws_iff :
  forall xs acc,
    (exists msg, reduceM step xs acc = Throw msg) <-> existsb bad xs = true.
Proof.
  induction xs as [|x rest IH]; intros acc; simpl.
  - split; [intros [msg H]; discriminate | discriminate].
  - destruct (step acc x) as [acc1|msg] eqn:Hstep; simpl.
    + assert (Hx : bad x = false).
      { destruct (bad x) eqn:Hb; [|reflexivity].
        apply (step_throws acc) in Hb. destruct Hb as [m Hm]. congruence. }
      rewrite Hx. simpl. apply IH.
    + assert (Hx : bad x = true) by (apply (step_throws acc); eauto).
      rewrite Hx. simpl. split; eauto.
Qed.

Lemma reduceM_throws_message :
  forall xs acc msg, reduceM step xs acc = Throw msg ->
    exists x, In x xs /\ bad x = true /\ P x msg.
Proof.
  induction xs as [|x rest IH]; intros acc msg Hred; simpl in Hred; [discriminate|].
  destruct (step acc x) as [acc1|m] eqn:Hstep; simpl in Hred.
  - destruct (IH _ _ Hred) as [y [Hin Hy]]. exists y. split; [right; exact Hin|exact Hy].
  - inversion Hred; subst. exists x. split; [left; reflexivity|].
    split; [apply (step_throws acc); eauto | eapply step_message; eauto].
Qed.

End ReduceThrows.

(** ** Strings and lists *)

Lemma string_app_assoc (a b c : string) : ((a ++ b) ++ c = a ++ (b ++ c))%string.
Proof. induction a as [|ch a IH]; simpl; [reflexivity|now rewrite IH]. Qed.

Lemma includes_true_iff (x : string) (xs : list string) :
  includes x xs = true <-> In x xs.
Proof.
  unfold includes. rewrite existsb_exists. split.
  - intros [y [Hin Heq]]. apply String.eqb_eq in Heq. now subst.
  - intros Hin. exists x. split; [assumption|apply String.eqb_refl].
Qed.

Lemma find_by_name (fs : list Field) (r : Field) :
  NoDup (map f_name fs) -> In r fs ->
  find (fun anyField => (f_name anyField =? f_name r)%string) fs = Some r.
Proof.
  induction fs as [|g rest IH]; intros Hnd Hin; [contradiction|].
  simpl in *. inversion Hnd as [|? ? Hnotin Hnd']; subst.
  destruct Hin as [->|Hin].
  - now rewrite String.eqb_refl.
  - destruct (f_name g =? f_name r)%string eqn:Heq.
    + apply String.eqb_eq in Heq. exfalso. apply Hnotin. rewrite Heq.
      now apply in_map.
    + now apply IH.
Qed.

Lemma same_name_same_field (fs : list Field) (f g : Field) :
  NoDup (map f_name fs) -> In f fs -> In g fs -> f_name f = f_name g -> f = g.
Proof.
  intros Hnd Hf Hg Hname.
  pose proof (find_by_name fs f Hnd Hf) as H1.
  pose proof (find_by_name fs g Hnd Hg) as H2.
  rewrite Hname in H1. congruence.
Qed.

(** ** The synthesizer modelled from the spec, and the sample *)

Lemma generateRelationInputModel_resolves (sep : string) (slashFn : string -> string)
  (relativePath : string -> string -> string) (p : RelationInputParam) :
  match generateRelationInputModel sep slashFn relativePath p with
  | Return _ =>
      find (fun m => (m_name m =? f_type (rip_field p))%string) (rip_allModels p) <> None
  | Throw msg =>
      find (fun m => (m_name m =? f_type (rip_field p))%string) (rip_allModels p) = None
      /\ occursIn (m_name (rip_model p)) msg
      /\ occursIn (f_name (rip_field p)) msg
  end.
Proof.
  unfold generateRelationInputModel.
  destruct (find _ (rip_allModels p)) as [target|].
  - destruct (_ ++ _ ++ _) as [|[typeName import] [|second rest]]; discriminate.
  - split; [reflexivity|]. unfold occursIn. split.
    + exists ("related model '" ++ f_type (rip_field p) ++ "' for '")%string,
        ("." ++ f_name (rip_field p) ++ "' not found")%string.
      repeat rewrite string_app_assoc. reflexivity.
    + exists ("related model '" ++ f_type (rip_field p) ++ "' for '"
                ++ m_name (rip_model p) ++ ".")%string,
        "' not found"%string.
      repeat rewrite string_app_assoc. reflexivity.
Qed.

Lemma generateRelationInputModel_sources (sep : string) (slashFn : string -> string)
  (relativePath : string -> string -> string) (p : RelationInputParam)
  (ri : RelationInput) :
  generateRelationInputModel sep slashFn relativePath p = Return ri ->
  Forall (fun r => exists a b file,
                     imp_from r = slashFn (relativePath a b ++ sep ++ file)%string)
    (ri_imports ri).
Proof.
  unfold generateRelationInputModel.
  destruct (find _ (rip_allModels p)) as [target|]; [|discriminate].
  cbv zeta.
  match goal with
  | |- match ?modes with _ => _ end = _ -> _ =>
      assert (Hmodes : Forall (fun r => exists a b file,
                                 imp_from r
                                 = slashFn (relativePath a b ++ sep ++ file)%string)
                         (map snd modes));
      [|destruct modes as [|[typeName import] [|second rest]];
        intros H; inversion H; subst; simpl; exact Hmodes]
  end.
  rewrite !map_app. repeat (apply Forall_app; split);
    match goal with
    | |- context [isAnnotatedWith ?f ?d] => destruct (isAnnotatedWith f d)
    end; simpl; constructor; try constructor;
    do 3 eexists; reflexivity.
Qed.

Lemma sample_synthesizer_resolves : SynthesizerResolves Sample.imported.
Proof. intros p. apply generateRelationInputModel_resolves. Qed.

Lemma sample_sources_apart : LibrarySourcesApart Sample.imported.
Proof.
  split; [|split].
  - intros fields path. constructor.
  - intros p ri Hri. apply generateRelationInputModel_sources in Hri.
    eapply Forall_impl; [|exact Hri].
    intros r [a [b [file Hfrom]]] [H|H]; rewrite Hfrom in H; discriminate.
  - intros a b file [H|H]; discriminate.
Qed.

Lemma sample_post_uniqueNames : uniqueNames Sample.post.
Proof.
  unfold uniqueNames. simpl.
  repeat (constructor; [simpl; intuition discriminate|]). constructor.
Qed.

Lemma sample_audit_uniqueNames : uniqueNames Sample.audit.
Proof.
  unfold uniqueNames. simpl.
  repeat (constructor; [simpl; intuition discriminate|]). constructor.
Qed.

Lemma existsb_map {A B : Type} (p : B -> bool) (g : A -> B) (xs : list A) :
  existsb p (map g xs) = existsb (fun x => p (g x)) xs.
Proof. induction xs as [|x rest IH]; simpl; [reflexivity|now rewrite IH]. Qed.

Lemma existsb_filter {A : Type} (p q : A -> bool) (xs : list A) :
  existsb p (filter q xs) = existsb (fun x => q x && p x) xs.
Proof.
  induction xs as [|x rest IH]; simpl; [reflexivity|].
  destruct (q x); simpl; now rewrite IH.
Qed.

Lemma existsb_agree {A : Type} (p q : A -> bool) (xs : list A) :
  (forall x, In x xs -> p x = q x) -> existsb p xs = existsb q xs.
Proof.
  induction xs as [|x rest IH]; intros Hpq; simpl; [reflexivity|].
  rewrite (Hpq x) by (left; reflexivity).
  rewrite IH by (intros y Hy; apply Hpq; right; exact Hy). reflexivity.
Qed.

(** ** The relation scalar index *)

Lemma relationScalar_keys (fs : list Field) (name : string) :
  In name (objectKeys (getRelationScalars fs)) <->
  exists r, In r fs /\ isRelation r = true /\ In name (f_relationFromFields r).
Proof.
  unfold objectKeys, getRelationScalars. rewrite map_map. simpl. rewrite map_id.
  rewrite in_flat_map. split.
  - intros [r [Hin Hname]]. exists r. destruct (isRelation r); [auto|contradiction].
  - intros [r [Hin [Hrel Hname]]]. exists r. rewrite Hrel. auto.
Qed.

Lemma relationScalar_lookup (fs : list Field) (name : string) :
  In name (objectKeys (getRelationScalars fs)) ->
  lookupEntry name (getRelationScalars fs)
  = map f_name
      (filter (fun r => isRelation r && includes name (f_relationFromFields r)) fs).
Proof.
  unfold objectKeys, getRelationScalars, lookupEntry. rewrite map_map. simpl.
  rewrite map_id.
  generalize (flat_map (fun f => if isRelation f then f_relationFromFields f else []) fs).
  intros scalars. induction scalars as [|s rest IH]; intros Hin; [contradiction|].
  simpl. destruct (s =? name)%string eqn:Heq.
  - apply String.eqb_eq in Heq. subst. reflexivity.
  - apply IH. destruct Hin as [Hs|Hin]; [|exact Hin].
    subst. rewrite String.eqb_refl in Heq. discriminate.
Qed.

Lemma tracked_iff (param : ComputeParam) (field : Field) :
  tracked param field = true <->
  exists r, In r (m_fields (model param)) /\ ownedBy field r = true.
Proof.
  unfold tracked, relationScalarFieldNames, relationScalarFields.
  rewrite includes_true_iff, relationScalar_keys. split.
  - intros [r [Hin [Hrel Hname]]]. exists r. split; [exact Hin|].
    unfold ownedBy. rewrite Hrel. simpl. now apply includes_true_iff.
  - intros [r [Hin Hown]]. exists r. unfold ownedBy in Hown.
    apply andb_true_iff in Hown. destruct Hown as [Hrel Hname].
    apply includes_true_iff in Hname. auto.
Qed.

(** With unique field names, the test of part_000 144-154 asks whether
    some owning relation is required. *)
Lemma isAnyRelationRequired_owning (param : ComputeParam) (field : Field) :
  uniqueNames (model param) ->
  tracked param field = true ->
  isAnyRelationRequired param (f_name field)
  = anyOwningRelationRequired (model param) field.
Proof.
  intros Hnd Htr. unfold isAnyRelationRequired, anyOwningRelationRequired.
  unfold tracked, relationScalarFieldNames, relationScalarFields in *.
  apply includes_true_iff in Htr.
  rewrite (relationScalar_lookup _ _ Htr), existsb_map, existsb_filter.
  apply existsb_agree. intros r Hin.
  rewrite (find_by_name _ r Hnd Hin). reflexivity.
Qed.

(** ** The Entity pipeline *)

Lemma genericType_name (f : Field) : f_name (genericType f) = f_name f.
Proof.
  unfold genericType.
  destruct (f_type f =? "Json")%string; [reflexivity|].
  destruct (f_type f =? "Decimal")%string; reflexivity.
Qed.

Lemma entityOverrides_isRequired (param : ComputeParam) (f : Field) :
  exists b, o_isRequired (entityOverrides param f) = Some b.
Proof.
  unfold entityOverrides, entityScalarOverrides, entityRelationOverrides.
  destruct (includes _ _); destruct (isRelation f); simpl; eauto.
Qed.

Lemma entityStep_emits (I : Imported) (param : ComputeParam)
  (acc : EntityAcc) (f : Field) (acc' : EntityAcc) :
  entityStep I param acc f = Return acc' ->
  if entityKeeps f
  then exists pf, ea_result acc' = ea_result acc ++ [pf] /\ EntityEmits param f pf
  else ea_result acc' = ea_result acc.
Proof.
  unfold entityStep, entityKeeps.
  destruct (isAnnotatedWith f DTO_ENTITY_HIDDEN); simpl.
  - intros H. inversion H; subst. reflexivity.
  - match goal with |- andThen ?c _ = _ -> _ => destruct c as [imports1|] end;
      simpl; [|discriminate].
    match goal with |- andThen ?c _ = _ -> _ => destruct c as [imports2|] end;
      simpl; [|discriminate].
    destruct (entityDecorate I param f imports2 (ea_hasApiProperty acc))
      as [[decorators imports3] hasApi].
    intros H. inversion H; subst; simpl. eexists. split; [reflexivity|].
    fold (entityOverrides param f).
    destruct (entityOverrides_isRequired param f) as [b Hb].
    unfold EntityEmits, pf_name, pf_isRequired. simpl. rewrite Hb. simpl.
    repeat split.
    destruct (noDependencies _); [apply genericType_name|reflexivity].
Qed.

Lemma entity_fields (I : Imported) (param : ComputeParam) (out : EntityParams) :
  computeEntityParams I param = Return out ->
  Forall2 (EntityEmits param) (filter entityKeeps (m_fields (model param)))
    (ep_fields out).
Proof.
  unfold computeEntityParams. intros H.
  destruct (reduceM (entityStep I param) (m_fields (model param)) entityInit)
    as [acc|] eqn:Hred; simpl in H; [|discriminate].
  inversion H; subst. simpl.
  destruct (reduceM_emits _ _ _ _ ea_result entityKeeps (EntityEmits param)
              (entityStep_emits I param) _ _ _ Hred) as [bs [Hbs Hall]].
  rewrite Hbs. exact Hall.
Qed.

Lemma Forall2_weaken_in {A B : Type} (R R' : A -> B -> Prop) (xs : list A) (ys : list B) :
  (forall x y, In x xs -> R x y -> R' x y) ->
  Forall2 R xs ys -> Forall2 R' xs ys.
Proof.
  intros Himpl Hall. induction Hall as [|x y xs ys HR Hall IH]; constructor.
  - apply Himpl; [left; reflexivity|exact HR].
  - apply IH. intros a b Ha. apply Himpl. right. exact Ha.
Qed.

(** C2.  In the output of the Entity pipeline, the requiredness of a relation
    field is the presence of the relation-required directive, and its
    nullability is false for a list, else false when the schema requires the
    field, else the negation of the directive's presence.  The output fields
    are, in order, those of the fields without hide-from-entity; foreign keys
    are scalar fields, so that no relation field is its own foreign key. *)
Theorem entity_relation_requiredness (I : Imported) (param : ComputeParam)
  (out : EntityParams) :
  foreignKeysAreScalars param = true ->
  computeEntityParams I param = Return out ->
  Forall2
    (fun f pf =>
       pf_name pf = f_name f
       /\ (isRelation f = true ->
           pf_isRequired pf = isAnnotatedWith f DTO_RELATION_REQUIRED
           /\ pf_isNullable pf
              = Some (if f_isList f then false
                      else if f_isRequired f then false
                      else negb (isAnnotatedWith f DTO_RELATION_REQUIRED))))
    (filter entityKeeps (m_fields (model param))) (ep_fields out).
Proof.
  intros Hwf Hout.
  apply (Forall2_weaken_in (EntityEmits param)); [|apply (entity_fields I); exact Hout].
  intros f pf Hin [Hname [Hreq Hnull]]. split; [exact Hname|]. intros Hrel.
  apply filter_In in Hin. destruct Hin as [Hin _].
  unfold foreignKeysAreScalars in Hwf. rewrite forallb_forall in Hwf.
  specialize (Hwf f Hin). rewrite Hrel in Hwf. simpl in Hwf.
  apply negb_true_iff in Hwf. unfold tracked in Hwf.
  unfold entityOverrides, entityScalarOverrides, entityRelationOverrides in Hreq, Hnull.
  rewrite Hwf, Hrel in Hreq, Hnull. simpl in Hreq, Hnull.
  split; [congruence|exact Hnull].
Qed.

Lemma entity_relation_requiredness_witness :
  exists out,
    computeEntityParams Sample.imported (Sample.onPost false false) = Return out
    /\ Forall2
         (fun f pf =>
            pf_name pf = f_name f
            /\ (isRelation f = true ->
                pf_isRequired pf = isAnnotatedWith f DTO_RELATION_REQUIRED
                /\ pf_isNullable pf
                   = Some (if f_isList f then false
                           else if f_isRequired f then false
                           else negb (isAnnotatedWith f DTO_RELATION_REQUIRED))))
         (filter entityKeeps (m_fields Sample.post)) (ep_fields out).
Proof.
  eexists. split; [vm_compute; reflexivity|].
  apply (entity_relation_requiredness Sample.imported (Sample.onPost false false));
    vm_compute; reflexivity.
Defined.

(** C3.  In the output of the Entity pipeline, a field that is a foreign key
    of at least one relation field of the entity is required; it is
    non-nullable when some owning relation is required by the schema or
    carries the relation-required directive, and nullable when none is.
    Field names identify the fields of the entity. *)
Theorem entity_foreign_key_requiredness (I : Imported) (param : ComputeParam)
  (out : EntityParams) :
  uniqueNames (model param) ->
  computeEntityParams I param = Return out ->
  Forall2
    (fun f pf =>
       pf_name pf = f_name f
       /\ ((exists r, In r (m_fields (model param)) /\ ownedBy f r = true) ->
           pf_isRequired pf = true
           /\ pf_isNullable pf
              = Some (negb (anyOwningRelationRequired (model param) f))))
    (filter entityKeeps (m_fields (model param))) (ep_fields out).
Proof.
  intros Hnd Hout.
  apply (Forall2_weaken_in (EntityEmits param)); [|apply (entity_fields I); exact Hout].
  intros f pf _ [Hname [Hreq Hnull]]. split; [exact Hname|]. intros Hown.
  apply tracked_iff in Hown.
  pose proof (isAnyRelationRequired_owning param f Hnd Hown) as Hany.
  unfold tracked in Hown.
  unfold entityOverrides, entityScalarOverrides in Hreq, Hnull.
  rewrite Hown in Hreq, Hnull. simpl in Hreq, Hnull.
  rewrite <- Hany. split; [congruence|exact Hnull].
Qed.

Lemma entity_foreign_key_requiredness_witness :
  exists out,
    computeEntityParams Sample.imported (Sample.onPost false false) = Return out
    /\ Forall2
         (fun f pf =>
            pf_name pf = f_name f
            /\ ((exists r, In r (m_fields Sample.post) /\ ownedBy f r = true) ->
                pf_isRequired pf = true
                /\ pf_isNullable pf
                   = Some (negb (anyOwningRelationRequired Sample.post f))))
         (filter entityKeeps (m_fields Sample.post)) (ep_fields out).
Proof.
  eexists. split; [vm_compute; reflexivity|].
  apply (entity_foreign_key_requiredness Sample.imported (Sample.onPost false false));
    [exact sample_post_uniqueNames | vm_compute; reflexivity].
Defined.

(** ** Field records under the in-place assignments *)

Lemma includeIdentifier_readOnly (param : ComputeParam) (f : Field) :
  isReadOnly (includeIdentifier param f) = staysReadOnly param f.
Proof.
  unfold includeIdentifier, staysReadOnly, tracked, isReadOnly.
  destruct (isAnnotatedWith f DTO_RELATION_INCLUDE_ID
            && includes (f_name f) (relationScalarFieldNames param)); simpl.
  - now rewrite andb_false_r.
  - now rewrite andb_true_r.
Qed.

Lemma includeIdentifier_cases (param : ComputeParam) (f : Field) :
  includeIdentifier param f = f \/ includeIdentifier param f = assign_isReadOnly false f.
Proof.
  unfold includeIdentifier.
  destruct (isAnnotatedWith f DTO_RELATION_INCLUDE_ID && _); auto.
Qed.

Lemma sameShape_refl (f : Field) : sameShape f f.
Proof. unfold sameShape. repeat split. Qed.

Lemma sameShape_includeIdentifier (param : ComputeParam) (f : Field) :
  sameShape f (includeIdentifier param f).
Proof.
  destruct (includeIdentifier_cases param f) as [-> | ->];
    unfold sameShape; simpl; repeat split.
Qed.

Lemma sameShape_appendDocumentation (s : string) (f : Field) :
  sameShape f (appendDocumentation s f).
Proof. unfold sameShape; simpl; repeat split. Qed.

Lemma sameShape_trans (f g h : Field) : sameShape f g -> sameShape g h -> sameShape f h.
Proof. unfold sameShape. intuition congruence. Qed.

Lemma sameShape_annotated (f g : Field) (d : Directive) :
  sameShape f g -> isAnnotatedWith g d = isAnnotatedWith f d.
Proof.
  unfold sameShape, isAnnotatedWith. intros H.
  now replace (f_annotations g) with (f_annotations f) by intuition congruence.
Qed.

Lemma sameShape_oneOf (f g : Field) (ds : list Directive) :
  sameShape f g -> isAnnotatedWithOneOf g ds = isAnnotatedWithOneOf f ds.
Proof.
  intros H. unfold isAnnotatedWithOneOf. apply existsb_agree.
  intros d _. now apply sameShape_annotated.
Qed.

Lemma sameShape_isRelation (f g : Field) : sameShape f g -> isRelation g = isRelation f.
Proof.
  unfold sameShape, isRelation. intros H.
  now replace (f_kind g) with (f_kind f) by intuition congruence.
Qed.

Lemma sameShape_isType (f g : Field) : sameShape f g -> isType g = isType f.
Proof.
  unfold sameShape, isType. intros H.
  now replace (f_kind g) with (f_kind f) by intuition congruence.
Qed.

Lemma sameShape_createDefault (f g : Field) :
  sameShape f g -> hasCreateDefault g = hasCreateDefault f.
Proof.
  unfold sameShape, hasCreateDefault, isIdWithDefaultValue, isRequiredWithDefaultValue,
    isUpdatedAt, isId, isRequired.
  intros H. decompose [and] H. congruence.
Qed.

Lemma sameShape_updateDefault (f g : Field) :
  sameShape f g -> hasUpdateDefault g = hasUpdateDefault f.
Proof.
  unfold sameShape, hasUpdateDefault, isRequiredWithDefaultValue, isUpdatedAt, isId,
    isRequired.
  intros H. decompose [and] H. congruence.
Qed.

Lemma sameShape_tracked (param : ComputeParam) (f g : Field) :
  sameShape f g ->
  includes (f_name g) (relationScalarFieldNames param) = tracked param f.
Proof.
  unfold sameShape, tracked. intros H.
  now replace (f_name g) with (f_name f) by intuition congruence.
Qed.

Lemma sameShape_genericType (f g : Field) :
  sameShape f g -> f_type (genericType g) = f_type (genericType f).
Proof.
  unfold sameShape, genericType. intros H.
  replace (f_type g) with (f_type f) by intuition congruence.
  destruct (f_type f =? "Json")%string; [reflexivity|].
  destruct (f_type f =? "Decimal")%string; [reflexivity|]. intuition congruence.
Qed.

Lemma genericType_documentation (f : Field) :
  f_documentation (genericType f) = f_documentation f.
Proof.
  unfold genericType.
  destruct (f_type f =? "Json")%string; [reflexivity|].
  destruct (f_type f =? "Decimal")%string; reflexivity.
Qed.

Lemma genericType_readOnly (f : Field) :
  f_isReadOnly (genericType f) = f_isReadOnly f.
Proof.
  unfold genericType.
  destruct (f_type f =? "Json")%string; [reflexivity|].
  destruct (f_type f =? "Decimal")%string; reflexivity.
Qed.

(** ** The Create pipeline, phase by phase *)

Lemma concatUnique_nil (target : list IClassValidator) :
  concatUniqueIntoArray [] target = target.
Proof. reflexivity. Qed.

Lemma createDecorate_spec (I : Imported) (param : ComputeParam) (acc : DtoAcc)
  (f : Field) (ov : Overrides) (acc' : DtoAcc) (ov' : Overrides) (d : Decorators) :
  createDecorate I param acc f ov = (acc', ov', d) ->
  da_result acc' = da_result acc /\ da_fields acc' = da_fields acc
  /\ da_imports acc' = da_imports acc
  /\ o_type ov' = o_type ov /\ o_isRequired ov' = o_isRequired ov
  /\ exists parsed,
       da_classValidators acc' = concatUniqueIntoArray parsed (da_classValidators acc).
Proof.
  unfold createDecorate.
  destruct (classValidation _); destruct (noDependencies _); simpl;
    intros H; inversion H; subst; simpl; repeat split;
    solve [eexists; reflexivity | exists []; reflexivity].
Qed.

Lemma createApplyRelationInput_spec (param : ComputeParam) (ri : RelationInput)
  (acc : DtoAcc) (f : Field) (ov : Overrides) (acc1 : DtoAcc) (f1 : Field)
  (ov1 : Overrides) :
  createApplyRelationInput param ri acc f ov = (acc1, f1, ov1) ->
  da_result acc1 = da_result acc /\ da_fields acc1 = da_fields acc
  /\ da_imports acc1 = da_imports acc ++ ri_imports ri
  /\ sameShape f f1 /\ f_isReadOnly f1 = f_isReadOnly f
  /\ (exists parsed,
        da_classValidators acc1 = concatUniqueIntoArray parsed (da_classValidators acc))
  /\ if (1 <? List.length (ri_imports ri))%nat
     then f1 = f /\ o_type ov1 = Some (ri_type ri)
          /\ o_isRequired ov1
             = (if f_isList f then Some false
                else if isAnnotatedWith f DTO_RELATION_REQUIRED then Some true
                else o_isRequired ov)
     else match coercionTarget ri with
          | Some value => f1 = appendDocumentation (coercionNote value) f
                          /\ ov1 = set_type value ov
          | None => f1 = f /\ ov1 = ov
          end.
Proof.
  unfold createApplyRelationInput, coercionTarget, coercionNote.
  destruct (1 <? List.length (ri_imports ri))%nat.
  - intros H. inversion H; subst; simpl.
    repeat split; try (eexists; reflexivity).
    destruct (f_isList _); destruct (isAnnotatedWith _ DTO_RELATION_REQUIRED);
      reflexivity.
  - destruct (findType (ri_classValidators ri)) as [type|];
      [destruct (cv_value type) as [value|];
       [destruct (negb (value =? "")%string)|]|];
      intros H; inversion H; subst; simpl; repeat split;
      exists []; reflexivity.
Qed.

Lemma createRelation_some (I : Imported) (param : ComputeParam) (acc : DtoAcc)
  (f : Field) (ov : Overrides) (acc1 : DtoAcc) (f1 : Field) (ov1 : Overrides) :
  createRelation I param acc f ov = Return (Some (acc1, f1, ov1)) ->
  (isRelation f = false /\ acc1 = acc /\ f1 = f /\ ov1 = ov)
  \/ (isRelation f = true
      /\ isAnnotatedWithOneOf f (DTO_RELATION_MODIFIERS_ON_CREATE I) = true
      /\ exists ri,
           generateRelationInput I (createRelationInputParam param f) = Return ri
           /\ createApplyRelationInput param ri acc f ov = (acc1, f1, ov1)).
Proof.
  unfold createRelation. destruct (isRelation f).
  - destruct (isAnnotatedWithOneOf f _); simpl; [|discriminate].
    destruct (generateRelationInput I _) as [ri|]; simpl; [|discriminate].
    intros H. inversion H as [Happly]. right. repeat split. exists ri. split; reflexivity.
  - intros H. inversion H; subst. left. repeat split.
Qed.

Lemma createRelation_none (I : Imported) (param : ComputeParam) (acc : DtoAcc)
  (f : Field) (ov : Overrides) :
  createRelation I param acc f ov = Return None ->
  isRelation f = true
  /\ isAnnotatedWithOneOf f (DTO_RELATION_MODIFIERS_ON_CREATE I) = false.
Proof.
  unfold createRelation. destruct (isRelation f); [|discriminate].
  destruct (isAnnotatedWithOneOf f _); simpl; [|auto].
  destruct (generateRelationInput I _); simpl; discriminate.
Qed.

Lemma createRest_inv (I : Imported) (param : ComputeParam) (acc : DtoAcc)
  (f : Field) (ov : Overrides) (acc' : DtoAcc) :
  createRest I param acc f ov = Return acc' ->
  (createRestKeeps param f = false /\ acc' = dropField acc f)
  \/ (createRestKeeps param f = true
      /\ exists imports acc1 ov1 d,
           (if isType f
            then importRelated I param "type" f (out_dto (m_output (model param))) out_dto
                   (createDtoName (templateHelpers param))
                   (createDtoFilename (templateHelpers param)) (da_imports acc)
            else Return (da_imports acc)) = Return imports
           /\ createDecorate I param (withImports imports acc) f
                (if isAnnotatedWith f DTO_CREATE_OPTIONAL
                 then set_isRequired false ov else ov)
              = (acc1, ov1, d)
           /\ acc' = emitField param acc1 f ov1 d).
Proof.
  unfold createRest, createRestKeeps, hasCreateDefault.
  destruct (isAnnotatedWith f DTO_RELATION_INCLUDE_ID);
    destruct (includes (f_name f) (relationScalarFieldNames param)); simpl;
    try (intros H; inversion H; subst; left; split; reflexivity);
    (destruct (isAnnotatedWith f DTO_CREATE_OPTIONAL); simpl;
     [|destruct (isIdWithDefaultValue f || isUpdatedAt f || isRequiredWithDefaultValue f);
       simpl; [intros H; inversion H; subst; left; split; reflexivity|]]);
    (match goal with |- andThen ?c _ = _ -> _ => destruct c as [imports|] end;
     simpl; [|discriminate]);
    (match goal with |- context [createDecorate ?a ?b ?c ?d ?e] =>
       destruct (createDecorate a b c d e) as [[acc1 ov1] d'] eqn:Hdec end);
    intros H; inversion H; subst; right; split; try reflexivity;
    exists imports, acc1, ov1, d'; repeat split; assumption.
Qed.

Lemma createStep_inv (I : Imported) (param : ComputeParam) (acc : DtoAcc)
  (f0 : Field) (acc' : DtoAcc) :
  createStep I param acc f0 = Return acc' ->
  let f := includeIdentifier param f0 in
  ((isAnnotatedWith f0 DTO_CREATE_HIDDEN = true
    \/ staysReadOnly param f0 = true
    \/ (isRelation f0 = true
        /\ isAnnotatedWithOneOf f0 (DTO_RELATION_MODIFIERS_ON_CREATE I) = false))
   /\ acc' = dropField acc f)
  \/ (isAnnotatedWith f0 DTO_CREATE_HIDDEN = false
      /\ staysReadOnly param f0 = false
      /\ exists acc1 f1 ov1,
           createRelation I param acc f (set_createApiResp false noOverrides)
           = Return (Some (acc1, f1, ov1))
           /\ createRest I param acc1 f1 ov1 = Return acc').
Proof.
  intros H. cbv zeta. unfold createStep in H. cbv zeta in H.
  pose proof (sameShape_includeIdentifier param f0) as Hshape.
  rewrite (sameShape_annotated f0 _ _ Hshape) in H.
  rewrite includeIdentifier_readOnly in H.
  destruct (isAnnotatedWith f0 DTO_CREATE_HIDDEN).
  { inversion H; subst. left. auto. }
  destruct (staysReadOnly param f0).
  { inversion H; subst. left. auto. }
  destruct (createRelation I param acc (includeIdentifier param f0)
              (set_createApiResp false noOverrides))
    as [[[[acc1 f1] ov1]|]|] eqn:Hrel; simpl in H; [| |discriminate].
  - right. repeat split. exists acc1, f1, ov1. split; [reflexivity|exact H].
  - apply createRelation_none in Hrel. destruct Hrel as [Hr Hone].
    rewrite (sameShape_isRelation f0 _ Hshape) in Hr.
    rewrite (sameShape_oneOf f0 _ _ Hshape) in Hone.
    inversion H; subst. left. auto.
Qed.

Lemma includeIdentifier_documentation (param : ComputeParam) (f : Field) :
  f_documentation (includeIdentifier param f) = f_documentation f.
Proof. destruct (includeIdentifier_cases param f) as [-> | ->]; reflexivity. Qed.

Lemma emittedField_facts (param : ComputeParam) (f : Field) :
  f_name (emittedField param f) = f_name f
  /\ f_documentation (emittedField param f) = f_documentation f
  /\ f_isReadOnly (emittedField param f) = f_isReadOnly f
  /\ f_isRequired (emittedField param f) = f_isRequired f.
Proof.
  unfold emittedField. destruct (noDependencies _); [|repeat split].
  unfold genericType.
  destruct (f_type f =? "Json")%string; [repeat split|].
  destruct (f_type f =? "Decimal")%string; repeat split.
Qed.

Lemma sameShape_emittedType (param : ComputeParam) (f g : Field) :
  sameShape f g -> f_type (emittedField param g) = f_type (emittedField param f).
Proof.
  intros H. unfold emittedField. destruct (noDependencies _).
  - now apply sameShape_genericType.
  - unfold sameShape in H. intuition congruence.
Qed.

Lemma createRest_emits (I : Imported) (param : ComputeParam) (acc : DtoAcc)
  (f : Field) (ov : Overrides) (acc' : DtoAcc) :
  createRest I param acc f ov = Return acc' ->
  if createRestKeeps param f
  then exists pf,
         da_result acc' = da_result acc ++ [pf]
         /\ pf_name pf = f_name f
         /\ pf_type pf = orElse (o_type ov) (f_type (emittedField param f))
         /\ pf_documentation pf = f_documentation f
         /\ pf_isRequired pf
            = (if isAnnotatedWith f DTO_CREATE_OPTIONAL then false
               else orElse (o_isRequired ov) (f_isRequired f))
  else da_result acc' = da_result acc.
Proof.
  intros H. apply createRest_inv in H.
  destruct H as [[Hk ->] | [Hk [imports [acc1 [ov1 [d [_ [Hdec ->]]]]]]]]; rewrite Hk.
  - reflexivity.
  - apply createDecorate_spec in Hdec.
    destruct Hdec as [Hres [_ [_ [Hty [Hreq _]]]]].
    destruct (emittedField_facts param f) as [Hn [Hd [_ Hr]]].
    eexists. split; [unfold emitField; simpl; rewrite Hres; reflexivity|].
    fold (emittedField param f).
    unfold pf_name, pf_type, pf_documentation, pf_isRequired. simpl.
    rewrite Hty, Hreq, Hn, Hd, Hr.
    destruct (isAnnotatedWith f DTO_CREATE_OPTIONAL); repeat split.
Qed.

Lemma createStep_emits (I : Imported) (param : ComputeParam) (acc : DtoAcc)
  (f0 : Field) (acc' : DtoAcc) :
  createStep I param acc f0 = Return acc' ->
  if createKeeps I param f0
  then exists pf, da_result acc' = da_result acc ++ [pf] /\ CreateEmits I param f0 pf
  else da_result acc' = da_result acc.
Proof.
  intros H. apply createStep_inv in H. cbv zeta in H.
  pose proof (sameShape_includeIdentifier param f0) as Hshape.
  unfold createKeeps, createGates.
  destruct H as [[Hdrop ->] | [Hhid [Hro [acc1 [f1 [ov1 [Hrel Hrest]]]]]]].
  - replace (_ && _ && _ && _) with false; [reflexivity|].
    destruct Hdrop as [-> | [-> | [-> ->]]]; simpl;
      repeat rewrite andb_false_r; reflexivity.
  - rewrite Hhid, Hro. simpl.
    apply createRelation_some in Hrel.
    apply createRest_emits in Hrest.
    destruct Hrel as [[Hr [-> [-> ->]]] | [Hr [Hone [ri [Hri Happly]]]]].
    + rewrite (sameShape_isRelation f0 _ Hshape) in Hr. rewrite Hr. simpl.
      unfold createRestKeeps in Hrest.
      rewrite (sameShape_annotated f0 _ _ Hshape),
        (sameShape_annotated f0 _ DTO_CREATE_OPTIONAL Hshape),
        (sameShape_tracked param f0 _ Hshape),
        (sameShape_createDefault f0 _ Hshape) in Hrest.
      destruct ((isAnnotatedWith f0 DTO_RELATION_INCLUDE_ID || negb (tracked param f0))
                && (isAnnotatedWith f0 DTO_CREATE_OPTIONAL || negb (hasCreateDefault f0)));
        [|exact Hrest].
      destruct Hrest as [pf [Hres [Hn [Hty [Hdoc Hreq]]]]].
      exists pf. split; [exact Hres|]. unfold CreateEmits.
      rewrite includeIdentifier_documentation in Hdoc.
      rewrite (sameShape_emittedType param f0 _ Hshape) in Hty. simpl in Hty.
      destruct Hshape as [Hname _]. rewrite Hname in Hn.
      split; [exact Hn|].
      split; [intros Hopt; rewrite Hopt in Hreq; exact Hreq|].
      split; [intros _; split; assumption|].
      intros Habs. rewrite Habs in Hr. discriminate.
    + rewrite (sameShape_isRelation f0 _ Hshape) in Hr.
      rewrite (sameShape_oneOf f0 _ _ Hshape) in Hone. rewrite Hr, Hone. simpl.
      apply createApplyRelationInput_spec in Happly.
      destruct Happly as [Hres1 [_ [_ [Hshape1 [_ [_ Hcase]]]]]].
      pose proof (sameShape_trans _ _ _ Hshape Hshape1) as Hs.
      unfold createRestKeeps in Hrest.
      rewrite (sameShape_annotated f0 _ _ Hs),
        (sameShape_annotated f0 _ DTO_CREATE_OPTIONAL Hs),
        (sameShape_tracked param f0 _ Hs),
        (sameShape_createDefault f0 _ Hs) in Hrest.
      destruct ((isAnnotatedWith f0 DTO_RELATION_INCLUDE_ID || negb (tracked param f0))
                && (isAnnotatedWith f0 DTO_CREATE_OPTIONAL || negb (hasCreateDefault f0)));
        [|rewrite Hrest; exact Hres1].
      destruct Hrest as [pf [Hres [Hn [Hty [Hdoc Hreq]]]]].
      exists pf. split; [rewrite Hres, Hres1; reflexivity|]. unfold CreateEmits.
      rewrite (sameShape_emittedType param f0 _ Hs) in Hty.
      assert (Hname : pf_name pf = f_name f0).
      { destruct Hs as [Hname _]. rewrite Hname in Hn. exact Hn. }
      assert (Hlist : f_isList (includeIdentifier param f0) = f_isList f0).
      { unfold sameShape in Hshape. intuition congruence. }
      split; [exact Hname|].
      split; [intros Hopt; rewrite Hopt in Hreq; exact Hreq|].
      split; [intros Habs; rewrite Habs in Hr; discriminate|].
      intros _. exists ri. split; [exact Hri|].
      destruct (1 <? List.length (ri_imports ri))%nat.
      * destruct Hcase as [-> [Hty1 Hreq1]].
        rewrite includeIdentifier_documentation in Hdoc.
        rewrite Hty1 in Hty. rewrite Hreq1, Hlist in Hreq.
        split; [exact Hty|]. split; [|exact Hdoc].
        intros Hl. rewrite Hl in Hreq.
        destruct (isAnnotatedWith f0 DTO_CREATE_OPTIONAL); exact Hreq.
      * destruct (coercionTarget ri) as [value|].
        -- destruct Hcase as [-> ->]. simpl in Hty, Hdoc.
           rewrite includeIdentifier_documentation in Hdoc.
           split; [exact Hty|]. rewrite Hdoc.
           destruct (f_documentation f0); reflexivity.
        -- destruct Hcase as [-> ->]. simpl in Hty.
           rewrite includeIdentifier_documentation in Hdoc.
           split; assumption.
Qed.

Lemma create_fields (I : Imported) (param : ComputeParam) (out : DtoParams) :
  computeCreateDtoParams I param = Return out ->
  Forall2 (CreateEmits I param) (filter (createKeeps I param) (m_fields (model param)))
    (dp_fields out).
Proof.
  unfold computeCreateDtoParams, createReduce. intros H.
  destruct (reduceM (createStep I param) (m_fields (model param)) dtoInit)
    as [acc|] eqn:Hred; simpl in H; [|discriminate].
  inversion H; subst. simpl.
  destruct (reduceM_emits _ _ _ _ da_result (createKeeps I param) (CreateEmits I param)
              (createStep_emits I param) _ _ _ Hred) as [bs [Hbs Hall]].
  rewrite Hbs. exact Hall.
Qed.

Lemma Forall2_in_left {A B : Type} (R : A -> B -> Prop) (xs : list A) (ys : list B)
  (x : A) :
  Forall2 R xs ys -> In x xs -> exists y, In y ys /\ R x y.
Proof.
  intros Hall. induction Hall as [|a b xs ys HR Hall IH]; intros Hin; [contradiction|].
  destruct Hin as [->|Hin].
  - exists b. split; [left; reflexivity|exact HR].
  - destruct (IH Hin) as [y [Hy HRy]]. exists y. split; [right; exact Hy|exact HRy].
Qed.

Lemma Forall2_names {A B : Type} (R : A -> B -> Prop) (na : A -> string) (nb : B -> string)
  (xs : list A) (ys : list B) :
  (forall x y, R x y -> nb y = na x) ->
  Forall2 R xs ys -> map nb ys = map na xs.
Proof.
  intros Hname Hall. induction Hall as [|a b xs ys HR Hall IH]; [reflexivity|].
  simpl. rewrite (Hname _ _ HR), IH. reflexivity.
Qed.

(** With unique names, a field that a pipeline does not keep has no
    namesake among the fields it keeps. *)
Lemma dropped_name_absent (keep : Field -> bool) (fs : list Field) (f : Field) :
  NoDup (map f_name fs) -> In f fs -> keep f = false ->
  ~ In (f_name f) (map f_name (filter keep fs)).
Proof.
  intros Hnd Hin Hkeep Habs. apply in_map_iff in Habs.
  destruct Habs as [g [Hname Hg]]. apply filter_In in Hg. destruct Hg as [Hg Hkg].
  assert (g = f) by (apply (same_name_same_field fs); auto).
  subst. congruence.
Qed.

(** C4.  In the Create pipeline, a list-cardinality relation field that
    collapses to a composite nested-input type (the synthesizer hands back
    more than one import, and its type becomes the field's type) has
    requiredness false in the output, whether or not it carries the
    relation-required directive. *)
Theorem create_list_relation_not_required (I : Imported) (param : ComputeParam)
  (out : DtoParams) :
  computeCreateDtoParams I param = Return out ->
  Forall2
    (fun f pf =>
       pf_name pf = f_name f
       /\ (isRelation f = true -> f_isList f = true ->
           forall ri,
             generateRelationInput I
               (createRelationInputParam param (includeIdentifier param f)) = Return ri ->
             (1 < List.length (ri_imports ri))%nat ->
             pf_type pf = ri_type ri /\ pf_isRequired pf = false))
    (filter (createKeeps I param) (m_fields (model param))) (dp_fields out).
Proof.
  intros Hout.
  apply (Forall2_weaken_in (CreateEmits I param)); [|apply create_fields; exact Hout].
  intros f pf _ [Hname [_ [_ Hrel]]]. split; [exact Hname|].
  intros Hr Hlist ri Hri Hlen.
  destruct (Hrel Hr) as [ri' [Hri' Hcase]].
  rewrite Hri in Hri'. inversion Hri'; subst ri'.
  apply Nat.ltb_lt in Hlen. rewrite Hlen in Hcase.
  destruct Hcase as [Hty [Hreq _]]. split; [exact Hty|exact (Hreq Hlist)].
Qed.

Lemma create_list_relation_not_required_witness :
  exists out,
    computeCreateDtoParams Sample.imported (Sample.onPost false true) = Return out
    /\ Forall2
         (fun f pf =>
            pf_name pf = f_name f
            /\ (isRelation f = true -> f_isList f = true ->
                forall ri,
                  generateRelationInput Sample.imported
                    (createRelationInputParam (Sample.onPost false true)
                       (includeIdentifier (Sample.onPost false true) f)) = Return ri ->
                  (1 < List.length (ri_imports ri))%nat ->
                  pf_type pf = ri_type ri /\ pf_isRequired pf = false))
         (filter (createKeeps Sample.imported (Sample.onPost false true))
            (m_fields Sample.post))
         (dp_fields out).
Proof.
  eexists. split; [vm_compute; reflexivity|].
  apply (create_list_relation_not_required Sample.imported (Sample.onPost false true)).
  vm_compute; reflexivity.
Defined.

(** The list relation [comments] of the sample carries relation-required
    and still comes out non-required, under the composite type. *)
Example create_comments_not_required :
  exists out,
    computeCreateDtoParams Sample.imported (Sample.onPost false true) = Return out
    /\ map (fun pf => (pf_name pf, pf_type pf, pf_isRequired pf)) (dp_fields out)
       = [("title", "String", true);
          ("authorId", "Int", true);
          ("author", "() => ConnectUserDto", true);
          ("parent", "() => ConnectPostDto", false);
          ("comments", "CreatePostcommentsRelationInputDto", false)].
Proof. eexists. split; vm_compute; reflexivity. Qed.

(** C7 as stated fails: [author] of the sample is a relation field, not a
    nested structured type; the synthesizer hands back a direct reference
    (one import) with a coercion target, and that value becomes the type of
    the output field while its stripped form lands in the documentation. *)
Lemma create_coercion_target_counterexample :
  isRelation Sample.author = true
  /\ isType Sample.author = false
  /\ exists ri out pf,
       generateRelationInput Sample.imported
         (createRelationInputParam (Sample.onPost false true) Sample.author) = Return ri
       /\ List.length (ri_imports ri) = 1
       /\ coercionTarget ri = Some "() => ConnectUserDto"
       /\ computeCreateDtoParams Sample.imported (Sample.onPost false true) = Return out
       /\ nth_error (dp_fields out) 2 = Some pf
       /\ pf_name pf = "author"
       /\ pf_type pf = "() => ConnectUserDto"
       /\ pf_documentation pf = Some (newline ++ "%ConnectUserDto%")%string.
Proof.
  split; [reflexivity|]. split; [reflexivity|].
  eexists. eexists. eexists.
  split; [vm_compute; reflexivity|].
  split; [reflexivity|]. split; [reflexivity|].
  split; [vm_compute; reflexivity|].
  split; [reflexivity|]. split; [reflexivity|]. split; reflexivity.
Qed.

(** C7, amended.  In the Create pipeline, when the synthesizer hands back a
    direct reference (at most one import) with a coercion target for a
    relation field, that value is the type override of the output field and
    its form without the leading thunk prefix is appended, between percent
    signs on a new line, to the field's documentation.  The synthesizer is
    consulted for relation fields only: any other field, a nested structured
    type included, keeps its documentation and gets no type override. *)
Theorem create_coercion_target (I : Imported) (param : ComputeParam) (out : DtoParams) :
  computeCreateDtoParams I param = Return out ->
  Forall2
    (fun f pf =>
       pf_name pf = f_name f
       /\ (isRelation f = true ->
           forall ri value,
             generateRelationInput I
               (createRelationInputParam param (includeIdentifier param f)) = Return ri ->
             (List.length (ri_imports ri) <= 1)%nat ->
             coercionTarget ri = Some value ->
             pf_type pf = value
             /\ pf_documentation pf
                = Some (orElse (f_documentation f) "undefined" ++ coercionNote value)%string)
       /\ (isRelation f = false ->
           pf_type pf = f_type (emittedField param f)
           /\ pf_documentation pf = f_documentation f))
    (filter (createKeeps I param) (m_fields (model param))) (dp_fields out).
Proof.
  intros Hout.
  apply (Forall2_weaken_in (CreateEmits I param)); [|apply create_fields; exact Hout].
  intros f pf _ [Hname [_ [Hother Hrel]]]. split; [exact Hname|]. split.
  - intros Hr ri value Hri Hlen Hval.
    destruct (Hrel Hr) as [ri' [Hri' Hcase]].
    rewrite Hri in Hri'. inversion Hri'; subst ri'.
    assert (Hlt : (1 <? List.length (ri_imports ri))%nat = false)
      by (apply Nat.ltb_ge; exact Hlen).
    rewrite Hlt, Hval in Hcase. exact Hcase.
  - intros Hr. destruct (Hother Hr) as [Hdoc Hty]. split; assumption.
Qed.

Lemma create_coercion_target_witness :
  exists out,
    computeCreateDtoParams Sample.imported (Sample.onPost false true) = Return out
    /\ Forall2
         (fun f pf =>
            pf_name pf = f_name f
            /\ (isRelation f = true ->
                forall ri value,
                  generateRelationInput Sample.imported
                    (createRelationInputParam (Sample.onPost false true)
                       (includeIdentifier (Sample.onPost false true) f)) = Return ri ->
                  (List.length (ri_imports ri) <= 1)%nat ->
                  coercionTarget ri = Some value ->
                  pf_type pf = value
                  /\ pf_documentation pf
                     = Some (orElse (f_documentation f) "undefined"
                               ++ coercionNote value)%string)
            /\ (isRelation f = false ->
                pf_type pf = f_type (emittedField (Sample.onPost false true) f)
                /\ pf_documentation pf = f_documentation f))
         (filter (createKeeps Sample.imported (Sample.onPost false true))
            (m_fields Sample.post))
         (dp_fields out).
Proof.
  eexists. split; [vm_compute; reflexivity|].
  apply (create_coercion_target Sample.imported (Sample.onPost false true)).
  vm_compute; reflexivity.
Defined.

(** C9 as stated fails: [createdAt] of the sample is required with a default
    value and carries create-optional, yet it is not in the output: it is
    hidden from create. *)
Lemma create_default_rule_counterexample :
  isRequiredWithDefaultValue Sample.createdAt = true
  /\ isAnnotatedWith Sample.createdAt DTO_CREATE_OPTIONAL = true
  /\ In Sample.createdAt (m_fields Sample.audit)
  /\ exists out,
       computeCreateDtoParams Sample.imported (Sample.onAudit false true) = Return out
       /\ map pf_name (dp_fields out) = ["updatedAt"; "payload"].
Proof.
  split; [reflexivity|]. split; [reflexivity|].
  split; [right; left; reflexivity|].
  eexists. split; vm_compute; reflexivity.
Qed.

(** C9, amended.  In the Create pipeline, a field that is an identifier with
    default, an auto-timestamp or required with a default value is not in the
    output when it lacks create-optional.  When it carries create-optional
    and no other rule drops it (not hidden from create, not read-only, a
    relation only with a create-time modifier, a foreign key only with
    relation-include-identifier), it is in the output with requiredness
    false.  Field names identify the fields of the entity. *)
Theorem create_default_rule (I : Imported) (param : ComputeParam) (out : DtoParams) :
  uniqueNames (model param) ->
  computeCreateDtoParams I param = Return out ->
  forall f, In f (m_fields (model param)) -> hasCreateDefault f = true ->
    (isAnnotatedWith f DTO_CREATE_OPTIONAL = false ->
     ~ In (f_name f) (map pf_name (dp_fields out)))
    /\ (isAnnotatedWith f DTO_CREATE_OPTIONAL = true ->
        createGates I param f = true ->
        exists pf, In pf (dp_fields out) /\ pf_name pf = f_name f
                   /\ pf_isRequired pf = false).
Proof.
  intros Hnd Hout f Hin Hdef.
  pose proof (create_fields I param out Hout) as Hall. split.
  - intros Hopt.
    rewrite (Forall2_names (CreateEmits I param) f_name pf_name _ _
               (fun x y H => proj1 H) Hall).
    apply dropped_name_absent; [exact Hnd|exact Hin|].
    unfold createKeeps. rewrite Hopt, Hdef. apply andb_false_r.
  - intros Hopt Hgates.
    assert (Hkept : In f (filter (createKeeps I param) (m_fields (model param)))).
    { apply filter_In. split; [exact Hin|].
      unfold createKeeps. rewrite Hopt, Hgates. reflexivity. }
    destruct (Forall2_in_left _ _ _ f Hall Hkept) as [pf [Hpf [Hname [Hreq _]]]].
    exists pf. repeat split; auto.
Qed.

Lemma create_default_rule_witness :
  exists out,
    computeCreateDtoParams Sample.imported (Sample.onAudit false true) = Return out
    /\ (isAnnotatedWith Sample.updatedAt DTO_CREATE_OPTIONAL = false ->
        ~ In (f_name Sample.updatedAt) (map pf_name (dp_fields out)))
    /\ (isAnnotatedWith Sample.updatedAt DTO_CREATE_OPTIONAL = true ->
        createGates Sample.imported (Sample.onAudit false true) Sample.updatedAt = true ->
        exists pf, In pf (dp_fields out) /\ pf_name pf = f_name Sample.updatedAt
                   /\ pf_isRequired pf = false).
Proof.
  eexists. split; [vm_compute; reflexivity|].
  apply (create_default_rule Sample.imported (Sample.onAudit false true)).
  - exact sample_audit_uniqueNames.
  - vm_compute; reflexivity.
  - simpl. right. right. left. reflexivity.
  - reflexivity.
Defined.

(** ** The Update pipeline, phase by phase *)

Lemma updateDecorate_spec (I : Imported) (param : ComputeParam) (acc : DtoAcc)
  (f : Field) (ov : Overrides) (acc' : DtoAcc) (ov' : Overrides) (d : Decorators) :
  updateDecorate I param acc f ov = (acc', ov', d) ->
  da_result acc' = da_result acc /\ da_fields acc' = da_fields acc
  /\ da_imports acc' = da_imports acc
  /\ o_type ov' = o_type ov /\ o_isRequired ov' = o_isRequired ov
  /\ exists parsed,
       da_classValidators acc' = concatUniqueIntoArray parsed (da_classValidators acc).
Proof.
  unfold updateDecorate.
  destruct (classValidation _); destruct (noDependencies _); simpl;
    intros H; inversion H; subst; simpl; repeat split;
    solve [eexists; reflexivity | exists []; reflexivity].
Qed.

Lemma updateRelation_some (I : Imported) (param : ComputeParam) (acc : DtoAcc)
  (f : Field) (ov : Overrides) (acc1 : DtoAcc) (ov1 : Overrides) :
  updateRelation I param acc f ov = Return (Some (acc1, ov1)) ->
  (isRelation f = false /\ acc1 = acc /\ ov1 = ov)
  \/ (isRelation f = true
      /\ isAnnotatedWithOneOf f (DTO_RELATION_MODIFIERS_ON_UPDATE I) = true
      /\ exists ri,
           generateRelationInput I (updateRelationInputParam param f) = Return ri
           /\ acc1 = collectRelationInput param ri acc
           /\ ov1 = set_isNullable false (set_isList false (set_type (ri_type ri) ov))).
Proof.
  unfold updateRelation. destruct (isRelation f).
  - destruct (isAnnotatedWithOneOf f _); simpl; [|discriminate].
    destruct (generateRelationInput I _) as [ri|]; simpl; [|discriminate].
    intros H. inversion H; subst. right. repeat split. exists ri. repeat split.
  - intros H. inversion H; subst. left. repeat split.
Qed.

Lemma updateRelation_none (I : Imported) (param : ComputeParam) (acc : DtoAcc)
  (f : Field) (ov : Overrides) :
  updateRelation I param acc f ov = Return None ->
  isRelation f = true
  /\ isAnnotatedWithOneOf f (DTO_RELATION_MODIFIERS_ON_UPDATE I) = false.
Proof.
  unfold updateRelation. destruct (isRelation f); [|discriminate].
  destruct (isAnnotatedWithOneOf f _); simpl; [|auto].
  destruct (generateRelationInput I _); simpl; discriminate.
Qed.

Lemma updateRest_inv (I : Imported) (param : ComputeParam) (acc : DtoAcc)
  (f : Field) (ov : Overrides) (acc' : DtoAcc) :
  updateRest I param acc f ov = Return acc' ->
  (updateRestKeeps param f = false /\ acc' = dropField acc f)
  \/ (updateRestKeeps param f = true
      /\ exists imports acc1 ov1 d,
           (if isType f
            then importRelated I param "type" f (out_dto (m_output (model param))) out_dto
                   (if isAnnotatedWith f DTO_TYPE_FULL_UPDATE
                    then createDtoName (templateHelpers param)
                    else updateDtoName (templateHelpers param))
                   (if isAnnotatedWith f DTO_TYPE_FULL_UPDATE
                    then createDtoFilename (templateHelpers param)
                    else updateDtoFilename (templateHelpers param))
                   (da_imports acc)
            else Return (da_imports acc)) = Return imports
           /\ updateDecorate I param (withImports imports acc) f ov = (acc1, ov1, d)
           /\ acc' = emitField param acc1 f ov1 d).
Proof.
  unfold updateRest, updateRestKeeps, hasUpdateDefault.
  destruct (isAnnotatedWith f DTO_RELATION_INCLUDE_ID);
    destruct (includes (f_name f) (relationScalarFieldNames param)); simpl;
    try (intros H; inversion H; subst; left; split; reflexivity);
    (destruct (isAnnotatedWith f DTO_UPDATE_OPTIONAL); simpl;
     [|destruct (isId f || isUpdatedAt f || isRequiredWithDefaultValue f);
       simpl; [intros H; inversion H; subst; left; split; reflexivity|]]);
    (match goal with |- andThen ?c _ = _ -> _ => destruct c as [imports|] end;
     simpl; [|discriminate]);
    (match goal with |- context [updateDecorate ?a ?b ?c ?d ?e] =>
       destruct (updateDecorate a b c d e) as [[acc1 ov1] d'] eqn:Hdec end);
    intros H; inversion H; subst; right; split; try reflexivity;
    exists imports, acc1, ov1, d'; repeat split; assumption.
Qed.

Lemma updateStep_inv (I : Imported) (param : ComputeParam) (acc : DtoAcc)
  (f0 : Field) (acc' : DtoAcc) :
  updateStep I param acc f0 = Return acc' ->
  let f := includeIdentifier param f0 in
  ((isAnnotatedWith f0 DTO_UPDATE_HIDDEN = true
    \/ staysReadOnly param f0 = true
    \/ (isRelation f0 = true
        /\ isAnnotatedWithOneOf f0 (DTO_RELATION_MODIFIERS_ON_UPDATE I) = false))
   /\ acc' = dropField acc f)
  \/ (isAnnotatedWith f0 DTO_UPDATE_HIDDEN = false
      /\ staysReadOnly param f0 = false
      /\ exists acc1 ov1,
           updateRelation I param acc f (updateInitialOverrides f0)
           = Return (Some (acc1, ov1))
           /\ updateRest I param acc1 f ov1 = Return acc').
Proof.
  intros H. cbv zeta. unfold updateStep in H. cbv zeta in H.
  fold (updateInitialOverrides f0) in H.
  pose proof (sameShape_includeIdentifier param f0) as Hshape.
  rewrite (sameShape_annotated f0 _ _ Hshape) in H.
  rewrite includeIdentifier_readOnly in H.
  destruct (isAnnotatedWith f0 DTO_UPDATE_HIDDEN).
  { inversion H; subst. left. auto. }
  destruct (staysReadOnly param f0).
  { inversion H; subst. left. auto. }
  destruct (updateRelation I param acc (includeIdentifier param f0)
              (updateInitialOverrides f0))
    as [[[acc1 ov1]|]|] eqn:Hrel; simpl in H; [| |discriminate].
  - right. repeat split. exists acc1, ov1. split; [reflexivity|exact H].
  - apply updateRelation_none in Hrel. destruct Hrel as [Hr Hone].
    rewrite (sameShape_isRelation f0 _ Hshape) in Hr.
    rewrite (sameShape_oneOf f0 _ _ Hshape) in Hone.
    inversion H; subst. left. auto.
Qed.

Lemma collectRelationInput_facts (param : ComputeParam) (ri : RelationInput)
  (acc : DtoAcc) :
  da_result (collectRelationInput param ri acc) = da_result acc
  /\ da_fields (collectRelationInput param ri acc) = da_fields acc
  /\ da_imports (collectRelationInput param ri acc) = da_imports acc ++ ri_imports ri.
Proof. repeat split. Qed.

Lemma updateStep_emits (I : Imported) (param : ComputeParam) (acc : DtoAcc)
  (f0 : Field) (acc' : DtoAcc) :
  updateStep I param acc f0 = Return acc' ->
  if updateKeeps I param f0
  then exists pf, da_result acc' = da_result acc ++ [pf] /\ UpdateEmits f0 pf
  else da_result acc' = da_result acc.
Proof.
  intros H. apply updateStep_inv in H. cbv zeta in H.
  pose proof (sameShape_includeIdentifier param f0) as Hshape.
  unfold updateKeeps, updateGates.
  destruct H as [[Hdrop ->] | [Hhid [Hro [acc1 [ov1 [Hrel Hrest]]]]]].
  - replace (_ && _ && _ && _) with false; [reflexivity|].
    destruct Hdrop as [-> | [-> | [-> ->]]]; simpl;
      repeat rewrite andb_false_r; reflexivity.
  - rewrite Hhid, Hro. simpl.
    apply updateRelation_some in Hrel.
    rewrite (sameShape_isRelation f0 _ Hshape) in Hrel.
    rewrite (sameShape_oneOf f0 _ _ Hshape) in Hrel.
    assert (Hgate : (negb (isRelation f0)
                     || isAnnotatedWithOneOf f0 (DTO_RELATION_MODIFIERS_ON_UPDATE I)) = true
                    /\ da_result acc1 = da_result acc
                    /\ (isRelation f0 = false -> o_isRequired ov1 = Some false)).
    { destruct Hrel as [[Hr [-> ->]] | [Hr [Hone [ri [_ [-> ->]]]]]].
      - rewrite Hr. repeat split.
      - rewrite Hr, Hone. repeat split; intros; discriminate. }
    destruct Hgate as [Hgate [Hres1 Hreq1]]. rewrite Hgate. simpl.
    apply updateRest_inv in Hrest. unfold updateRestKeeps in Hrest.
    rewrite (sameShape_annotated f0 _ _ Hshape),
      (sameShape_annotated f0 _ DTO_UPDATE_OPTIONAL Hshape),
      (sameShape_tracked param f0 _ Hshape),
      (sameShape_updateDefault f0 _ Hshape) in Hrest.
    destruct Hrest as [[Hk ->] | [Hk [imports [acc2 [ov2 [d [_ [Hdec ->]]]]]]]];
      rewrite Hk; [exact Hres1|].
    apply updateDecorate_spec in Hdec.
    destruct Hdec as [Hres [_ [_ [_ [Hreq _]]]]].
    destruct (emittedField_facts param (includeIdentifier param f0)) as [Hn [_ [Hr _]]].
    eexists. split; [unfold emitField; simpl; rewrite Hres; simpl; rewrite Hres1;
                     reflexivity|].
    fold (emittedField param (includeIdentifier param f0)).
    unfold UpdateEmits, pf_name, pf_isRequired. simpl. rewrite Hn, Hr.
    pose proof (includeIdentifier_readOnly param f0) as Hflag.
    unfold isReadOnly in Hflag. rewrite Hflag, Hro.
    destruct Hshape as [Hname _]. split; [exact Hname|]. split; [reflexivity|].
    intros Hnr. rewrite Hreq, (Hreq1 Hnr). reflexivity.
Qed.

Lemma update_fields (I : Imported) (param : ComputeParam) (out : DtoParams) :
  computeUpdateDtoParams I param = Return out ->
  Forall2 UpdateEmits (filter (updateKeeps I param) (m_fields (model param)))
    (dp_fields out).
Proof.
  unfold computeUpdateDtoParams, updateReduce. intros H.
  destruct (reduceM (updateStep I param) (m_fields (model param)) dtoInit)
    as [acc|] eqn:Hred; simpl in H; [|discriminate].
  inversion H; subst. simpl.
  destruct (reduceM_emits _ _ _ _ da_result (updateKeeps I param) UpdateEmits
              (updateStep_emits I param) _ _ _ Hred) as [bs [Hbs Hall]].
  rewrite Hbs. exact Hall.
Qed.

(** C6 as stated fails: [authorId] of the sample has its read-only flag set,
    is a foreign key of [author] and carries relation-include-identifier;
    the Update pipeline clears the flag and puts the field in its output. *)
Lemma update_read_only_counterexample :
  f_isReadOnly Sample.authorId = true
  /\ In Sample.authorId (m_fields Sample.post)
  /\ exists out,
       computeUpdateDtoParams Sample.imported (Sample.onPost false true) = Return out
       /\ map pf_name (dp_fields out) = ["title"; "authorId"; "author"; "parent"].
Proof.
  split; [reflexivity|]. split; [right; right; left; reflexivity|].
  eexists. split; vm_compute; reflexivity.
Qed.

(** C6, amended.  In the Update pipeline, a field whose read-only flag is set
    is not in the output, unless it is a tracked foreign key carrying
    relation-include-identifier: for such a field the flag is cleared before
    it is tested, and the field is in the output, its flag cleared, when no
    other rule drops it.  Field names identify the fields of the entity. *)
Theorem update_read_only_rule (I : Imported) (param : ComputeParam) (out : DtoParams) :
  uniqueNames (model param) ->
  computeUpdateDtoParams I param = Return out ->
  forall f, In f (m_fields (model param)) -> f_isReadOnly f = true ->
    (isAnnotatedWith f DTO_RELATION_INCLUDE_ID && tracked param f = false ->
     ~ In (f_name f) (map pf_name (dp_fields out)))
    /\ (isAnnotatedWith f DTO_RELATION_INCLUDE_ID && tracked param f = true ->
        updateKeeps I param f = true ->
        exists pf, In pf (dp_fields out) /\ pf_name pf = f_name f
                   /\ f_isReadOnly (pf_field pf) = false).
Proof.
  intros Hnd Hout f Hin Hro.
  pose proof (update_fields I param out Hout) as Hall. split.
  - intros Hno.
    rewrite (Forall2_names UpdateEmits f_name pf_name _ _ (fun x y H => proj1 H) Hall).
    apply dropped_name_absent; [exact Hnd|exact Hin|].
    unfold updateKeeps, updateGates, staysReadOnly. rewrite Hro, Hno. simpl.
    now rewrite andb_false_r.
  - intros _ Hkeeps.
    assert (Hkept : In f (filter (updateKeeps I param) (m_fields (model param))))
      by (apply filter_In; split; assumption).
    destruct (Forall2_in_left _ _ _ f Hall Hkept) as [pf [Hpf [Hname [Hflag _]]]].
    exists pf. repeat split; assumption.
Qed.

Lemma update_read_only_rule_witness :
  exists out,
    computeUpdateDtoParams Sample.imported (Sample.onPost false true) = Return out
    /\ (isAnnotatedWith Sample.authorId DTO_RELATION_INCLUDE_ID
        && tracked (Sample.onPost false true) Sample.authorId = false ->
        ~ In (f_name Sample.authorId) (map pf_name (dp_fields out)))
    /\ (isAnnotatedWith Sample.authorId DTO_RELATION_INCLUDE_ID
        && tracked (Sample.onPost false true) Sample.authorId = true ->
        updateKeeps Sample.imported (Sample.onPost false true) Sample.authorId = true ->
        exists pf, In pf (dp_fields out) /\ pf_name pf = f_name Sample.authorId
                   /\ f_isReadOnly (pf_field pf) = false).
Proof.
  eexists. split; [vm_compute; reflexivity|].
  apply (update_read_only_rule Sample.imported (Sample.onPost false true)).
  - exact sample_post_uniqueNames.
  - vm_compute; reflexivity.
  - simpl. right. right. left. reflexivity.
  - reflexivity.
Defined.

(** ** The three ways a field leaves the callback *)

Lemma createStep_cases (I : Imported) (param : ComputeParam) (acc : DtoAcc)
  (f0 : Field) (acc' : DtoAcc) :
  createStep I param acc f0 = Return acc' ->
  (createKeeps I param f0 = false
   /\ acc' = dropField acc (includeIdentifier param f0))
  \/ (exists acc1 f1 ov1,
        createRelation I param acc (includeIdentifier param f0)
          (set_createApiResp false noOverrides) = Return (Some (acc1, f1, ov1))
        /\ ((createKeeps I param f0 = false /\ acc' = dropField acc1 f1)
            \/ (createKeeps I param f0 = true
                /\ exists imports acc2 ov2 d,
                     (if isType f1
                      then importRelated I param "type" f1
                             (out_dto (m_output (model param))) out_dto
                             (createDtoName (templateHelpers param))
                             (createDtoFilename (templateHelpers param)) (da_imports acc1)
                      else Return (da_imports acc1)) = Return imports
                     /\ createDecorate I param (withImports imports acc1) f1
                          (if isAnnotatedWith f1 DTO_CREATE_OPTIONAL
                           then set_isRequired false ov1 else ov1)
                        = (acc2, ov2, d)
                     /\ acc' = emitField param acc2 f1 ov2 d))).
Proof.
  intros H. apply createStep_inv in H. cbv zeta in H.
  pose proof (sameShape_includeIdentifier param f0) as Hshape.
  destruct H as [[Hdrop ->] | [Hhid [Hro [acc1 [f1 [ov1 [Hrel Hrest]]]]]]].
  - left. split; [|reflexivity]. unfold createKeeps, createGates.
    destruct Hdrop as [-> | [-> | [-> ->]]]; simpl;
      repeat rewrite andb_false_r; reflexivity.
  - right. exists acc1, f1, ov1. split; [exact Hrel|].
    assert (Hkeeps : createKeeps I param f0 = createRestKeeps param f1).
    { unfold createKeeps, createGates, createRestKeeps. rewrite Hhid, Hro. simpl.
      apply createRelation_some in Hrel.
      destruct Hrel as [[Hr [_ [-> _]]] | [Hr [Hone [ri [_ Happly]]]]].
      - rewrite (sameShape_isRelation f0 _ Hshape) in Hr. rewrite Hr. simpl.
        rewrite (sameShape_annotated f0 _ _ Hshape),
          (sameShape_annotated f0 _ DTO_CREATE_OPTIONAL Hshape),
          (sameShape_tracked param f0 _ Hshape),
          (sameShape_createDefault f0 _ Hshape). reflexivity.
      - apply createApplyRelationInput_spec in Happly.
        destruct Happly as [_ [_ [_ [Hshape1 _]]]].
        pose proof (sameShape_trans _ _ _ Hshape Hshape1) as Hs.
        rewrite (sameShape_isRelation f0 _ Hshape) in Hr.
        rewrite (sameShape_oneOf f0 _ _ Hshape) in Hone. rewrite Hr, Hone. simpl.
        rewrite (sameShape_annotated f0 _ _ Hs),
          (sameShape_annotated f0 _ DTO_CREATE_OPTIONAL Hs),
          (sameShape_tracked param f0 _ Hs),
          (sameShape_createDefault f0 _ Hs). reflexivity. }
    rewrite Hkeeps. apply createRest_inv in Hrest.
    destruct Hrest as [[Hk ->] | [Hk Hex]]; [left|right]; auto.
Qed.

Lemma updateStep_cases (I : Imported) (param : ComputeParam) (acc : DtoAcc)
  (f0 : Field) (acc' : DtoAcc) :
  updateStep I param acc f0 = Return acc' ->
  let f := includeIdentifier param f0 in
  (updateKeeps I param f0 = false /\ acc' = dropField acc f)
  \/ (exists acc1 ov1,
        updateRelation I param acc f (updateInitialOverrides f0)
        = Return (Some (acc1, ov1))
        /\ ((updateKeeps I param f0 = false /\ acc' = dropField acc1 f)
            \/ (updateKeeps I param f0 = true
                /\ exists imports acc2 ov2 d,
                     (if isType f
                      then importRelated I param "type" f
                             (out_dto (m_output (model param))) out_dto
                             (if isAnnotatedWith f DTO_TYPE_FULL_UPDATE
                              then createDtoName (templateHelpers param)
                              else updateDtoName (templateHelpers param))
                             (if isAnnotatedWith f DTO_TYPE_FULL_UPDATE
                              then createDtoFilename (templateHelpers param)
                              else updateDtoFilename (templateHelpers param))
                             (da_imports acc1)
                      else Return (da_imports acc1)) = Return imports
                     /\ updateDecorate I param (withImports imports acc1) f ov1
                        = (acc2, ov2, d)
                     /\ acc' = emitField param acc2 f ov2 d))).
Proof.
  intros H. apply updateStep_inv in H. cbv zeta in *.
  pose proof (sameShape_includeIdentifier param f0) as Hshape.
  destruct H as [[Hdrop ->] | [Hhid [Hro [acc1 [ov1 [Hrel Hrest]]]]]].
  - left. split; [|reflexivity]. unfold updateKeeps, updateGates.
    destruct Hdrop as [-> | [-> | [-> ->]]]; simpl;
      repeat rewrite andb_false_r; reflexivity.
  - right. exists acc1, ov1. split; [exact Hrel|].
    assert (Hkeeps : updateKeeps I param f0
                     = updateRestKeeps param (includeIdentifier param f0)).
    { unfold updateKeeps, updateGates, updateRestKeeps. rewrite Hhid, Hro. simpl.
      apply updateRelation_some in Hrel.
      rewrite (sameShape_isRelation f0 _ Hshape) in Hrel.
      rewrite (sameShape_oneOf f0 _ _ Hshape) in Hrel.
      rewrite (sameShape_annotated f0 _ _ Hshape),
        (sameShape_annotated f0 _ DTO_UPDATE_OPTIONAL Hshape),
        (sameShape_tracked param f0 _ Hshape),
        (sameShape_updateDefault f0 _ Hshape).
      destruct Hrel as [[Hr _] | [Hr [Hone _]]].
      - rewrite Hr. reflexivity.
      - rewrite Hr, Hone. reflexivity. }
    rewrite Hkeeps. apply updateRest_inv in Hrest.
    destruct Hrest as [[Hk ->] | [Hk Hex]]; [left|right]; auto.
Qed.

(** ** The shared field records after a pipeline *)

Lemma filter_all {A : Type} (xs : list A) : filter (fun _ => true) xs = xs.
Proof. induction xs as [|x rest IH]; simpl; [reflexivity|now rewrite IH]. Qed.

Lemma entityStep_leaves (I : Imported) (param : ComputeParam) (acc : EntityAcc)
  (f : Field) (acc' : EntityAcc) :
  entityStep I param acc f = Return acc' ->
  exists f', ea_fields acc' = ea_fields acc ++ [f'] /\ EntityLeaves param f f'.
Proof.
  unfold entityStep, EntityLeaves, entityKeeps.
  destruct (isAnnotatedWith f DTO_ENTITY_HIDDEN); simpl.
  - intros H. inversion H; subst; simpl. exists f. repeat split.
  - match goal with |- andThen ?c _ = _ -> _ => destruct c as [imports1|] end;
      simpl; [|discriminate].
    match goal with |- andThen ?c _ = _ -> _ => destruct c as [imports2|] end;
      simpl; [|discriminate].
    destruct (entityDecorate I param f imports2 (ea_hasApiProperty acc))
      as [[decorators imports3] hasApi].
    intros H. inversion H; subst; simpl. eexists. split; [reflexivity|].
    fold (emittedField param f).
    destruct (emittedField_facts param f) as [Hn [Hd [Hr _]]]. repeat split; assumption.
Qed.

Lemma createRelation_field (I : Imported) (param : ComputeParam) (acc : DtoAcc)
  (f : Field) (ov : Overrides) (acc1 : DtoAcc) (f1 : Field) (ov1 : Overrides) :
  createRelation I param acc f ov = Return (Some (acc1, f1, ov1)) ->
  da_fields acc1 = da_fields acc /\ da_result acc1 = da_result acc
  /\ sameShape f f1 /\ f_isReadOnly f1 = f_isReadOnly f
  /\ (f_documentation f1 = f_documentation f
      \/ (isRelation f = true
          /\ exists ri value,
               generateRelationInput I (createRelationInputParam param f) = Return ri
               /\ (List.length (ri_imports ri) <= 1)%nat
               /\ coercionTarget ri = Some value
               /\ f_documentation f1
                  = Some (orElse (f_documentation f) "undefined"
                            ++ coercionNote value)%string))
  /\ (da_imports acc1 = da_imports acc
      \/ (isRelation f = true
          /\ exists ri,
               generateRelationInput I (createRelationInputParam param f) = Return ri
               /\ da_imports acc1 = da_imports acc ++ ri_imports ri))
  /\ exists parsed,
       da_classValidators acc1 = concatUniqueIntoArray parsed (da_classValidators acc).
Proof.
  intros H. apply createRelation_some in H.
  destruct H as [[Hr [-> [-> ->]]] | [Hr [_ [ri [Hri Happly]]]]].
  - repeat split; auto using sameShape_refl. exists []. reflexivity.
  - apply createApplyRelationInput_spec in Happly.
    destruct Happly as [Hres [Hfs [Himp [Hshape [Hro [Hcv Hcase]]]]]].
    split; [exact Hfs|]. split; [exact Hres|]. split; [exact Hshape|].
    split; [exact Hro|]. split; [|split; [|exact Hcv]].
    + destruct (1 <? List.length (ri_imports ri))%nat eqn:Hlen.
      * destruct Hcase as [-> _]. left. reflexivity.
      * destruct (coercionTarget ri) as [value|] eqn:Hval.
        -- destruct Hcase as [-> _]. right. split; [exact Hr|].
           exists ri, value. apply Nat.ltb_ge in Hlen. repeat split; auto.
        -- destruct Hcase as [-> _]. left. reflexivity.
    + right. split; [exact Hr|]. exists ri. split; assumption.
Qed.

Lemma appendDocumentation_documentation (suffix : string) (f : Field) :
  f_documentation (appendDocumentation suffix f)
  = Some (orElse (f_documentation f) "undefined" ++ suffix)%string.
Proof. unfold appendDocumentation. destruct (f_documentation f); reflexivity. Qed.

(** What line 133 leaves in the documentation of the shared record. *)
Lemma createStep_documentation (I : Imported) (param : ComputeParam) (acc : DtoAcc)
  (f0 : Field) (acc' : DtoAcc) :
  createStep I param acc f0 = Return acc' ->
  exists f',
    da_fields acc' = da_fields acc ++ [f']
    /\ f_documentation f'
       = match createNote I param f0 with
         | Some value =>
             Some (orElse (f_documentation f0) "undefined" ++ coercionNote value)%string
         | None => f_documentation f0
         end.
Proof.
  intros H. apply createStep_inv in H. cbv zeta in H.
  pose proof (sameShape_includeIdentifier param f0) as Hs.
  pose proof (includeIdentifier_documentation param f0) as Hdoc0.
  unfold createNote, createSynthesizes.
  destruct H as [[Hdrop ->] | [Hhidden [Hro [acc1 [f1 [ov1 [Hrel Hrest]]]]]]].
  - assert (Hoff : isRelation f0 && negb (isAnnotatedWith f0 DTO_CREATE_HIDDEN)
                   && negb (staysReadOnly param f0)
                   && isAnnotatedWithOneOf f0 (DTO_RELATION_MODIFIERS_ON_CREATE I)
                   = false).
    { destruct Hdrop as [-> | [-> | [_ ->]]].
      - rewrite andb_false_r. reflexivity.
      - rewrite andb_false_r. reflexivity.
      - rewrite andb_false_r. reflexivity. }
    rewrite Hoff. eexists. split; [reflexivity|exact Hdoc0].
  - assert (Hleft : exists f',
               da_fields acc' = da_fields acc1 ++ [f']
               /\ f_documentation f' = f_documentation f1).
    { apply createRest_inv in Hrest.
      destruct Hrest as [[_ ->] | [_ [imports [acc2 [ov2 [d [_ [Hdec ->]]]]]]]].
      - eexists. split; reflexivity.
      - apply createDecorate_spec in Hdec. destruct Hdec as [_ [Hfs2 _]].
        exists (emittedField param f1). split.
        + unfold emitField. simpl. rewrite Hfs2. reflexivity.
        + apply emittedField_facts. }
    destruct Hleft as [f' [Hfs Hdoc]]. exists f'.
    rewrite Hfs, Hdoc, Hhidden, Hro. simpl. rewrite !andb_true_r.
    apply createRelation_some in Hrel.
    rewrite (sameShape_isRelation f0 _ Hs), (sameShape_oneOf f0 _ _ Hs) in Hrel.
    destruct Hrel as [[Hr [-> [-> _]]] | [Hr [Hone [ri [Hri Happly]]]]]; rewrite Hr; simpl.
    + split; [reflexivity|exact Hdoc0].
    + rewrite Hone, Hri.
      apply createApplyRelationInput_spec in Happly.
      destruct Happly as [_ [Hfs1 [_ [_ [_ [_ Hcase]]]]]]. rewrite Hfs1.
      split; [reflexivity|].
      destruct (1 <? List.length (ri_imports ri))%nat.
      * destruct Hcase as [-> _]. exact Hdoc0.
      * destruct (coercionTarget ri) as [value|].
        -- destruct Hcase as [-> _].
           rewrite appendDocumentation_documentation, Hdoc0. reflexivity.
        -- destruct Hcase as [-> _]. exact Hdoc0.
Qed.

Lemma createStep_leaves (I : Imported) (param : ComputeParam) (acc : DtoAcc)
  (f0 : Field) (acc' : DtoAcc) :
  createStep I param acc f0 = Return acc' ->
  exists f', da_fields acc' = da_fields acc ++ [f'] /\ CreateLeaves I param f0 f'.
Proof.
  intros H.
  destruct (createStep_documentation I param acc f0 acc' H) as [f' [Hfs' Hdoc]].
  exists f'. split; [exact Hfs'|].
  assert (Hrest : exists g,
            da_fields acc' = da_fields acc ++ [g]
            /\ f_name g = f_name f0
            /\ f_isReadOnly g = staysReadOnly param f0
            /\ f_type g
               = f_type (if createKeeps I param f0 then emittedField param f0 else f0)).
  { apply createStep_cases in H.
    pose proof (sameShape_includeIdentifier param f0) as Hshape.
    pose proof (includeIdentifier_readOnly param f0) as Hflag.
    unfold isReadOnly in Hflag.
    destruct H as [[Hk ->] | [acc1 [f1 [ov1 [Hrel Hcase]]]]].
    - rewrite Hk. exists (includeIdentifier param f0). split; [reflexivity|].
      unfold sameShape in Hshape. intuition.
    - apply createRelation_field in Hrel.
      destruct Hrel as [Hfs [_ [Hshape1 [Hro _]]]].
      pose proof (sameShape_trans _ _ _ Hshape Hshape1) as Hs.
      destruct Hcase as [[Hk ->] | [Hk [imports [acc2 [ov2 [d [_ [Hdec ->]]]]]]]];
        rewrite Hk.
      + exists f1. split; [simpl; rewrite Hfs; reflexivity|].
        rewrite Hro, Hflag. unfold sameShape in Hs. intuition.
      + apply createDecorate_spec in Hdec. destruct Hdec as [_ [Hfs2 _]].
        exists (emittedField param f1).
        split; [unfold emitField; simpl; rewrite Hfs2; simpl; rewrite Hfs; reflexivity|].
        destruct (emittedField_facts param f1) as [Hn [_ [Hr _]]].
        rewrite Hn, Hr, Hro, Hflag, (sameShape_emittedType param f0 _ Hs).
        unfold sameShape in Hs. intuition. }
  destruct Hrest as [g [Hfs [Hn [Hro Hty]]]].
  rewrite Hfs' in Hfs. apply app_inj_tail in Hfs. destruct Hfs as [_ <-].
  unfold CreateLeaves. split; [exact Hn|]. split; [exact Hro|]. split; [exact Hty|].
  exact Hdoc.
Qed.

Lemma updateStep_leaves (I : Imported) (param : ComputeParam) (acc : DtoAcc)
  (f0 : Field) (acc' : DtoAcc) :
  updateStep I param acc f0 = Return acc' ->
  exists f', da_fields acc' = da_fields acc ++ [f'] /\ UpdateLeaves I param f0 f'.
Proof.
  intros H. apply updateStep_cases in H. cbv zeta in H.
  pose proof (sameShape_includeIdentifier param f0) as Hshape.
  pose proof (includeIdentifier_readOnly param f0) as Hflag. unfold isReadOnly in Hflag.
  pose proof (includeIdentifier_documentation param f0) as Hdoc0.
  unfold UpdateLeaves.
  destruct H as [[Hk ->] | [acc1 [ov1 [Hrel Hcase]]]].
  - rewrite Hk. exists (includeIdentifier param f0). split; [reflexivity|].
    unfold sameShape in Hshape. intuition.
  - assert (Hfs : da_fields acc1 = da_fields acc).
    { apply updateRelation_some in Hrel.
      destruct Hrel as [[_ [-> _]] | [_ [_ [ri [_ [-> _]]]]]]; reflexivity. }
    destruct Hcase as [[Hk ->] | [Hk [imports [acc2 [ov2 [d [_ [Hdec ->]]]]]]]];
      rewrite Hk.
    + exists (includeIdentifier param f0). split; [simpl; rewrite Hfs; reflexivity|].
      unfold sameShape in Hshape. intuition.
    + apply updateDecorate_spec in Hdec. destruct Hdec as [_ [Hfs2 _]].
      exists (emittedField param (includeIdentifier param f0)).
      split; [unfold emitField; simpl; rewrite Hfs2; simpl; rewrite Hfs; reflexivity|].
      destruct (emittedField_facts param (includeIdentifier param f0)) as [Hn [Hd [Hr _]]].
      rewrite Hn, Hd, Hr, Hflag, (sameShape_emittedType param f0 _ Hshape).
      unfold sameShape in Hshape. intuition.
Qed.

Lemma reduceM_leaves {S : Type} (step : S -> Field -> Outcome S)
  (proj : S -> list Field) (R : Field -> Field -> Prop) :
  (forall acc f acc', step acc f = Return acc' ->
     exists f', proj acc' = proj acc ++ [f'] /\ R f f') ->
  forall fs acc acc', reduceM step fs acc = Return acc' ->
    exists fs', proj acc' = proj acc ++ fs' /\ Forall2 R fs fs'.
Proof.
  intros Hstep fs acc acc' Hred.
  destruct (reduceM_emits _ _ _ step proj (fun _ => true) R Hstep fs acc acc' Hred)
    as [fs' [Hproj Hall]].
  rewrite filter_all in Hall. exists fs'. split; assumption.
Qed.

Lemma entitiesAfter_others (param : ComputeParam) (left : Model) :
  OthersUntouched param (entitiesAfter param left).
Proof.
  unfold OthersUntouched, entitiesAfter.
  induction (allModels param) as [|m ms IH]; simpl; constructor; [|exact IH].
  intros Hother. apply String.eqb_neq in Hother. rewrite Hother. reflexivity.
Qed.

(** C8 as stated fails: after the Create pipeline returns on the sample, the
    shared record of [authorId] has lost its read-only flag and that of
    [author] has a longer documentation; after the Entity pipeline returns
    under [noDependencies], the type of [payload] is no longer [Json]. *)
Lemma shared_fields_counterexample :
  (exists out f',
     computeCreateDtoParams Sample.imported (Sample.onPost false true) = Return out
     /\ nth_error (m_fields Sample.post) 2 = Some Sample.authorId
     /\ nth_error (m_fields (dp_model out)) 2 = Some f'
     /\ f_isReadOnly Sample.authorId = true
     /\ f_isReadOnly f' = false)
  /\ (exists out f',
        computeCreateDtoParams Sample.imported (Sample.onPost false true) = Return out
        /\ nth_error (m_fields Sample.post) 3 = Some Sample.author
        /\ nth_error (m_fields (dp_model out)) 3 = Some f'
        /\ f_documentation Sample.author = Some ""
        /\ f_documentation f' = Some (newline ++ "%ConnectUserDto%")%string)
  /\ (exists out f f',
        computeEntityParams Sample.imported (Sample.onAudit true false) = Return out
        /\ nth_error (m_fields Sample.audit) 3 = Some f
        /\ nth_error (m_fields (ep_model out)) 3 = Some f'
        /\ f_type f = "Json"
        /\ f_type f' = "Object").
Proof.
  split; [|split].
  - eexists. eexists. split; [vm_compute; reflexivity|]. repeat split.
  - eexists. eexists. split; [vm_compute; reflexivity|]. repeat split.
  - eexists. eexists. eexists. split; [vm_compute; reflexivity|]. repeat split.
Qed.

(** C8, amended.  When a pipeline returns, the records of the entities of
    the set other than the one it processed are as before.  The field
    records of the entity it processed keep their names, and their read-only
    flag, type name and documentation are as before except for exactly three
    rewrites that stay in the shared records: Create and Update clear the
    read-only flag of a tracked foreign key carrying
    relation-include-identifier; under [noDependencies] every pipeline turns
    the type name [Json] into [Object] and [Decimal] into [Float] on the
    fields it puts in its output; Create appends the coercion note to the
    documentation of a relation field that is not hidden from create, not
    read-only and carries a create-time modifier, when its relation input
    has at most one import record and comes with a coercion target. *)
Theorem shared_fields_after (I : Imported) (param : ComputeParam) :
  (forall out, computeEntityParams I param = Return out ->
     Forall2 (EntityLeaves param) (m_fields (model param)) (m_fields (ep_model out))
     /\ OthersUntouched param (entitiesAfter param (ep_model out)))
  /\ (forall out, computeCreateDtoParams I param = Return out ->
        Forall2 (CreateLeaves I param) (m_fields (model param)) (m_fields (dp_model out))
        /\ OthersUntouched param (entitiesAfter param (dp_model out)))
  /\ (forall out, computeUpdateDtoParams I param = Return out ->
        Forall2 (UpdateLeaves I param) (m_fields (model param)) (m_fields (dp_model out))
        /\ OthersUntouched param (entitiesAfter param (dp_model out))).
Proof.
  split; [|split]; intros out H; (split; [|apply entitiesAfter_others]).
  - unfold computeEntityParams in H.
    destruct (reduceM (entityStep I param) (m_fields (model param)) entityInit)
      as [acc|] eqn:Hred; simpl in H; [|discriminate].
    inversion H; subst. simpl.
    destruct (reduceM_leaves (entityStep I param) ea_fields (EntityLeaves param)
                (entityStep_leaves I param) _ _ _ Hred) as [fs' [Hfs Hall]].
    rewrite Hfs. exact Hall.
  - unfold computeCreateDtoParams, createReduce in H.
    destruct (reduceM (createStep I param) (m_fields (model param)) dtoInit)
      as [acc|] eqn:Hred; simpl in H; [|discriminate].
    inversion H; subst. simpl.
    destruct (reduceM_leaves (createStep I param) da_fields (CreateLeaves I param)
                (createStep_leaves I param) _ _ _ Hred) as [fs' [Hfs Hall]].
    rewrite Hfs. exact Hall.
  - unfold computeUpdateDtoParams, updateReduce in H.
    destruct (reduceM (updateStep I param) (m_fields (model param)) dtoInit)
      as [acc|] eqn:Hred; simpl in H; [|discriminate].
    inversion H; subst. simpl.
    destruct (reduceM_leaves (updateStep I param) da_fields (UpdateLeaves I param)
                (updateStep_leaves I param) _ _ _ Hred) as [fs' [Hfs Hall]].
    rewrite Hfs. exact Hall.
Qed.

Lemma shared_fields_after_witness :
  exists entityOut createOut updateOut,
    computeEntityParams Sample.imported (Sample.onPost true true) = Return entityOut
    /\ computeCreateDtoParams Sample.imported (Sample.onPost true true) = Return createOut
    /\ computeUpdateDtoParams Sample.imported (Sample.onPost true true) = Return updateOut
    /\ (Forall2 (EntityLeaves (Sample.onPost true true)) (m_fields Sample.post)
          (m_fields (ep_model entityOut))
        /\ OthersUntouched (Sample.onPost true true)
             (entitiesAfter (Sample.onPost true true) (ep_model entityOut)))
    /\ (Forall2 (CreateLeaves Sample.imported (Sample.onPost true true))
          (m_fields Sample.post) (m_fields (dp_model createOut))
        /\ OthersUntouched (Sample.onPost true true)
             (entitiesAfter (Sample.onPost true true) (dp_model createOut)))
    /\ (Forall2 (UpdateLeaves Sample.imported (Sample.onPost true true))
          (m_fields Sample.post) (m_fields (dp_model updateOut))
        /\ OthersUntouched (Sample.onPost true true)
             (entitiesAfter (Sample.onPost true true) (dp_model updateOut))).
Proof.
  eexists. eexists. eexists.
  split; [vm_compute; reflexivity|].
  split; [vm_compute; reflexivity|].
  split; [vm_compute; reflexivity|].
  destruct (shared_fields_after Sample.imported (Sample.onPost true true))
    as [He [Hc Hu]].
  split; [apply He; vm_compute; reflexivity|].
  split; [apply Hc; vm_compute; reflexivity | apply Hu; vm_compute; reflexivity].
Defined.

(** ** Import registration *)






(** ** Resolution failures *)

Lemma notFound_occurs (param : ComputeParam) (what : string) (f : Field) :
  occursIn (m_name (model param)) (notFound param what f)
  /\ occursIn (f_name f) (notFound param what f).
Proof.
  unfold notFound, occursIn. split.
  - exists ("related " ++ what ++ " '" ++ f_type f ++ "' for '")%string,
      ("." ++ f_name f ++ "' not found")%string.
    repeat rewrite string_app_assoc. reflexivity.
  - exists ("related " ++ what ++ " '" ++ f_type f ++ "' for '"
              ++ m_name (model param) ++ ".")%string,
      "' not found"%string.
    repeat rewrite string_app_assoc. reflexivity.
Qed.

Lemma importRelated_outcome (I : Imported) (param : ComputeParam) (what : string)
  (f : Field) (fromOutput : string) (toOutput : Output -> string)
  (naming filenaming : string -> string) (imports : list ImportStatementParams) :
  if unresolved param f
  then importRelated I param what f fromOutput toOutput naming filenaming imports
       = Throw (notFound param what f)
  else exists imports',
         importRelated I param what f fromOutput toOutput naming filenaming imports
         = Return imports'.
Proof.
  unfold unresolved, importRelated.
  destruct (negb (f_type f =? m_name (model param))%string); simpl.
  - destruct (find _ (allModels param)); [eexists|]; reflexivity.
  - eexists; reflexivity.
Qed.

Lemma unresolved_shape (param : ComputeParam) (f g : Field) :
  sameShape f g -> unresolved param g = unresolved param f.
Proof.
  intros H. unfold unresolved.
  replace (f_type g) with (f_type f) by (unfold sameShape in H; intuition congruence).
  reflexivity.
Qed.

Lemma Decides_reduce {S : Type} (param : ComputeParam) (bad : Field -> bool)
  (step : S -> Field -> Outcome S) (fs : list Field) (acc : S) :
  Decides param bad step ->
  ((exists f, In f fs /\ bad f = true) -> exists msg, reduceM step fs acc = Throw msg)
  /\ (forall msg, reduceM step fs acc = Throw msg ->
        exists f, In f fs /\ bad f = true
                  /\ occursIn (m_name (model param)) msg /\ occursIn (f_name f) msg)
  /\ ((forall f, In f fs -> bad f = false) -> exists acc', reduceM step fs acc = Return acc').
Proof.
  intros Hdec.
  assert (Hthrows : forall acc0 x, (exists msg, step acc0 x = Throw msg) <-> bad x = true).
  { intros acc0 x. specialize (Hdec acc0 x). destruct (bad x).
    - destruct Hdec as [msg [Hmsg _]]. split; eauto.
    - destruct Hdec as [acc' Hret]. split; [intros [msg Hmsg]; congruence|discriminate]. }
  assert (Hmessage : forall acc0 x msg, step acc0 x = Throw msg ->
            occursIn (m_name (model param)) msg /\ occursIn (f_name x) msg).
  { intros acc0 x msg Hmsg. specialize (Hdec acc0 x). destruct (bad x).
    - destruct Hdec as [msg' [Hmsg' Hocc]]. congruence.
    - destruct Hdec as [acc' Hret]. congruence. }
  split; [|split].
  - intros Hex. apply (reduceM_throws_iff _ _ step bad Hthrows).
    apply existsb_exists. exact Hex.
  - intros msg Hmsg.
    destruct (reduceM_throws_message _ _ step bad
                (fun x m => occursIn (m_name (model param)) m /\ occursIn (f_name x) m)
                Hthrows Hmessage fs acc msg Hmsg) as [f [Hin [Hbad Hocc]]].
    exists f. tauto.
  - intros Hnone. destruct (reduceM step fs acc) as [acc'|msg] eqn:Hred; [eauto|].
    assert (Hex : existsb bad fs = true)
      by (apply (reduceM_throws_iff _ _ step bad Hthrows fs acc); eauto).
    apply existsb_exists in Hex. destruct Hex as [f [Hin Hbad]].
    rewrite (Hnone f Hin) in Hbad. discriminate.
Qed.

Lemma entityStep_decides (I : Imported) (param : ComputeParam) :
  Decides param (fun f => entityResolves f && unresolved param f) (entityStep I param).
Proof.
  intros acc f. unfold entityResolves, entityKeeps, entityStep.
  destruct (isAnnotatedWith f DTO_ENTITY_HIDDEN); simpl; [eexists; reflexivity|].
  unfold isType, isRelation. destruct (f_kind f); simpl.
  - returns_after_decorating.
  - pose proof (importRelated_outcome I param "model" f
                  (out_entity (m_output (model param))) out_entity
                  (entityName (templateHelpers param))
                  (entityFilename (templateHelpers param)) (ea_imports acc)) as Hout.
    destruct (unresolved param f).
    + rewrite Hout. simpl. eexists. split; [reflexivity|apply notFound_occurs].
    + destruct Hout as [imports' ->]. simpl.
      returns_after_decorating.
  - pose proof (importRelated_outcome I param "type" f
                  (out_entity (m_output (model param))) out_dto
                  (plainDtoName (templateHelpers param))
                  (plainDtoFilename (templateHelpers param)) (ea_imports acc)) as Hout.
    destruct (unresolved param f).
    + rewrite Hout. simpl. eexists. split; [reflexivity|apply notFound_occurs].
    + destruct Hout as [imports' ->]. simpl.
      returns_after_decorating.
  - returns_after_decorating.
Qed.

Lemma createRest_outcome (I : Imported) (param : ComputeParam) (acc : DtoAcc)
  (f : Field) (ov : Overrides) :
  if createRestKeeps param f && isType f && unresolved param f
  then createRest I param acc f ov = Throw (notFound param "type" f)
  else exists acc', createRest I param acc f ov = Return acc'.
Proof.
  unfold createRest, createRestKeeps, hasCreateDefault.
  destruct (isAnnotatedWith f DTO_RELATION_INCLUDE_ID);
    destruct (includes (f_name f) (relationScalarFieldNames param)); simpl;
    try (eexists; reflexivity);
    (destruct (isAnnotatedWith f DTO_CREATE_OPTIONAL); simpl;
     [|destruct (isIdWithDefaultValue f || isUpdatedAt f || isRequiredWithDefaultValue f);
       simpl; [eexists; reflexivity|]]);
    (destruct (isType f); simpl;
     [pose proof (importRelated_outcome I param "type" f
                    (out_dto (m_output (model param))) out_dto
                    (createDtoName (templateHelpers param))
                    (createDtoFilename (templateHelpers param)) (da_imports acc)) as Hout;
      destruct (unresolved param f);
      [rewrite Hout; reflexivity|destruct Hout as [imports' ->]; simpl]|]);
    (match goal with |- context [createDecorate ?a ?b ?c ?d ?e] =>
       destruct (createDecorate a b c d e) as [[? ?] ?] end);
    eexists; reflexivity.
Qed.

Lemma updateRest_outcome (I : Imported) (param : ComputeParam) (acc : DtoAcc)
  (f : Field) (ov : Overrides) :
  if updateRestKeeps param f && isType f && unresolved param f
  then updateRest I param acc f ov = Throw (notFound param "type" f)
  else exists acc', updateRest I param acc f ov = Return acc'.
Proof.
  unfold updateRest, updateRestKeeps, hasUpdateDefault.
  destruct (isAnnotatedWith f DTO_RELATION_INCLUDE_ID);
    destruct (includes (f_name f) (relationScalarFieldNames param)); simpl;
    try (eexists; reflexivity);
    (destruct (isAnnotatedWith f DTO_UPDATE_OPTIONAL); simpl;
     [|destruct (isId f || isUpdatedAt f || isRequiredWithDefaultValue f);
       simpl; [eexists; reflexivity|]]);
    (destruct (isType f); simpl;
     [match goal with |- context [importRelated I param "type" f ?a ?b ?c ?d ?e] =>
        pose proof (importRelated_outcome I param "type" f a b c d e) as Hout end;
      destruct (unresolved param f);
      [rewrite Hout; reflexivity|destruct Hout as [imports' ->]; simpl]|]);
    (match goal with |- context [updateDecorate ?a ?b ?c ?d ?e] =>
       destruct (updateDecorate a b c d e) as [[? ?] ?] end);
    eexists; reflexivity.
Qed.

Lemma kind_exclusive (f : Field) : isRelation f && isType f = false.
Proof. unfold isRelation, isType. destruct (f_kind f); reflexivity. Qed.

(** Under the synthesizer's contract and with the entity in the set, the
    synthesizer fails on a field exactly when the field is unresolved. *)
Lemma synthesizer_outcome (I : Imported) (param : ComputeParam) (p : RelationInputParam)
  (f : Field) :
  SynthesizerResolves I -> entityInSet param ->
  rip_model p = model param -> rip_allModels p = allModels param ->
  f_type (rip_field p) = f_type f -> f_name (rip_field p) = f_name f ->
  if unresolved param f
  then exists msg, generateRelationInput I p = Throw msg
                   /\ occursIn (m_name (model param)) msg /\ occursIn (f_name f) msg
  else exists ri, generateRelationInput I p = Return ri.
Proof.
  intros Hsynth Hin Hm Hall Hty Hn. specialize (Hsynth p).
  unfold unresolved, entityInSet in *. rewrite Hm, Hall, Hty, Hn in Hsynth.
  destruct (generateRelationInput I p) as [ri|msg].
  - destruct (find _ (allModels param)); [|contradiction].
    rewrite andb_false_r. eexists; reflexivity.
  - destruct Hsynth as [Hnone Hocc]. rewrite Hnone.
    destruct (f_type f =? m_name (model param))%string eqn:Heq.
    + apply String.eqb_eq in Heq. rewrite Heq in Hnone. contradiction.
    + simpl. exists msg. split; [reflexivity|exact Hocc].
Qed.

Lemma createStep_decides (I : Imported) (param : ComputeParam) :
  SynthesizerResolves I -> entityInSet param ->
  Decides param (fun f => createResolves I param f && unresolved param f)
    (createStep I param).
Proof.
  intros Hsynth Hin acc f0. unfold createStep. cbv zeta.
  pose proof (sameShape_includeIdentifier param f0) as Hshape.
  rewrite (sameShape_annotated f0 _ _ Hshape), includeIdentifier_readOnly.
  unfold createResolves, createKeeps, createGates.
  destruct (isAnnotatedWith f0 DTO_CREATE_HIDDEN); simpl.
  { rewrite !andb_false_r. simpl. eexists; reflexivity. }
  destruct (staysReadOnly param f0); simpl.
  { rewrite !andb_false_r. simpl. eexists; reflexivity. }
  unfold createRelation.
  rewrite (sameShape_isRelation f0 _ Hshape), (sameShape_oneOf f0 _ _ Hshape).
  pose proof (kind_exclusive f0) as Hex.
  destruct (isRelation f0) eqn:Hr; simpl in *.
  - rewrite Hex. simpl. rewrite orb_false_r.
    destruct (isAnnotatedWithOneOf f0 (DTO_RELATION_MODIFIERS_ON_CREATE I)); simpl;
      [|eexists; reflexivity].
    pose proof (synthesizer_outcome I param
                  (createRelationInputParam param (includeIdentifier param f0)) f0
                  Hsynth Hin eq_refl eq_refl) as Hout.
    simpl in Hout.
    assert (Hty : f_type (includeIdentifier param f0) = f_type f0)
      by (unfold sameShape in Hshape; intuition congruence).
    assert (Hn : f_name (includeIdentifier param f0) = f_name f0)
      by (unfold sameShape in Hshape; intuition congruence).
    specialize (Hout Hty Hn).
    destruct (unresolved param f0).
    + destruct Hout as [msg [-> Hocc]]. simpl. exists msg. split; [reflexivity|exact Hocc].
    + destruct Hout as [ri ->]. simpl.
      destruct (createApplyRelationInput param ri acc (includeIdentifier param f0)
                  (set_createApiResp false noOverrides)) as [[acc1 f1] ov1] eqn:Happly.
      apply createApplyRelationInput_spec in Happly.
      destruct Happly as [_ [_ [_ [Hshape1 _]]]].
      pose proof (createRest_outcome I param acc1 f1 ov1) as Hrest.
      rewrite (sameShape_isType _ _ Hshape1), (sameShape_isType _ _ Hshape), Hex,
        andb_false_r in Hrest.
      exact Hrest.
  - pose proof (createRest_outcome I param acc (includeIdentifier param f0)
                  (set_createApiResp false noOverrides)) as Hrest.
    unfold createRestKeeps in Hrest.
    rewrite (sameShape_annotated f0 _ _ Hshape),
      (sameShape_annotated f0 _ DTO_CREATE_OPTIONAL Hshape),
      (sameShape_tracked param f0 _ Hshape),
      (sameShape_createDefault f0 _ Hshape),
      (sameShape_isType _ _ Hshape),
      (unresolved_shape param _ _ Hshape) in Hrest.
    replace (isType f0
             && ((isAnnotatedWith f0 DTO_RELATION_INCLUDE_ID || negb (tracked param f0))
                 && (isAnnotatedWith f0 DTO_CREATE_OPTIONAL || negb (hasCreateDefault f0)))
             && unresolved param f0)
      with ((isAnnotatedWith f0 DTO_RELATION_INCLUDE_ID || negb (tracked param f0))
            && (isAnnotatedWith f0 DTO_CREATE_OPTIONAL || negb (hasCreateDefault f0))
            && isType f0 && unresolved param f0)
      by (destruct (isType f0); destruct (_ || _); destruct (_ || _); reflexivity).
    destruct (_ && _ && isType f0 && unresolved param f0).
    + rewrite Hrest. eexists. split; [reflexivity|].
      destruct (notFound_occurs param "type" (includeIdentifier param f0)) as [H1 H2].
      destruct Hshape as [Hname _]. rewrite Hname in H2. split; assumption.
    + exact Hrest.
Qed.

Lemma updateStep_decides (I : Imported) (param : ComputeParam) :
  SynthesizerResolves I -> entityInSet param ->
  Decides param (fun f => updateResolves I param f && unresolved param f)
    (updateStep I param).
Proof.
  intros Hsynth Hin acc f0. unfold updateStep. cbv zeta.
  fold (updateInitialOverrides f0).
  pose proof (sameShape_includeIdentifier param f0) as Hshape.
  rewrite (sameShape_annotated f0 _ _ Hshape), includeIdentifier_readOnly.
  unfold updateResolves, updateKeeps, updateGates.
  destruct (isAnnotatedWith f0 DTO_UPDATE_HIDDEN); simpl.
  { rewrite !andb_false_r. simpl. eexists; reflexivity. }
  destruct (staysReadOnly param f0); simpl.
  { rewrite !andb_false_r. simpl. eexists; reflexivity. }
  unfold updateRelation.
  rewrite (sameShape_isRelation f0 _ Hshape), (sameShape_oneOf f0 _ _ Hshape).
  pose proof (kind_exclusive f0) as Hex.
  destruct (isRelation f0) eqn:Hr; simpl in *.
  - rewrite Hex. simpl. rewrite orb_false_r.
    destruct (isAnnotatedWithOneOf f0 (DTO_RELATION_MODIFIERS_ON_UPDATE I)); simpl;
      [|eexists; reflexivity].
    pose proof (synthesizer_outcome I param
                  (updateRelationInputParam param (includeIdentifier param f0)) f0
                  Hsynth Hin eq_refl eq_refl) as Hout.
    simpl in Hout.
    assert (Hty : f_type (includeIdentifier param f0) = f_type f0)
      by (unfold sameShape in Hshape; intuition congruence).
    assert (Hn : f_name (includeIdentifier param f0) = f_name f0)
      by (unfold sameShape in Hshape; intuition congruence).
    specialize (Hout Hty Hn).
    destruct (unresolved param f0).
    + destruct Hout as [msg [-> Hocc]]. simpl. exists msg. split; [reflexivity|exact Hocc].
    + destruct Hout as [ri ->]. simpl.
      match goal with |- exists acc', updateRest I param ?a ?f ?o = Return acc' =>
        pose proof (updateRest_outcome I param a f o) as Hrest end.
      rewrite (sameShape_isType _ _ Hshape), Hex, andb_false_r in Hrest.
      exact Hrest.
  - pose proof (updateRest_outcome I param acc (includeIdentifier param f0)
                  (updateInitialOverrides f0)) as Hrest.
    unfold updateRestKeeps in Hrest.
    rewrite (sameShape_annotated f0 _ _ Hshape),
      (sameShape_annotated f0 _ DTO_UPDATE_OPTIONAL Hshape),
      (sameShape_tracked param f0 _ Hshape),
      (sameShape_updateDefault f0 _ Hshape),
      (sameShape_isType _ _ Hshape),
      (unresolved_shape param _ _ Hshape) in Hrest.
    replace (isType f0
             && ((isAnnotatedWith f0 DTO_RELATION_INCLUDE_ID || negb (tracked param f0))
                 && (isAnnotatedWith f0 DTO_UPDATE_OPTIONAL || negb (hasUpdateDefault f0)))
             && unresolved param f0)
      with ((isAnnotatedWith f0 DTO_RELATION_INCLUDE_ID || negb (tracked param f0))
            && (isAnnotatedWith f0 DTO_UPDATE_OPTIONAL || negb (hasUpdateDefault f0))
            && isType f0 && unresolved param f0)
      by (destruct (isType f0); destruct (_ || _); destruct (_ || _); reflexivity).
    destruct (_ && _ && isType f0 && unresolved param f0).
    + rewrite Hrest. eexists. split; [reflexivity|].
      destruct (notFound_occurs param "type" (includeIdentifier param f0)) as [H1 H2].
      destruct Hshape as [Hname _]. rewrite Hname in H2. split; assumption.
    + exact Hrest.
Qed.

(** A pipeline throws exactly when its reduction does. *)
Lemma andThen_throws {A B : Type} (c : Outcome A) (k : A -> B) (msg : string) :
  andThen c (fun a => Return (k a)) = Throw msg <-> c = Throw msg.
Proof. destruct c; simpl; split; congruence. Qed.

Lemma throws_through {A B : Type} (c : Outcome A) (k : A -> B) :
  (exists msg, andThen c (fun a => Return (k a)) = Throw msg)
  <-> (exists msg, c = Throw msg).
Proof.
  split; intros [msg H]; exists msg; apply (andThen_throws c k msg); exact H.
Qed.

(** C1.  Each of the three pipelines throws if and only if some relation or
    nested structured type field that it resolves (one it does not drop
    before the resolution) has a declared type naming an entity that is
    absent from the full entity set and differs from the name of the entity
    being processed; the message thrown contains the name of the entity and
    the name of such a field; nothing else makes a pipeline throw.  The
    relation input synthesizer, consulted by Create and Update for relation
    fields, keeps its contract, and the entity is one of the full set. *)
Theorem resolution_failure (I : Imported) (param : ComputeParam) :
  SynthesizerResolves I -> entityInSet param ->
  (((exists msg, computeEntityParams I param = Throw msg)
    <-> exists f, Fails param entityResolves f)
   /\ forall msg, computeEntityParams I param = Throw msg ->
        exists f, Fails param entityResolves f
                  /\ occursIn (m_name (model param)) msg /\ occursIn (f_name f) msg)
  /\ (((exists msg, computeCreateDtoParams I param = Throw msg)
       <-> exists f, Fails param (createResolves I param) f)
      /\ forall msg, computeCreateDtoParams I param = Throw msg ->
           exists f, Fails param (createResolves I param) f
                     /\ occursIn (m_name (model param)) msg /\ occursIn (f_name f) msg)
  /\ (((exists msg, computeUpdateDtoParams I param = Throw msg)
       <-> exists f, Fails param (updateResolves I param) f)
      /\ forall msg, computeUpdateDtoParams I param = Throw msg ->
           exists f, Fails param (updateResolves I param) f
                     /\ occursIn (m_name (model param)) msg /\ occursIn (f_name f) msg).
Proof.
  intros Hsynth Hin.
  assert (Hgen : forall (S : Type) (resolves : Field -> bool)
                        (step : S -> Field -> Outcome S) (init : S),
            Decides param (fun f => resolves f && unresolved param f) step ->
            ((exists msg, reduceM step (m_fields (model param)) init = Throw msg)
             <-> exists f, Fails param resolves f)
            /\ forall msg, reduceM step (m_fields (model param)) init = Throw msg ->
                 exists f, Fails param resolves f
                           /\ occursIn (m_name (model param)) msg
                           /\ occursIn (f_name f) msg).
  { intros S resolves step init Hdec.
    destruct (Decides_reduce param _ step (m_fields (model param)) init Hdec)
      as [Hthrow [Hmsg _]].
    assert (Hmsg' : forall msg, reduceM step (m_fields (model param)) init = Throw msg ->
              exists f, Fails param resolves f
                        /\ occursIn (m_name (model param)) msg /\ occursIn (f_name f) msg).
    { intros msg H. destruct (Hmsg msg H) as [f [Hf [Hbad Hocc]]].
      apply andb_true_iff in Hbad. exists f. unfold Fails. tauto. }
    split; [split|exact Hmsg'].
    - intros [msg H]. destruct (Hmsg' msg H) as [f [Hf _]]. exists f. exact Hf.
    - intros [f [Hf [Hres Hun]]]. apply Hthrow. exists f.
      split; [exact Hf|]. rewrite Hres, Hun. reflexivity. }
  split; [|split].
  - unfold computeEntityParams.
    destruct (Hgen _ entityResolves (entityStep I param) entityInit
                (entityStep_decides I param)) as [Hiff Hmsg].
    split.
    + rewrite <- Hiff. apply throws_through.
    + intros msg H. apply andThen_throws in H. exact (Hmsg msg H).
  - unfold computeCreateDtoParams, createReduce.
    destruct (Hgen _ (createResolves I param) (createStep I param) dtoInit
                (createStep_decides I param Hsynth Hin)) as [Hiff Hmsg].
    split.
    + rewrite <- Hiff. apply throws_through.
    + intros msg H. apply andThen_throws in H. exact (Hmsg msg H).
  - unfold computeUpdateDtoParams, updateReduce.
    destruct (Hgen _ (updateResolves I param) (updateStep I param) dtoInit
                (updateStep_decides I param Hsynth Hin)) as [Hiff Hmsg].
    split.
    + rewrite <- Hiff. apply throws_through.
    + intros msg H. apply andThen_throws in H. exact (Hmsg msg H).
Qed.

Lemma resolution_failure_witness :
  (((exists msg,
       computeEntityParams Sample.imported (Sample.onHaunted false true) = Throw msg)
    <-> exists f, Fails (Sample.onHaunted false true) entityResolves f)
   /\ forall msg,
        computeEntityParams Sample.imported (Sample.onHaunted false true) = Throw msg ->
        exists f, Fails (Sample.onHaunted false true) entityResolves f
                  /\ occursIn "Haunted" msg /\ occursIn (f_name f) msg)
  /\ (((exists msg,
          computeCreateDtoParams Sample.imported (Sample.onHaunted false true) = Throw msg)
       <-> exists f,
             Fails (Sample.onHaunted false true)
               (createResolves Sample.imported (Sample.onHaunted false true)) f)
      /\ forall msg,
           computeCreateDtoParams Sample.imported (Sample.onHaunted false true)
           = Throw msg ->
           exists f,
             Fails (Sample.onHaunted false true)
               (createResolves Sample.imported (Sample.onHaunted false true)) f
             /\ occursIn "Haunted" msg /\ occursIn (f_name f) msg)
  /\ (((exists msg,
          computeUpdateDtoParams Sample.imported (Sample.onHaunted false true) = Throw msg)
       <-> exists f,
             Fails (Sample.onHaunted false true)
               (updateResolves Sample.imported (Sample.onHaunted false true)) f)
      /\ forall msg,
           computeUpdateDtoParams Sample.imported (Sample.onHaunted false true)
           = Throw msg ->
           exists f,
             Fails (Sample.onHaunted false true)
               (updateResolves Sample.imported (Sample.onHaunted false true)) f
             /\ occursIn "Haunted" msg /\ occursIn (f_name f) msg).
Proof.
  apply (resolution_failure Sample.imported (Sample.onHaunted false true)).
  - exact sample_synthesizer_resolves.
  - unfold entityInSet. vm_compute. discriminate.
Defined.

(** On the sample, the three pipelines do throw on [ghost], each with a
    message that names the entity and the field. *)
Example haunted_throws :
  computeEntityParams Sample.imported (Sample.onHaunted false true)
  = Throw "related model 'Ghost' for 'Haunted.ghost' not found"
  /\ computeCreateDtoParams Sample.imported (Sample.onHaunted false true)
     = Throw "related model 'Ghost' for 'Haunted.ghost' not found"
  /\ computeUpdateDtoParams Sample.imported (Sample.onHaunted false true)
     = Throw "related model 'Ghost' for 'Haunted.ghost' not found"
  /\ Fails (Sample.onHaunted false true) entityResolves Sample.ghost.
Proof.
  repeat split; try (vm_compute; reflexivity). right. left. reflexivity.
Qed.

(** ** Sorting and merging of import names *)

Lemma insertSorted_perm (x : string) (xs : list string) :
  Permutation (insertSorted x xs) (x :: xs).
Proof.
  induction xs as [|y rest IH]; simpl; [apply Permutation_refl|].
  destruct (String.leb x y); [apply Permutation_refl|].
  apply perm_trans with (y :: x :: rest); [apply perm_skip; exact IH|apply perm_swap].
Qed.

Lemma sortStrings_perm (xs : list string) : Permutation (sortStrings xs) xs.
Proof.
  induction xs as [|x rest IH]; simpl; [constructor|].
  apply perm_trans with (x :: sortStrings rest);
    [apply insertSorted_perm|apply perm_skip; exact IH].
Qed.

Lemma insertSorted_head (x y : string) (xs : list string) :
  String.leb y x = true ->
  HdRel (fun a b => String.leb a b = true) y xs ->
  HdRel (fun a b => String.leb a b = true) y (insertSorted x xs).
Proof.
  intros Hyx Hhd. destruct xs as [|z rest]; simpl; [constructor; exact Hyx|].
  destruct (String.leb x z); constructor; [exact Hyx|].
  inversion Hhd; assumption.
Qed.

Lemma insertSorted_ascending (x : string) (xs : list string) :
  ascending xs -> ascending (insertSorted x xs).
Proof.
  unfold ascending. induction xs as [|y rest IH]; intros Hs; simpl.
  - repeat constructor.
  - destruct (String.leb x y) eqn:Hxy.
    + constructor; [exact Hs|constructor; exact Hxy].
    + inversion Hs as [|? ? Hrest Hhd]; subst.
      constructor; [apply IH; exact Hrest|].
      apply insertSorted_head; [|exact Hhd].
      destruct (String.leb_total x y) as [H|H]; [congruence|exact H].
Qed.

Lemma sortStrings_ascending (xs : list string) : ascending (sortStrings xs).
Proof.
  induction xs as [|x rest IH]; simpl; [constructor|].
  apply insertSorted_ascending. exact IH.
Qed.

Lemma uniq_fresh (seen xs : list string) :
  (forall x, In x xs -> ~ In x seen) -> NoDup xs -> uniq seen xs = xs.
Proof.
  revert seen. induction xs as [|x rest IH]; intros seen Hfresh Hnd; [reflexivity|].
  simpl. inversion Hnd as [|? ? Hnotin Hnd']; subst.
  destruct (includes x seen) eqn:Hinc.
  - apply includes_true_iff in Hinc. exfalso. apply (Hfresh x); [left; reflexivity|exact Hinc].
  - f_equal. apply IH; [|exact Hnd'].
    intros y Hy [Heq|Hseen]; [subst; contradiction|].
    apply (Hfresh y); [right; exact Hy|exact Hseen].
Qed.

Lemma mergeImportStatements_sources (Q : string -> Prop) (item : ImportStatementParams)
  (zipped : list ImportStatementParams) :
  Q (imp_from item) ->
  Forall (fun r => Q (imp_from r)) zipped ->
  Forall (fun r => Q (imp_from r)) (mergeImportStatements item zipped).
Proof.
  intros Hitem. induction zipped as [|first rest IH]; intros Hall; simpl.
  - constructor; [exact Hitem|constructor].
  - inversion Hall as [|? ? Hfirst Hrest]; subst.
    destruct (imp_from first =? imp_from item)%string.
    + constructor; assumption.
    + constructor; [exact Hfirst|apply IH; exact Hrest].
Qed.

Lemma zip_sources (Q : string -> Prop) (items zipped : list ImportStatementParams) :
  Forall (fun r => Q (imp_from r)) items ->
  Forall (fun r => Q (imp_from r)) zipped ->
  Forall (fun r => Q (imp_from r))
    (fold_left (fun z item => mergeImportStatements item z) items zipped).
Proof.
  revert zipped. induction items as [|item rest IH]; intros zipped Hitems Hz; simpl;
    [exact Hz|].
  inversion Hitems; subst. apply IH; [assumption|].
  apply mergeImportStatements_sources; assumption.
Qed.

Lemma mergeImportStatements_fresh (item : ImportStatementParams)
  (zipped : list ImportStatementParams) :
  Forall (fun r => imp_from r <> imp_from item) zipped ->
  In {| imp_from := imp_from item; imp_destruct := uniq [] (imp_destruct item) |}
    (mergeImportStatements item zipped).
Proof.
  induction zipped as [|first rest IH]; intros Hall; simpl; [left; reflexivity|].
  inversion Hall as [|? ? Hfirst Hrest]; subst.
  destruct (imp_from first =? imp_from item)%string eqn:Heq.
  - apply String.eqb_eq in Heq. contradiction.
  - right. apply IH. exact Hrest.
Qed.

Lemma mergeImportStatements_other (item r : ImportStatementParams)
  (zipped : list ImportStatementParams) :
  imp_from item <> imp_from r -> In r zipped -> In r (mergeImportStatements item zipped).
Proof.
  intros Hneq. induction zipped as [|first rest IH]; intros Hin; [contradiction|].
  simpl. destruct (imp_from first =? imp_from item)%string eqn:Heq.
  - destruct Hin as [->|Hin]; [|right; exact Hin].
    apply String.eqb_eq in Heq. congruence.
  - destruct Hin as [->|Hin]; [left; reflexivity|right; apply IH; exact Hin].
Qed.

Lemma zip_other (items zipped : list ImportStatementParams) (r : ImportStatementParams) :
  Forall (fun item => imp_from item <> imp_from r) items ->
  In r zipped ->
  In r (fold_left (fun z item => mergeImportStatements item z) items zipped).
Proof.
  revert zipped. induction items as [|item rest IH]; intros zipped Hitems Hin; simpl;
    [exact Hin|].
  inversion Hitems; subst. apply IH; [assumption|].
  apply mergeImportStatements_other; assumption.
Qed.

(** A record that is alone with its source comes out of the canonicalizer
    with its names, duplicates removed. *)
Lemma zip_keeps (before after : list ImportStatementParams) (r : ImportStatementParams) :
  Forall (fun item => imp_from item <> imp_from r) before ->
  Forall (fun item => imp_from item <> imp_from r) after ->
  In {| imp_from := imp_from r; imp_destruct := uniq [] (imp_destruct r) |}
    (zipImportStatementParams (before ++ r :: after)).
Proof.
  intros Hbefore Hafter. unfold zipImportStatementParams.
  rewrite fold_left_app. simpl.
  apply zip_other; [exact Hafter|].
  apply mergeImportStatements_fresh.
  apply (zip_sources (fun s => s <> imp_from r)); [exact Hbefore|constructor].
Qed.

(** ** What the reduction keeps true of the validators and imports *)

Lemma concatUnique_NoDup (source target : list IClassValidator) :
  NoDup (map cv_name target) ->
  NoDup (map cv_name (concatUniqueIntoArray source target)).
Proof.
  unfold concatUniqueIntoArray. revert target.
  induction source as [|item rest IH]; intros target Hnd; simpl; [exact Hnd|].
  apply IH.
  destruct (existsb (fun v => (cv_name v =? cv_name item)%string) target) eqn:Hex;
    [exact Hnd|].
  rewrite map_app. simpl.
  apply Permutation_NoDup with (l := cv_name item :: map cv_name target).
  - apply Permutation_cons_append.
  - constructor; [|exact Hnd].
    intros Hin. apply in_map_iff in Hin. destruct Hin as [v [Hname Hv]].
    assert (Htrue : existsb (fun v => (cv_name v =? cv_name item)%string) target = true).
    { apply existsb_exists. exists v. split; [exact Hv|]. now apply String.eqb_eq. }
    congruence.
Qed.

Lemma importOnce_sources (Q : string -> Prop) (importName importFrom : string)
  (imports : list ImportStatementParams) :
  Q importFrom ->
  Forall (fun r => Q (imp_from r)) imports ->
  Forall (fun r => Q (imp_from r)) (importOnce importName importFrom imports).
Proof.
  intros Hq Hall. unfold importOnce.
  destruct (existsb _ imports); [exact Hall|].
  apply Forall_app. split; [exact Hall|]. constructor; [exact Hq|constructor].
Qed.

Lemma importRelated_sources (I : Imported) (param : ComputeParam) (what : string)
  (f : Field) (fromOutput : string) (toOutput : Output -> string)
  (naming filenaming : string -> string) (imports imports' : list ImportStatementParams) :
  LibrarySourcesApart I ->
  importRelated I param what f fromOutput toOutput naming filenaming imports
  = Return imports' ->
  Forall (fun r => ~ librarySource (imp_from r)) imports ->
  Forall (fun r => ~ librarySource (imp_from r)) imports'.
Proof.
  intros [_ [_ Hpath]] H Hall. unfold importRelated in H.
  destruct (negb (f_type f =? m_name (model param))%string);
    [|inversion H; subst; exact Hall].
  destruct (find _ (allModels param)) as [target|]; [|discriminate].
  inversion H; subst.
  apply (importOnce_sources (fun s => ~ librarySource s)); [apply Hpath|exact Hall].
Qed.

Lemma createStep_collected (I : Imported) (param : ComputeParam) (acc : DtoAcc)
  (f : Field) (acc' : DtoAcc) :
  LibrarySourcesApart I ->
  createStep I param acc f = Return acc' -> Collected acc -> Collected acc'.
Proof.
  intros Hapart H [Hnd Himp]. apply createStep_cases in H.
  destruct H as [[_ ->] | [acc1 [f1 [ov1 [Hrel Hcase]]]]]; [split; assumption|].
  apply createRelation_field in Hrel.
  destruct Hrel as [_ [_ [_ [_ [_ [Himp1 [parsed Hcv1]]]]]]].
  assert (Hc1 : Collected acc1).
  { split.
    - rewrite Hcv1. apply concatUnique_NoDup. exact Hnd.
    - destruct Himp1 as [-> | [_ [ri [Hri ->]]]]; [exact Himp|].
      apply Forall_app. split; [exact Himp|].
      destruct Hapart as [_ [Hsynth _]]. exact (Hsynth _ _ Hri). }
  destruct Hc1 as [Hnd1 Hall1].
  destruct Hcase as [[_ ->] | [_ [imports [acc2 [ov2 [d [Himports [Hdec ->]]]]]]]];
    [split; assumption|].
  assert (Hall2 : Forall (fun r => ~ librarySource (imp_from r)) imports).
  { destruct (isType f1); [|inversion Himports; subst; exact Hall1].
    exact (importRelated_sources I param _ _ _ _ _ _ _ _ Hapart Himports Hall1). }
  apply createDecorate_spec in Hdec.
  destruct Hdec as [_ [_ [Himp2 [_ [_ [parsed2 Hcv2]]]]]].
  split; simpl.
  - rewrite Hcv2. apply concatUnique_NoDup. exact Hnd1.
  - rewrite Himp2. exact Hall2.
Qed.

Lemma updateStep_collected (I : Imported) (param : ComputeParam) (acc : DtoAcc)
  (f : Field) (acc' : DtoAcc) :
  LibrarySourcesApart I ->
  updateStep I param acc f = Return acc' -> Collected acc -> Collected acc'.
Proof.
  intros Hapart H [Hnd Himp]. apply updateStep_cases in H. cbv zeta in H.
  destruct H as [[_ ->] | [acc1 [ov1 [Hrel Hcase]]]]; [split; assumption|].
  assert (Hc1 : Collected acc1).
  { apply updateRelation_some in Hrel.
    destruct Hrel as [[_ [-> _]] | [_ [_ [ri [Hri [-> _]]]]]]; [split; assumption|].
    split; simpl.
    - apply concatUnique_NoDup. exact Hnd.
    - apply Forall_app. split; [exact Himp|].
      destruct Hapart as [_ [Hsynth _]]. exact (Hsynth _ _ Hri). }
  destruct Hc1 as [Hnd1 Hall1].
  destruct Hcase as [[_ ->] | [_ [imports [acc2 [ov2 [d [Himports [Hdec ->]]]]]]]];
    [split; assumption|].
  assert (Hall2 : Forall (fun r => ~ librarySource (imp_from r)) imports).
  { destruct (isType (includeIdentifier param f));
      [|inversion Himports; subst; exact Hall1].
    exact (importRelated_sources I param _ _ _ _ _ _ _ _ Hapart Himports Hall1). }
  apply updateDecorate_spec in Hdec.
  destruct Hdec as [_ [_ [Himp2 [_ [_ [parsed2 Hcv2]]]]]].
  split; simpl.
  - rewrite Hcv2. apply concatUnique_NoDup. exact Hnd1.
  - rewrite Himp2. exact Hall2.
Qed.

Lemma reduceM_invariant {S A : Type} (step : S -> A -> Outcome S) (Inv : S -> Prop) :
  (forall acc x acc', step acc x = Return acc' -> Inv acc -> Inv acc') ->
  forall xs acc acc', reduceM step xs acc = Return acc' -> Inv acc -> Inv acc'.
Proof.
  intros Hstep. induction xs as [|x rest IH]; intros acc acc' Hred Hinv; simpl in Hred.
  - inversion Hred; subst. exact Hinv.
  - destruct (step acc x) as [acc1|] eqn:Hs; simpl in Hred; [|discriminate].
    apply (IH acc1 acc' Hred). exact (Hstep _ _ _ Hs Hinv).
Qed.

Lemma dtoInit_collected : Collected dtoInit.
Proof. split; simpl; constructor. Qed.

Lemma NoDup_map_filter {A : Type} (name : A -> string) (p : A -> bool) (xs : list A) :
  NoDup (map name xs) -> NoDup (map name (filter p xs)).
Proof.
  induction xs as [|x rest IH]; intros Hnd; simpl; [constructor|].
  inversion Hnd as [|? ? Hnotin Hnd']; subst.
  destruct (p x); simpl; [|apply IH; exact Hnd'].
  constructor; [|apply IH; exact Hnd'].
  intros Hin. apply Hnotin. apply in_map_iff in Hin. destruct Hin as [y [Hy Hiny]].
  apply filter_In in Hiny. apply in_map_iff. exists y. tauto.
Qed.

Lemma swaggerImport_sources (apiExtraModels : list string) (has hasResp : bool)
  (imports : list ImportStatementParams) :
  Forall (fun r => ~ librarySource (imp_from r)) imports ->
  Forall (fun r => ~ librarySource (imp_from r))
    (swaggerImport apiExtraModels has hasResp imports).
Proof.
  intros Hall. unfold swaggerImport.
  destruct (nonEmpty apiExtraModels || has || hasResp); [|exact Hall].
  constructor; [|exact Hall]. simpl. intros [H|H]; discriminate.
Qed.

Lemma apart_from (source : string) (imports : list ImportStatementParams) :
  librarySource source ->
  Forall (fun r => ~ librarySource (imp_from r)) imports ->
  Forall (fun item => imp_from item <> source) imports.
Proof.
  intros Hlib Hall. apply Forall_forall. intros r Hin Heq.
  rewrite Forall_forall in Hall. apply (Hall r Hin). rewrite Heq. exact Hlib.
Qed.

Lemma dtoFinish_validators (I : Imported) (param : ComputeParam) (acc : DtoAcc) :
  LibrarySourcesApart I -> Collected acc -> da_classValidators acc <> [] ->
  ValidatorImports acc (dtoFinish I param acc).
Proof.
  intros Hapart [Hnd Himp] Hsome.
  pose proof (swaggerImport_sources (da_apiExtraModels acc) (da_hasApiProperty acc)
                (da_hasApiRespProperty acc) (da_imports acc) Himp) as Hsw.
  destruct Hapart as [Hprisma _].
  specialize (Hprisma (da_result acc) (prismaClientImportPath (config (templateHelpers param)))).
  assert (Hnames : NoDup (sortStrings (validatorNames acc))).
  { apply Permutation_NoDup with (l := validatorNames acc).
    - apply Permutation_sym, sortStrings_perm.
    - unfold validatorNames. apply NoDup_map_filter. exact Hnd. }
  unfold ValidatorImports, dtoFinish, validatorImports. simpl.
  fold (validatorNames acc).
  destruct (da_classValidators acc) as [|cv0 cvs] eqn:Hcvs; [contradiction|].
  simpl nonEmpty. cbv iota.
  set (cvRecord := {| imp_from := "class-validator";
                      imp_destruct := sortStrings (validatorNames acc) |}).
  set (sw := swaggerImport (da_apiExtraModels acc) (da_hasApiProperty acc)
               (da_hasApiRespProperty acc) (da_imports acc)) in *.
  set (prisma := makeImportsFromPrismaClient I (da_result acc)
                   (prismaClientImportPath (config (templateHelpers param)))) in *.
  split.
  - exists cvRecord.
    split; [|repeat split;
             [apply sortStrings_perm|apply sortStrings_ascending|exact Hnames]].
    assert (Hrecord : {| imp_from := imp_from cvRecord;
                         imp_destruct := uniq [] (imp_destruct cvRecord) |} = cvRecord).
    { unfold cvRecord. simpl.
      rewrite (uniq_fresh [] _ (fun x _ H => H) Hnames). reflexivity. }
    assert (Hkept : forall after,
              Forall (fun item => imp_from item <> imp_from cvRecord) after ->
              In cvRecord (zipImportStatementParams (prisma ++ cvRecord :: after))).
    { intros after Hafter.
      pose proof (zip_keeps prisma after cvRecord
                    (apart_from _ _ (or_introl eq_refl) Hprisma) Hafter) as Hz.
      rewrite Hrecord in Hz. exact Hz. }
    destruct (findType (cv0 :: cvs)); apply Hkept.
    + constructor; [simpl; discriminate|].
      apply apart_from; [left; reflexivity|exact Hsw].
    + apply apart_from; [left; reflexivity|exact Hsw].
  - intros [cv [Hin Hname]].
    destruct (findType (cv0 :: cvs)) as [found|] eqn:Hfind.
    + replace (prisma ++ cvRecord :: classTransformerType :: sw)
        with ((prisma ++ [cvRecord]) ++ classTransformerType :: sw)
        by (rewrite <- app_assoc; reflexivity).
      refine (zip_keeps (prisma ++ [cvRecord]) sw classTransformerType _ _).
      * apply Forall_app. split.
        -- apply apart_from; [right; reflexivity|exact Hprisma].
        -- constructor; [simpl; discriminate|constructor].
      * apply apart_from; [right; reflexivity|exact Hsw].
    + exfalso. unfold findType in Hfind.
      pose proof (find_none _ _ Hfind cv Hin) as Hno. simpl in Hno.
      rewrite Hname in Hno. discriminate.
Qed.

(** C10.  In the Create and Update pipelines, when the reduction has
    collected at least one class-validator spec, the returned import list
    holds a record from [class-validator] whose names are exactly those of
    the collected validators other than [Type], in ascending order and
    without duplicates; and when a validator named [Type] was collected, the
    record importing [Type] from [class-transformer] is in the list as well.
    No collaborator hands out a record from one of the two libraries. *)
Theorem validator_imports (I : Imported) (param : ComputeParam) :
  LibrarySourcesApart I ->
  (forall acc, createReduce I param = Return acc -> da_classValidators acc <> [] ->
     exists out, computeCreateDtoParams I param = Return out /\ ValidatorImports acc out)
  /\ (forall acc, updateReduce I param = Return acc -> da_classValidators acc <> [] ->
        exists out, computeUpdateDtoParams I param = Return out
                    /\ ValidatorImports acc out).
Proof.
  intros Hapart. split; intros acc Hred Hsome.
  - exists (dtoFinish I param acc). split.
    + unfold computeCreateDtoParams. rewrite Hred. reflexivity.
    + apply dtoFinish_validators; [exact Hapart| |exact Hsome].
      apply (reduceM_invariant (createStep I param) Collected
               (fun a x a' Hs => createStep_collected I param a x a' Hapart Hs)
               _ _ _ Hred dtoInit_collected).
  - exists (dtoFinish I param acc). split.
    + unfold computeUpdateDtoParams. rewrite Hred. reflexivity.
    + apply dtoFinish_validators; [exact Hapart| |exact Hsome].
      apply (reduceM_invariant (updateStep I param) Collected
               (fun a x a' Hs => updateStep_collected I param a x a' Hapart Hs)
               _ _ _ Hred dtoInit_collected).
Qed.

Lemma validator_imports_witness :
  (exists acc,
     createReduce Sample.imported (Sample.onPost false true) = Return acc
     /\ da_classValidators acc <> []
     /\ exists out,
          computeCreateDtoParams Sample.imported (Sample.onPost false true) = Return out
          /\ ValidatorImports acc out)
  /\ (exists acc,
        updateReduce Sample.imported (Sample.onPost false true) = Return acc
        /\ da_classValidators acc <> []
        /\ exists out,
             computeUpdateDtoParams Sample.imported (Sample.onPost false true) = Return out
             /\ ValidatorImports acc out).
Proof.
  destruct (validator_imports Sample.imported (Sample.onPost false true)
              sample_sources_apart) as [Hcreate Hupdate].
  split.
  - eexists. split; [vm_compute; reflexivity|]. split; [discriminate|].
    apply Hcreate; [vm_compute; reflexivity|discriminate].
  - eexists. split; [vm_compute; reflexivity|]. split; [discriminate|].
    apply Hupdate; [vm_compute; reflexivity|discriminate].
Defined.

(** On the sample, the Create pipeline imports its validators sorted, and
    [Type] from the type-coercion library. *)
Example create_sample_imports :
  exists out,
    computeCreateDtoParams Sample.imported (Sample.onPost false true) = Return out
    /\ firstn 2 (dp_imports out)
       = [{| imp_from := "class-validator";
             imp_destruct := ["IsDefined"; "IsNotEmpty"; "IsOptional"; "ValidateNested"] |};
          {| imp_from := "class-transformer"; imp_destruct := ["Type"] |}].
Proof. eexists. split; vm_compute; reflexivity. Qed.

(** * Further properties of the pipelines *)

(** ** Which fields come out, and in which order *)

Lemma kept_names_iff (keep : Field -> bool) (fs : list Field) (names : list string)
  (f : Field) :
  names = map f_name (filter keep fs) ->
  NoDup (map f_name fs) -> In f fs ->
  (In (f_name f) names <-> keep f = true).
Proof.
  intros -> Hnd Hin. split.
  - intros Hname. destruct (keep f) eqn:Hk; [reflexivity|].
    exfalso. exact (dropped_name_absent keep fs f Hnd Hin Hk Hname).
  - intros Hk. apply in_map. apply filter_In. split; assumption.
Qed.

(** X1.  The Entity pipeline puts out, in declaration order, exactly the
    fields that do not carry hide-from-entity; with unique field names, a
    field of the entity is in the output if and only if it does not carry
    the directive. *)
Theorem entity_output_order (I : Imported) (param : ComputeParam) (out : EntityParams) :
  computeEntityParams I param = Return out ->
  map pf_name (ep_fields out) = map f_name (filter entityKeeps (m_fields (model param)))
  /\ (uniqueNames (model param) ->
      forall f, In f (m_fields (model param)) ->
        (In (f_name f) (map pf_name (ep_fields out))
         <-> isAnnotatedWith f DTO_ENTITY_HIDDEN = false)).
Proof.
  intros Hout.
  pose proof (Forall2_names (EntityEmits param) f_name pf_name _ _
                (fun x y H => proj1 H) (entity_fields I param out Hout)) as Hnames.
  split; [exact Hnames|]. intros Hnd f Hin.
  rewrite (kept_names_iff entityKeeps _ _ f Hnames Hnd Hin).
  unfold entityKeeps. apply negb_true_iff.
Qed.

Lemma entity_output_order_witness :
  exists out,
    computeEntityParams Sample.imported (Sample.onAudit false false) = Return out
    /\ map pf_name (ep_fields out)
       = map f_name (filter entityKeeps (m_fields Sample.audit))
    /\ (uniqueNames Sample.audit ->
        forall f, In f (m_fields Sample.audit) ->
          (In (f_name f) (map pf_name (ep_fields out))
           <-> isAnnotatedWith f DTO_ENTITY_HIDDEN = false)).
Proof.
  eexists. split; [vm_compute; reflexivity|].
  apply (entity_output_order Sample.imported (Sample.onAudit false false)).
  vm_compute; reflexivity.
Defined.

(** X2.  The Create pipeline puts out, in declaration order, exactly the
    fields that pass all of its rules: not hidden from create, not read-only
    after the clearing of lines 78-82, a relation only with a create-time
    modifier, a tracked foreign key only with relation-include-identifier,
    and with a default only when create-optional.  With unique field names,
    a field is in the output if and only if it passes them. *)
Theorem create_output_order (I : Imported) (param : ComputeParam) (out : DtoParams) :
  computeCreateDtoParams I param = Return out ->
  map pf_name (dp_fields out)
  = map f_name (filter (createKeeps I param) (m_fields (model param)))
  /\ (uniqueNames (model param) ->
      forall f, In f (m_fields (model param)) ->
        (In (f_name f) (map pf_name (dp_fields out)) <-> createKeeps I param f = true)).
Proof.
  intros Hout.
  pose proof (Forall2_names (CreateEmits I param) f_name pf_name _ _
                (fun x y H => proj1 H) (create_fields I param out Hout)) as Hnames.
  split; [exact Hnames|]. intros Hnd f Hin.
  exact (kept_names_iff (createKeeps I param) _ _ f Hnames Hnd Hin).
Qed.

Lemma create_output_order_witness :
  exists out,
    computeCreateDtoParams Sample.imported (Sample.onPost false true) = Return out
    /\ map pf_name (dp_fields out)
       = map f_name
           (filter (createKeeps Sample.imported (Sample.onPost false true))
              (m_fields Sample.post))
    /\ (uniqueNames Sample.post ->
        forall f, In f (m_fields Sample.post) ->
          (In (f_name f) (map pf_name (dp_fields out))
           <-> createKeeps Sample.imported (Sample.onPost false true) f = true)).
Proof.
  eexists. split; [vm_compute; reflexivity|].
  apply (create_output_order Sample.imported (Sample.onPost false true)).
  vm_compute; reflexivity.
Defined.

(** X3.  The Update pipeline puts out, in declaration order, exactly the
    fields that pass all of its rules: not hidden from update, not read-only
    after the clearing of lines 80-84, a relation only with an update-time
    modifier, a tracked foreign key only with relation-include-identifier,
    and an identifier, auto-timestamp or required field with default only
    when update-optional.  With unique field names, a field is in the output
    if and only if it passes them. *)
Theorem update_output_order (I : Imported) (param : ComputeParam) (out : DtoParams) :
  computeUpdateDtoParams I param = Return out ->
  map pf_name (dp_fields out)
  = map f_name (filter (updateKeeps I param) (m_fields (model param)))
  /\ (uniqueNames (model param) ->
      forall f, In f (m_fields (model param)) ->
        (In (f_name f) (map pf_name (dp_fields out)) <-> updateKeeps I param f = true)).
Proof.
  intros Hout.
  pose proof (Forall2_names UpdateEmits f_name pf_name _ _
                (fun x y H => proj1 H) (update_fields I param out Hout)) as Hnames.
  split; [exact Hnames|]. intros Hnd f Hin.
  exact (kept_names_iff (updateKeeps I param) _ _ f Hnames Hnd Hin).
Qed.

Lemma update_output_order_witness :
  exists out,
    computeUpdateDtoParams Sample.imported (Sample.onAudit false true) = Return out
    /\ map pf_name (dp_fields out)
       = map f_name
           (filter (updateKeeps Sample.imported (Sample.onAudit false true))
              (m_fields Sample.audit))
    /\ (uniqueNames Sample.audit ->
        forall f, In f (m_fields Sample.audit) ->
          (In (f_name f) (map pf_name (dp_fields out))
           <-> updateKeeps Sample.imported (Sample.onAudit false true) f = true)).
Proof.
  eexists. split; [vm_compute; reflexivity|].
  apply (update_output_order Sample.imported (Sample.onAudit false true)).
  vm_compute; reflexivity.
Defined.

(** ** What the output fields take over and what the overrides replace *)

Lemma entityOverrides_untouched (param : ComputeParam) (f : Field) :
  o_type (entityOverrides param f) = None
  /\ o_isList (entityOverrides param f) = None
  /\ o_createApiResp (entityOverrides param f) = None
  /\ o_updateApiResp (entityOverrides param f) = None.
Proof.
  unfold entityOverrides, entityScalarOverrides, entityRelationOverrides.
  destruct (includes _ _); destruct (isRelation f); simpl; repeat split.
Qed.

Lemma entityDecorate_decorators (I : Imported) (param : ComputeParam) (f : Field)
  (imports : list ImportStatementParams) (has : bool) :
  d_classValidators (fst (fst (entityDecorate I param f imports has))) = None
  /\ (d_apiProperties (fst (fst (entityDecorate I param f imports has))) = None
      <-> noDependencies (config (templateHelpers param)) = true).
Proof.
  unfold entityDecorate. destruct (noDependencies _); simpl.
  - split; [reflexivity|]. split; reflexivity.
  - destruct (negb (truthy (PrismaScalarToFormat I (f_type f)))); simpl.
    + destruct (negb (isPlainType (f_type f)) && _); simpl;
        (split; [reflexivity|]; split; discriminate).
    + split; [reflexivity|]. split; discriminate.
Qed.

Lemma emittedField_isList (param : ComputeParam) (f : Field) :
  f_isList (emittedField param f) = f_isList f.
Proof.
  unfold emittedField. destruct (noDependencies _); [|reflexivity].
  unfold genericType.
  destruct (f_type f =? "Json")%string; [reflexivity|].
  destruct (f_type f =? "Decimal")%string; reflexivity.
Qed.

Lemma entityStep_shape (I : Imported) (param : ComputeParam)
  (acc : EntityAcc) (f : Field) (acc' : EntityAcc) :
  entityStep I param acc f = Return acc' ->
  if entityKeeps f
  then exists pf, ea_result acc' = ea_result acc ++ [pf] /\ EntityShape param f pf
  else ea_result acc' = ea_result acc.
Proof.
  unfold entityStep, entityKeeps.
  destruct (isAnnotatedWith f DTO_ENTITY_HIDDEN); simpl.
  - intros H. inversion H; subst. reflexivity.
  - match goal with |- andThen ?c _ = _ -> _ => destruct c as [imports1|] end;
      simpl; [|discriminate].
    match goal with |- andThen ?c _ = _ -> _ => destruct c as [imports2|] end;
      simpl; [|discriminate].
    pose proof (entityDecorate_decorators I param f imports2 (ea_hasApiProperty acc))
      as [Hcv Hapi].
    destruct (entityDecorate I param f imports2 (ea_hasApiProperty acc))
      as [[decorators imports3] hasApi].
    simpl in Hcv, Hapi.
    intros H. inversion H; subst; simpl. eexists. split; [reflexivity|].
    fold (entityOverrides param f). fold (emittedField param f).
    destruct (entityOverrides_untouched param f) as [Hty [Hl [Hc Hu]]].
    destruct (emittedField_facts param f) as [_ [Hd _]].
    unfold EntityShape, pf_type, pf_documentation. simpl.
    rewrite Hty, Hl, Hc, Hu, Hd, emittedField_isList. simpl.
    repeat split; try assumption; apply Hapi.
Qed.

Lemma entity_shapes (I : Imported) (param : ComputeParam) (out : EntityParams) :
  computeEntityParams I param = Return out ->
  Forall2 (EntityShape param) (filter entityKeeps (m_fields (model param)))
    (ep_fields out).
Proof.
  unfold computeEntityParams. intros H.
  destruct (reduceM (entityStep I param) (m_fields (model param)) entityInit)
    as [acc|] eqn:Hred; simpl in H; [|discriminate].
  inversion H; subst. simpl.
  destruct (reduceM_emits _ _ _ _ ea_result entityKeeps (EntityShape param)
              (entityStep_shape I param) _ _ _ Hred) as [bs [Hbs Hall]].
  rewrite Hbs. exact Hall.
Qed.

Lemma createDecorate_overrides (I : Imported) (param : ComputeParam) (acc : DtoAcc)
  (f : Field) (ov : Overrides) (acc' : DtoAcc) (ov' : Overrides) (d : Decorators) :
  createDecorate I param acc f ov = (acc', ov', d) ->
  o_isNullable ov' = o_isNullable ov /\ o_isList ov' = o_isList ov
  /\ o_updateApiResp ov' = o_updateApiResp ov
  /\ o_createApiResp ov'
     = (if noDependencies (config (templateHelpers param)) then o_createApiResp ov
        else Some (isAnnotatedWith f DTO_CREATE_API_RESP))
  /\ (d_apiProperties d = None <-> noDependencies (config (templateHelpers param)) = true)
  /\ (d_classValidators d = None
      <-> classValidation (config (templateHelpers param)) = false)
  /\ da_extraClasses acc' = da_extraClasses acc
  /\ da_apiExtraModels acc' = da_apiExtraModels acc.
Proof.
  unfold createDecorate.
  destruct (classValidation _); destruct (noDependencies _); simpl;
    intros H; inversion H; subst; simpl; repeat split;
    try reflexivity; try discriminate.
Qed.

Lemma updateDecorate_overrides (I : Imported) (param : ComputeParam) (acc : DtoAcc)
  (f : Field) (ov : Overrides) (acc' : DtoAcc) (ov' : Overrides) (d : Decorators) :
  updateDecorate I param acc f ov = (acc', ov', d) ->
  o_isNullable ov' = o_isNullable ov /\ o_isList ov' = o_isList ov
  /\ o_createApiResp ov' = o_createApiResp ov
  /\ o_updateApiResp ov'
     = (if noDependencies (config (templateHelpers param)) then o_updateApiResp ov
        else Some (isAnnotatedWith f DTO_UPDATE_API_RESP))
  /\ (d_apiProperties d = None <-> noDependencies (config (templateHelpers param)) = true)
  /\ (d_classValidators d = None
      <-> classValidation (config (templateHelpers param)) = false)
  /\ da_extraClasses acc' = da_extraClasses acc
  /\ da_apiExtraModels acc' = da_apiExtraModels acc.
Proof.
  unfold updateDecorate.
  destruct (classValidation _); destruct (noDependencies _); simpl;
    intros H; inversion H; subst; simpl; repeat split;
    try reflexivity; try discriminate.
Qed.

Lemma createApplyRelationInput_overrides (param : ComputeParam) (ri : RelationInput)
  (acc : DtoAcc) (f : Field) (ov : Overrides) (acc1 : DtoAcc) (f1 : Field)
  (ov1 : Overrides) :
  createApplyRelationInput param ri acc f ov = (acc1, f1, ov1) ->
  o_isNullable ov1 = o_isNullable ov /\ o_isList ov1 = o_isList ov
  /\ o_createApiResp ov1 = o_createApiResp ov
  /\ o_updateApiResp ov1 = o_updateApiResp ov
  /\ (if (1 <? List.length (ri_imports ri))%nat then True
      else o_isRequired ov1 = o_isRequired ov)
  /\ da_extraClasses acc1
     = da_extraClasses acc
         ++ (if (1 <? List.length (ri_imports ri))%nat then ri_generatedClasses ri else [])
  /\ da_apiExtraModels acc1
     = da_apiExtraModels acc
         ++ (if (1 <? List.length (ri_imports ri))%nat
                && negb (noDependencies (config (templateHelpers param)))
             then ri_apiExtraModels ri else []).
Proof.
  unfold createApplyRelationInput.
  destruct (1 <? List.length (ri_imports ri))%nat.
  - intros H. inversion H; subst; simpl.
    destruct (f_isList _); destruct (isAnnotatedWith _ DTO_RELATION_REQUIRED);
      destruct (noDependencies _); simpl; unfold concatIntoArray;
      rewrite ?app_nil_r; repeat split.
  - destruct (findType (ri_classValidators ri)) as [type|];
      [destruct (cv_value type) as [value|];
       [destruct (negb (value =? "")%string)|]|];
      intros H; inversion H; subst; simpl; rewrite !app_nil_r; repeat split.
Qed.

Lemma createRelation_overrides (I : Imported) (param : ComputeParam) (acc : DtoAcc)
  (f : Field) (ov : Overrides) (acc1 : DtoAcc) (f1 : Field) (ov1 : Overrides) :
  createRelation I param acc f ov = Return (Some (acc1, f1, ov1)) ->
  o_isNullable ov1 = o_isNullable ov /\ o_isList ov1 = o_isList ov
  /\ o_createApiResp ov1 = o_createApiResp ov
  /\ o_updateApiResp ov1 = o_updateApiResp ov
  /\ o_isRequired ov1
     = (if isRelation f
        then match generateRelationInput I (createRelationInputParam param f) with
             | Return ri =>
                 if (1 <? List.length (ri_imports ri))%nat
                 then if f_isList f then Some false
                      else if isAnnotatedWith f DTO_RELATION_REQUIRED then Some true
                           else o_isRequired ov
                 else o_isRequired ov
             | Throw _ => o_isRequired ov
             end
        else o_isRequired ov)
  /\ da_extraClasses acc1
     = da_extraClasses acc
         ++ (if isRelation f
             then match generateRelationInput I (createRelationInputParam param f) with
                  | Return ri =>
                      if (1 <? List.length (ri_imports ri))%nat
                      then ri_generatedClasses ri else []
                  | Throw _ => []
                  end
             else []).
Proof.
  intros H. apply createRelation_some in H.
  destruct H as [[Hr [-> [-> ->]]] | [Hr [_ [ri [Hri Happly]]]]]; rewrite Hr.
  - rewrite app_nil_r. repeat split.
  - rewrite Hri.
    pose proof (createApplyRelationInput_overrides param ri acc f ov acc1 f1 ov1 Happly)
      as [Hn [Hl [Hc [Hu [Hreq [Hcls _]]]]]].
    apply createApplyRelationInput_spec in Happly.
    destruct Happly as [_ [_ [_ [_ [_ [_ Hcase]]]]]].
    destruct (1 <? List.length (ri_imports ri))%nat.
    + destruct Hcase as [_ [_ Hreq1]]. repeat split; assumption.
    + repeat split; assumption.
Qed.

Lemma createStep_shape (I : Imported) (param : ComputeParam) (acc : DtoAcc)
  (f0 : Field) (acc' : DtoAcc) :
  createStep I param acc f0 = Return acc' ->
  if createKeeps I param f0
  then exists pf, da_result acc' = da_result acc ++ [pf] /\ CreateShape I param f0 pf
  else da_result acc' = da_result acc.
Proof.
  intros H. apply createStep_cases in H.
  pose proof (sameShape_includeIdentifier param f0) as Hshape.
  destruct H as [[Hk ->] | [acc1 [f1 [ov1 [Hrel Hcase]]]]].
  - rewrite Hk. reflexivity.
  - pose proof (createRelation_overrides I param _ _ _ _ _ _ Hrel)
      as [Hn1 [Hl1 [Hc1 [Hu1 [Hreq1 _]]]]].
    apply createRelation_field in Hrel.
    destruct Hrel as [_ [Hres1 [Hshape1 _]]].
    pose proof (sameShape_trans _ _ _ Hshape Hshape1) as Hs.
    destruct Hcase as [[Hk ->] | [Hk [imports [acc2 [ov2 [d [_ [Hdec ->]]]]]]]];
      rewrite Hk; [exact Hres1|].
    pose proof (createDecorate_overrides I param _ _ _ _ _ _ Hdec)
      as [Hn2 [Hl2 [Hu2 [Hc2 [Hapi [Hcv _]]]]]].
    apply createDecorate_spec in Hdec.
    destruct Hdec as [Hres2 [_ [_ [_ [Hreq2 _]]]]].
    eexists. split.
    { unfold emitField. simpl. rewrite Hres2. simpl. rewrite Hres1. reflexivity. }
    fold (emittedField param f1).
    destruct (emittedField_facts param f1) as [_ [_ [_ Hr]]].
    unfold CreateShape, DecoratedAsConfigured, pf_isRequired. simpl.
    rewrite Hn2, Hl2, Hu2, Hc2, Hreq2, Hr, emittedField_isList.
    rewrite (sameShape_annotated f0 _ _ Hs), (sameShape_annotated f0 _ DTO_CREATE_API_RESP Hs).
    assert (Hlist : f_isList f1 = f_isList f0)
      by (unfold sameShape in Hs; intuition congruence).
    assert (Hrequired : f_isRequired f1 = f_isRequired f0)
      by (unfold sameShape in Hs; intuition congruence).
    assert (Hlist0 : f_isList (includeIdentifier param f0) = f_isList f0)
      by (unfold sameShape in Hshape; intuition congruence).
    split.
    { destruct (isAnnotatedWith f0 DTO_CREATE_OPTIONAL); simpl; rewrite Hn1; reflexivity. }
    split.
    { destruct (isAnnotatedWith f0 DTO_CREATE_OPTIONAL); simpl; rewrite Hl1; simpl;
        exact Hlist. }
    split.
    { destruct (noDependencies _); simpl; [|reflexivity].
      destruct (isAnnotatedWith f0 DTO_CREATE_OPTIONAL); simpl; rewrite Hc1; reflexivity. }
    split.
    { destruct (isAnnotatedWith f0 DTO_CREATE_OPTIONAL); simpl; rewrite Hu1; reflexivity. }
    split; [split; assumption|].
    intros Hopt. rewrite Hopt, Hreq1, Hrequired. unfold createRequired.
    rewrite (sameShape_isRelation f0 _ Hshape),
      (sameShape_annotated f0 _ DTO_RELATION_REQUIRED Hshape), Hlist0.
    destruct (isRelation f0); [|reflexivity].
    destruct (generateRelationInput I _) as [ri|]; [|reflexivity].
    destruct (1 <? List.length (ri_imports ri))%nat; [|reflexivity].
    destruct (f_isList f0); [reflexivity|].
    destruct (isAnnotatedWith f0 DTO_RELATION_REQUIRED); reflexivity.
Qed.

Lemma create_shapes (I : Imported) (param : ComputeParam) (out : DtoParams) :
  computeCreateDtoParams I param = Return out ->
  Forall2 (CreateShape I param) (filter (createKeeps I param) (m_fields (model param)))
    (dp_fields out).
Proof.
  unfold computeCreateDtoParams, createReduce. intros H.
  destruct (reduceM (createStep I param) (m_fields (model param)) dtoInit)
    as [acc|] eqn:Hred; simpl in H; [|discriminate].
  inversion H; subst. simpl.
  destruct (reduceM_emits _ _ _ _ da_result (createKeeps I param) (CreateShape I param)
              (createStep_shape I param) _ _ _ Hred) as [bs [Hbs Hall]].
  rewrite Hbs. exact Hall.
Qed.

Lemma updateStep_shape (I : Imported) (param : ComputeParam) (acc : DtoAcc)
  (f0 : Field) (acc' : DtoAcc) :
  updateStep I param acc f0 = Return acc' ->
  if updateKeeps I param f0
  then exists pf, da_result acc' = da_result acc ++ [pf] /\ UpdateShape I param f0 pf
  else da_result acc' = da_result acc.
Proof.
  intros H. apply updateStep_cases in H. cbv zeta in H.
  pose proof (sameShape_includeIdentifier param f0) as Hs.
  destruct H as [[Hk ->] | [acc1 [ov1 [Hrel Hcase]]]].
  - rewrite Hk. reflexivity.
  - apply updateRelation_some in Hrel.
    assert (Hres1 : da_result acc1 = da_result acc)
      by (destruct Hrel as [[_ [-> _]] | [_ [_ [ri [_ [-> _]]]]]]; reflexivity).
    destruct Hcase as [[Hk ->] | [Hk [imports [acc2 [ov2 [d [_ [Hdec ->]]]]]]]];
      rewrite Hk; [exact Hres1|].
    pose proof (updateDecorate_overrides I param _ _ _ _ _ _ Hdec)
      as [Hn2 [Hl2 [Hc2 [Hu2 [Hapi [Hcv _]]]]]].
    apply updateDecorate_spec in Hdec.
    destruct Hdec as [Hres2 [_ [_ [Hty2 [Hreq2 _]]]]].
    eexists. split.
    { unfold emitField. simpl. rewrite Hres2. simpl. rewrite Hres1. reflexivity. }
    fold (emittedField param (includeIdentifier param f0)).
    destruct (emittedField_facts param (includeIdentifier param f0)) as [_ [Hdoc _]].
    unfold UpdateShape, DecoratedAsConfigured, pf_isRequired, pf_documentation, pf_type.
    simpl.
    rewrite Hn2, Hl2, Hu2, Hc2, Hreq2, Hty2, Hdoc, emittedField_isList,
      includeIdentifier_documentation, (sameShape_emittedType param f0 _ Hs),
      (sameShape_annotated f0 _ DTO_UPDATE_API_RESP Hs).
    assert (Hlist : f_isList (includeIdentifier param f0) = f_isList f0)
      by (unfold sameShape in Hs; intuition congruence).
    rewrite Hlist.
    assert (Hfixed : o_isRequired ov1 = Some false /\ o_createApiResp ov1 = None
                     /\ o_updateApiResp ov1 = Some false).
    { destruct Hrel as [[_ [_ ->]] | [_ [_ [ri [_ [_ ->]]]]]]; repeat split. }
    destruct Hfixed as [-> [-> ->]].
    split; [reflexivity|]. split; [reflexivity|]. split; [reflexivity|].
    split; [destruct (noDependencies _); reflexivity|].
    split; [split; assumption|].
    rewrite <- (sameShape_isRelation f0 _ Hs).
    split; intros Hr.
    + destruct Hrel as [[_ [_ ->]] | [Hr' _]]; [|congruence].
      repeat split.
    + destruct Hrel as [[Hr' _] | [_ [_ [ri [Hri [_ ->]]]]]]; [congruence|].
      exists ri. repeat split. exact Hri.
Qed.

Lemma update_shapes (I : Imported) (param : ComputeParam) (out : DtoParams) :
  computeUpdateDtoParams I param = Return out ->
  Forall2 (UpdateShape I param) (filter (updateKeeps I param) (m_fields (model param)))
    (dp_fields out).
Proof.
  unfold computeUpdateDtoParams, updateReduce. intros H.
  destruct (reduceM (updateStep I param) (m_fields (model param)) dtoInit)
    as [acc|] eqn:Hred; simpl in H; [|discriminate].
  inversion H; subst. simpl.
  destruct (reduceM_emits _ _ _ _ da_result (updateKeeps I param) (UpdateShape I param)
              (updateStep_shape I param) _ _ _ Hred) as [bs [Hbs Hall]].
  rewrite Hbs. exact Hall.
Qed.

(** ** Requiredness, nullability and the list flag of the output fields *)

Lemma genericType_never (f : Field) :
  f_type (genericType f) <> "Json"%string /\ f_type (genericType f) <> "Decimal"%string.
Proof.
  unfold genericType.
  destruct (f_type f =? "Json")%string eqn:Hjson; [split; discriminate|].
  destruct (f_type f =? "Decimal")%string eqn:Hdecimal; [split; discriminate|].
  split; apply String.eqb_neq; assumption.
Qed.

(** X4.  In the output of the Entity pipeline every field that is not a
    relation is required, whatever the schema says; when it is not a foreign
    key of a relation of the entity either, it is nullable exactly when the
    schema does not require it. *)
Theorem entity_plain_requiredness (I : Imported) (param : ComputeParam)
  (out : EntityParams) :
  computeEntityParams I param = Return out ->
  Forall2
    (fun f pf =>
       pf_name pf = f_name f
       /\ (isRelation f = false ->
           pf_isRequired pf = true
           /\ (tracked param f = false ->
               pf_isNullable pf = Some (negb (f_isRequired f)))))
    (filter entityKeeps (m_fields (model param))) (ep_fields out).
Proof.
  intros Hout.
  apply (Forall2_weaken_in (EntityEmits param)); [|apply (entity_fields I); exact Hout].
  intros f pf _ [Hname [Hreq Hnull]]. split; [exact Hname|]. intros Hrel.
  unfold entityOverrides, entityScalarOverrides, entityRelationOverrides in Hreq, Hnull.
  rewrite Hrel in Hreq, Hnull. fold (tracked param f) in Hreq, Hnull.
  destruct (tracked param f); simpl in Hreq, Hnull.
  - split; [congruence|discriminate].
  - split; [congruence|]. intros _. exact Hnull.
Qed.

Lemma entity_plain_requiredness_witness :
  exists out,
    computeEntityParams Sample.imported (Sample.onPost false false) = Return out
    /\ Forall2
         (fun f pf =>
            pf_name pf = f_name f
            /\ (isRelation f = false ->
                pf_isRequired pf = true
                /\ (tracked (Sample.onPost false false) f = false ->
                    pf_isNullable pf = Some (negb (f_isRequired f)))))
         (filter entityKeeps (m_fields (model (Sample.onPost false false))))
         (ep_fields out).
Proof.
  eexists. split; [vm_compute; reflexivity|].
  apply (entity_plain_requiredness Sample.imported (Sample.onPost false false)).
  vm_compute. reflexivity.
Defined.

(** X5.  An output field of the Entity pipeline has the list flag and the
    documentation of its field, and as its type the field's type after the
    rewrite that [noDependencies] asks for; it never carries validators, and
    it carries documentation decorators exactly when [noDependencies] is
    off. *)
Theorem entity_output_shape (I : Imported) (param : ComputeParam) (out : EntityParams) :
  computeEntityParams I param = Return out ->
  Forall2
    (fun f pf =>
       pf_type pf
       = f_type (if noDependencies (config (templateHelpers param))
                 then genericType f else f)
       /\ f_isList (pf_field pf) = f_isList f
       /\ pf_documentation pf = f_documentation f
       /\ pf_classValidators pf = None
       /\ (pf_apiProperties pf = None
           <-> noDependencies (config (templateHelpers param)) = true))
    (filter entityKeeps (m_fields (model param))) (ep_fields out).
Proof.
  intros Hout.
  apply (Forall2_weaken_in (EntityShape param)); [|apply (entity_shapes I); exact Hout].
  intros f pf _ [Hty [Hlist [Hdoc [Hcv [Hapi _]]]]].
  split; [exact Hty|]. split; [exact Hlist|]. split; [exact Hdoc|].
  split; [exact Hcv|exact Hapi].
Qed.

Lemma entity_output_shape_witness :
  exists out,
    computeEntityParams Sample.imported (Sample.onAudit true false) = Return out
    /\ Forall2
         (fun f pf =>
            pf_type pf
            = f_type (if noDependencies
                           (config (templateHelpers (Sample.onAudit true false)))
                      then genericType f else f)
            /\ f_isList (pf_field pf) = f_isList f
            /\ pf_documentation pf = f_documentation f
            /\ pf_classValidators pf = None
            /\ (pf_apiProperties pf = None
                <-> noDependencies
                      (config (templateHelpers (Sample.onAudit true false))) = true))
         (filter entityKeeps (m_fields (model (Sample.onAudit true false))))
         (ep_fields out).
Proof.
  eexists. split; [vm_compute; reflexivity|].
  apply (entity_output_shape Sample.imported (Sample.onAudit true false)).
  vm_compute. reflexivity.
Defined.

(** X6.  Under [noDependencies] no output field of the Entity pipeline has
    the type [Json] or [Decimal]. *)
Theorem entity_types_without_dependencies (I : Imported) (param : ComputeParam)
  (out : EntityParams) :
  noDependencies (config (templateHelpers param)) = true ->
  computeEntityParams I param = Return out ->
  Forall (fun pf => pf_type pf <> "Json"%string /\ pf_type pf <> "Decimal"%string)
    (ep_fields out).
Proof.
  intros Hnd Hout. apply (entity_shapes I) in Hout.
  induction Hout as [|f pf fs pfs [Hty _] _ IH]; constructor; [|exact IH].
  rewrite Hty. unfold emittedField. rewrite Hnd. apply genericType_never.
Qed.

Lemma entity_types_without_dependencies_witness :
  exists out,
    computeEntityParams Sample.imported (Sample.onAudit true false) = Return out
    /\ Forall (fun pf => pf_type pf <> "Json"%string /\ pf_type pf <> "Decimal"%string)
         (ep_fields out).
Proof.
  eexists. split; [vm_compute; reflexivity|].
  apply (entity_types_without_dependencies Sample.imported (Sample.onAudit true false));
    vm_compute; reflexivity.
Defined.

(** X7.  No output field of the Update pipeline is required.  A field that
    is not a relation is nullable exactly when the schema does not require
    it and keeps its list flag; a relation field is never nullable and never
    a list, its type being the relation input type. *)
Theorem update_overrides (I : Imported) (param : ComputeParam) (out : DtoParams) :
  computeUpdateDtoParams I param = Return out ->
  Forall2
    (fun f pf =>
       pf_isRequired pf = false
       /\ pf_isNullable pf = Some (if isRelation f then false else negb (f_isRequired f))
       /\ f_isList (pf_field pf) = (if isRelation f then false else f_isList f)
       /\ pf_documentation pf = f_documentation f)
    (filter (updateKeeps I param) (m_fields (model param))) (dp_fields out).
Proof.
  intros Hout.
  apply (Forall2_weaken_in (UpdateShape I param)); [|apply update_shapes; exact Hout].
  intros f pf _ [Hreq [Hdoc [_ [_ [_ [Hplain Hrel]]]]]].
  split; [exact Hreq|].
  destruct (isRelation f).
  - destruct (Hrel eq_refl) as [ri [_ [_ [Hlist Hnull]]]].
    split; [exact Hnull|]. split; [exact Hlist|exact Hdoc].
  - destruct (Hplain eq_refl) as [Hnull [Hlist _]].
    split; [exact Hnull|]. split; [exact Hlist|exact Hdoc].
Qed.

Lemma update_overrides_witness :
  exists out,
    computeUpdateDtoParams Sample.imported (Sample.onPost false true) = Return out
    /\ Forall2
         (fun f pf =>
            pf_isRequired pf = false
            /\ pf_isNullable pf
               = Some (if isRelation f then false else negb (f_isRequired f))
            /\ f_isList (pf_field pf) = (if isRelation f then false else f_isList f)
            /\ pf_documentation pf = f_documentation f)
         (filter (updateKeeps Sample.imported (Sample.onPost false true))
            (m_fields (model (Sample.onPost false true))))
         (dp_fields out).
Proof.
  eexists. split; [vm_compute; reflexivity|].
  apply (update_overrides Sample.imported (Sample.onPost false true)).
  vm_compute. reflexivity.
Defined.

(** X8.  In the output of the Create pipeline, a field without
    create-optional keeps the requiredness of the schema, except a relation
    field collapsed to a composite input type: that one is not required when
    it is a list, and otherwise required when it carries relation-required
    or the schema requires it. *)
Theorem create_requiredness (I : Imported) (param : ComputeParam) (out : DtoParams) :
  computeCreateDtoParams I param = Return out ->
  Forall2
    (fun f pf =>
       isAnnotatedWith f DTO_CREATE_OPTIONAL = false ->
       (isRelation f = false -> pf_isRequired pf = f_isRequired f)
       /\ (isRelation f = true ->
           forall ri,
             generateRelationInput I
               (createRelationInputParam param (includeIdentifier param f)) = Return ri ->
             pf_isRequired pf
             = if (1 <? List.length (ri_imports ri))%nat
               then negb (f_isList f)
                    && (isAnnotatedWith f DTO_RELATION_REQUIRED || f_isRequired f)
               else f_isRequired f))
    (filter (createKeeps I param) (m_fields (model param))) (dp_fields out).
Proof.
  intros Hout.
  apply (Forall2_weaken_in (CreateShape I param)); [|apply create_shapes; exact Hout].
  intros f pf _ [_ [_ [_ [_ [_ Hreq]]]]] Hopt.
  specialize (Hreq Hopt). unfold createRequired in Hreq. split.
  - intros Hr. rewrite Hr in Hreq. exact Hreq.
  - intros Hr ri Hri. rewrite Hr, Hri in Hreq. rewrite Hreq.
    destruct (1 <? List.length (ri_imports ri))%nat; [|reflexivity].
    destruct (f_isList f); reflexivity.
Qed.

Lemma create_requiredness_witness :
  exists out,
    computeCreateDtoParams Sample.imported (Sample.onPost false true) = Return out
    /\ Forall2
         (fun f pf =>
            isAnnotatedWith f DTO_CREATE_OPTIONAL = false ->
            (isRelation f = false -> pf_isRequired pf = f_isRequired f)
            /\ (isRelation f = true ->
                forall ri,
                  generateRelationInput Sample.imported
                    (createRelationInputParam (Sample.onPost false true)
                       (includeIdentifier (Sample.onPost false true) f)) = Return ri ->
                  pf_isRequired pf
                  = if (1 <? List.length (ri_imports ri))%nat
                    then negb (f_isList f)
                         && (isAnnotatedWith f DTO_RELATION_REQUIRED || f_isRequired f)
                    else f_isRequired f))
         (filter (createKeeps Sample.imported (Sample.onPost false true))
            (m_fields (model (Sample.onPost false true))))
         (dp_fields out).
Proof.
  eexists. split; [vm_compute; reflexivity|].
  apply (create_requiredness Sample.imported (Sample.onPost false true)).
  vm_compute. reflexivity.
Defined.

(** X9.  The Create pipeline never sets the nullability of an output field
    and never changes its list flag: a list relation collapsed to a relation
    input type is still a list in the output, where the Update pipeline
    clears the flag. *)
Theorem create_list_flag (I : Imported) (param : ComputeParam) (out : DtoParams) :
  computeCreateDtoParams I param = Return out ->
  Forall2
    (fun f pf => pf_isNullable pf = None /\ f_isList (pf_field pf) = f_isList f)
    (filter (createKeeps I param) (m_fields (model param))) (dp_fields out).
Proof.
  intros Hout.
  apply (Forall2_weaken_in (CreateShape I param)); [|apply create_shapes; exact Hout].
  intros f pf _ [Hnull [Hlist _]]. split; assumption.
Qed.

Lemma create_list_flag_witness :
  exists out,
    computeCreateDtoParams Sample.imported (Sample.onPost false true) = Return out
    /\ Forall2
         (fun f pf => pf_isNullable pf = None /\ f_isList (pf_field pf) = f_isList f)
         (filter (createKeeps Sample.imported (Sample.onPost false true))
            (m_fields (model (Sample.onPost false true))))
         (dp_fields out).
Proof.
  eexists. split; [vm_compute; reflexivity|].
  apply (create_list_flag Sample.imported (Sample.onPost false true)).
  vm_compute. reflexivity.
Defined.

(** ** What the configuration switches off *)

(** X10.  An output field of the Create pipeline carries documentation
    decorators exactly when [noDependencies] is off and validators exactly
    when [classValidation] is on; its create-response flag is the presence
    of the create-response directive when [noDependencies] is off and false
    when it is on, and its update-response flag is never set. *)
Theorem create_configuration (I : Imported) (param : ComputeParam) (out : DtoParams) :
  computeCreateDtoParams I param = Return out ->
  Forall2
    (fun f pf =>
       (pf_apiProperties pf = None
        <-> noDependencies (config (templateHelpers param)) = true)
       /\ (pf_classValidators pf = None
           <-> classValidation (config (templateHelpers param)) = false)
       /\ pf_createApiResp pf
          = Some (if noDependencies (config (templateHelpers param)) then false
                  else isAnnotatedWith f DTO_CREATE_API_RESP)
       /\ pf_updateApiResp pf = None)
    (filter (createKeeps I param) (m_fields (model param))) (dp_fields out).
Proof.
  intros Hout.
  apply (Forall2_weaken_in (CreateShape I param)); [|apply create_shapes; exact Hout].
  intros f pf _ [_ [_ [Hc [Hu [[Hapi Hcv] _]]]]].
  split; [exact Hapi|]. split; [exact Hcv|]. split; [|exact Hu].
  rewrite Hc. destruct (noDependencies _); reflexivity.
Qed.

Lemma create_configuration_witness :
  exists out,
    computeCreateDtoParams Sample.imported (Sample.onPost false true) = Return out
    /\ Forall2
         (fun f pf =>
            (pf_apiProperties pf = None
             <-> noDependencies
                   (config (templateHelpers (Sample.onPost false true))) = true)
            /\ (pf_classValidators pf = None
                <-> classValidation
                      (config (templateHelpers (Sample.onPost false true))) = false)
            /\ pf_createApiResp pf
               = Some (if noDependencies
                            (config (templateHelpers (Sample.onPost false true)))
                       then false
                       else isAnnotatedWith f DTO_CREATE_API_RESP)
            /\ pf_updateApiResp pf = None)
         (filter (createKeeps Sample.imported (Sample.onPost false true))
            (m_fields (model (Sample.onPost false true))))
         (dp_fields out).
Proof.
  eexists. split; [vm_compute; reflexivity|].
  apply (create_configuration Sample.imported (Sample.onPost false true)).
  vm_compute. reflexivity.
Defined.

(** X11.  An output field of the Update pipeline carries documentation
    decorators exactly when [noDependencies] is off and validators exactly
    when [classValidation] is on; its update-response flag is the presence
    of the update-response directive when [noDependencies] is off and false
    when it is on, and its create-response flag is never set. *)
Theorem update_configuration (I : Imported) (param : ComputeParam) (out : DtoParams) :
  computeUpdateDtoParams I param = Return out ->
  Forall2
    (fun f pf =>
       (pf_apiProperties pf = None
        <-> noDependencies (config (templateHelpers param)) = true)
       /\ (pf_classValidators pf = None
           <-> classValidation (config (templateHelpers param)) = false)
       /\ pf_updateApiResp pf
          = Some (if noDependencies (config (templateHelpers param)) then false
                  else isAnnotatedWith f DTO_UPDATE_API_RESP)
       /\ pf_createApiResp pf = None)
    (filter (updateKeeps I param) (m_fields (model param))) (dp_fields out).
Proof.
  intros Hout.
  apply (Forall2_weaken_in (UpdateShape I param)); [|apply update_shapes; exact Hout].
  intros f pf _ [_ [_ [Hc [Hu [[Hapi Hcv] _]]]]].
  split; [exact Hapi|]. split; [exact Hcv|]. split; [|exact Hc].
  rewrite Hu. destruct (noDependencies _); reflexivity.
Qed.

Lemma update_configuration_witness :
  exists out,
    computeUpdateDtoParams Sample.imported (Sample.onAudit true true) = Return out
    /\ Forall2
         (fun f pf =>
            (pf_apiProperties pf = None
             <-> noDependencies
                   (config (templateHelpers (Sample.onAudit true true))) = true)
            /\ (pf_classValidators pf = None
                <-> classValidation
                      (config (templateHelpers (Sample.onAudit true true))) = false)
            /\ pf_updateApiResp pf
               = Some (if noDependencies
                            (config (templateHelpers (Sample.onAudit true true)))
                       then false
                       else isAnnotatedWith f DTO_UPDATE_API_RESP)
            /\ pf_createApiResp pf = None)
         (filter (updateKeeps Sample.imported (Sample.onAudit true true))
            (m_fields (model (Sample.onAudit true true))))
         (dp_fields out).
Proof.
  eexists. split; [vm_compute; reflexivity|].
  apply (update_configuration Sample.imported (Sample.onAudit true true)).
  vm_compute. reflexivity.
Defined.

(** X12.  Under [noDependencies], no output field of the Create pipeline
    that comes from a field other than a relation has the type [Json] or
    [Decimal]. *)
Theorem create_types_without_dependencies (I : Imported) (param : ComputeParam)
  (out : DtoParams) :
  noDependencies (config (templateHelpers param)) = true ->
  computeCreateDtoParams I param = Return out ->
  Forall2
    (fun f pf =>
       isRelation f = false ->
       pf_type pf <> "Json"%string /\ pf_type pf <> "Decimal"%string)
    (filter (createKeeps I param) (m_fields (model param))) (dp_fields out).
Proof.
  intros Hnd Hout.
  apply (Forall2_weaken_in (CreateEmits I param)); [|apply create_fields; exact Hout].
  intros f pf _ [_ [_ [Hplain _]]] Hr. destruct (Hplain Hr) as [_ Hty].
  rewrite Hty. unfold emittedField. rewrite Hnd. apply genericType_never.
Qed.

Lemma create_types_without_dependencies_witness :
  exists out,
    computeCreateDtoParams Sample.imported (Sample.onAudit true true) = Return out
    /\ Forall2
         (fun f pf =>
            isRelation f = false ->
            pf_type pf <> "Json"%string /\ pf_type pf <> "Decimal"%string)
         (filter (createKeeps Sample.imported (Sample.onAudit true true))
            (m_fields (model (Sample.onAudit true true))))
         (dp_fields out).
Proof.
  eexists. split; [vm_compute; reflexivity|].
  apply (create_types_without_dependencies Sample.imported (Sample.onAudit true true));
    vm_compute; reflexivity.
Defined.

(** X13.  Under [noDependencies], no output field of the Update pipeline
    that comes from a field other than a relation has the type [Json] or
    [Decimal]. *)
Theorem update_types_without_dependencies (I : Imported) (param : ComputeParam)
  (out : DtoParams) :
  noDependencies (config (templateHelpers param)) = true ->
  computeUpdateDtoParams I param = Return out ->
  Forall2
    (fun f pf =>
       isRelation f = false ->
       pf_type pf <> "Json"%string /\ pf_type pf <> "Decimal"%string)
    (filter (updateKeeps I param) (m_fields (model param))) (dp_fields out).
Proof.
  intros Hnd Hout.
  apply (Forall2_weaken_in (UpdateShape I param)); [|apply update_shapes; exact Hout].
  intros f pf _ [_ [_ [_ [_ [_ [Hplain _]]]]]] Hr.
  destruct (Hplain Hr) as [_ [_ Hty]].
  rewrite Hty. unfold emittedField. rewrite Hnd. apply genericType_never.
Qed.

Lemma update_types_without_dependencies_witness :
  exists out,
    computeUpdateDtoParams Sample.imported (Sample.onAudit true true) = Return out
    /\ Forall2
         (fun f pf =>
            isRelation f = false ->
            pf_type pf <> "Json"%string /\ pf_type pf <> "Decimal"%string)
         (filter (updateKeeps Sample.imported (Sample.onAudit true true))
            (m_fields (model (Sample.onAudit true true))))
         (dp_fields out).
Proof.
  eexists. split; [vm_compute; reflexivity|].
  apply (update_types_without_dependencies Sample.imported (Sample.onAudit true true));
    vm_compute; reflexivity.
Defined.

(** ** What the relation inputs add to the generated classes *)

Lemma reduceM_collects {S A B : Type} (step : S -> A -> Outcome S)
  (proj : S -> list B) (g : A -> list B) :
  (forall acc x acc', step acc x = Return acc' -> proj acc' = proj acc ++ g x) ->
  forall xs acc acc', reduceM step xs acc = Return acc' ->
    proj acc' = proj acc ++ flat_map g xs.
Proof.
  intros Hstep xs. induction xs as [|x xs IH]; intros acc acc' H; simpl in H.
  - inversion H; subst. simpl. rewrite app_nil_r. reflexivity.
  - destruct (step acc x) as [acc1|] eqn:Hx; simpl in H; [|discriminate].
    rewrite (IH _ _ H), (Hstep _ _ _ Hx). simpl. rewrite app_assoc. reflexivity.
Qed.

Lemma createRest_collections (I : Imported) (param : ComputeParam) (acc : DtoAcc)
  (f : Field) (ov : Overrides) (acc' : DtoAcc) :
  createRest I param acc f ov = Return acc' ->
  da_extraClasses acc' = da_extraClasses acc
  /\ da_apiExtraModels acc' = da_apiExtraModels acc.
Proof.
  intros H. apply createRest_inv in H.
  destruct H as [[_ ->] | [_ [imports [acc1 [ov1 [d [_ [Hdec ->]]]]]]]];
    [split; reflexivity|].
  apply createDecorate_overrides in Hdec.
  destruct Hdec as [_ [_ [_ [_ [_ [_ [Hcls Hext]]]]]]].
  simpl. rewrite Hcls, Hext. split; reflexivity.
Qed.

Lemma updateRest_collections (I : Imported) (param : ComputeParam) (acc : DtoAcc)
  (f : Field) (ov : Overrides) (acc' : DtoAcc) :
  updateRest I param acc f ov = Return acc' ->
  da_extraClasses acc' = da_extraClasses acc
  /\ da_apiExtraModels acc' = da_apiExtraModels acc.
Proof.
  intros H. apply updateRest_inv in H.
  destruct H as [[_ ->] | [_ [imports [acc1 [ov1 [d [_ [Hdec ->]]]]]]]];
    [split; reflexivity|].
  apply updateDecorate_overrides in Hdec.
  destruct Hdec as [_ [_ [_ [_ [_ [_ [Hcls Hext]]]]]]].
  simpl. rewrite Hcls, Hext. split; reflexivity.
Qed.

Lemma createStep_collects (I : Imported) (param : ComputeParam) (acc : DtoAcc)
  (f0 : Field) (acc' : DtoAcc) :
  createStep I param acc f0 = Return acc' ->
  da_extraClasses acc' = da_extraClasses acc ++ createGenerated I param f0
  /\ da_apiExtraModels acc' = da_apiExtraModels acc ++ createExtraModels I param f0.
Proof.
  intros H. apply createStep_inv in H. cbv zeta in H.
  pose proof (sameShape_includeIdentifier param f0) as Hs.
  unfold createGenerated, createExtraModels, createSynthesizes.
  destruct H as [[Hdrop ->] | [Hhidden [Hro [acc1 [f1 [ov1 [Hrel Hrest]]]]]]].
  - assert (Hoff : isRelation f0 && negb (isAnnotatedWith f0 DTO_CREATE_HIDDEN)
                   && negb (staysReadOnly param f0)
                   && isAnnotatedWithOneOf f0 (DTO_RELATION_MODIFIERS_ON_CREATE I)
                   = false).
    { destruct Hdrop as [-> | [-> | [_ ->]]].
      - rewrite andb_false_r. reflexivity.
      - rewrite andb_false_r. reflexivity.
      - rewrite andb_false_r. reflexivity. }
    rewrite Hoff. simpl. rewrite !app_nil_r. split; reflexivity.
  - apply createRest_collections in Hrest. destruct Hrest as [-> ->].
    rewrite Hhidden, Hro. simpl. rewrite !andb_true_r.
    apply createRelation_some in Hrel.
    rewrite (sameShape_isRelation f0 _ Hs), (sameShape_oneOf f0 _ _ Hs) in Hrel.
    destruct Hrel as [[Hr [-> _]] | [Hr [Hone [ri [Hri Happly]]]]]; rewrite Hr; simpl.
    + rewrite !app_nil_r. split; reflexivity.
    + rewrite Hone, Hri. simpl.
      apply createApplyRelationInput_overrides in Happly.
      destruct Happly as [_ [_ [_ [_ [_ [Hcls Hext]]]]]].
      rewrite Hcls, Hext. split; [reflexivity|].
      destruct (noDependencies _); simpl.
      * rewrite andb_false_r. reflexivity.
      * rewrite andb_true_r. reflexivity.
Qed.

Lemma updateStep_collects (I : Imported) (param : ComputeParam) (acc : DtoAcc)
  (f0 : Field) (acc' : DtoAcc) :
  updateStep I param acc f0 = Return acc' ->
  da_extraClasses acc' = da_extraClasses acc ++ updateGenerated I param f0
  /\ da_apiExtraModels acc' = da_apiExtraModels acc ++ updateExtraModels I param f0.
Proof.
  intros H. apply updateStep_inv in H. cbv zeta in H.
  pose proof (sameShape_includeIdentifier param f0) as Hs.
  unfold updateGenerated, updateExtraModels, updateSynthesizes.
  destruct H as [[Hdrop ->] | [Hhidden [Hro [acc1 [ov1 [Hrel Hrest]]]]]].
  - assert (Hoff : isRelation f0 && negb (isAnnotatedWith f0 DTO_UPDATE_HIDDEN)
                   && negb (staysReadOnly param f0)
                   && isAnnotatedWithOneOf f0 (DTO_RELATION_MODIFIERS_ON_UPDATE I)
                   = false).
    { destruct Hdrop as [-> | [-> | [_ ->]]].
      - rewrite andb_false_r. reflexivity.
      - rewrite andb_false_r. reflexivity.
      - rewrite andb_false_r. reflexivity. }
    rewrite Hoff. simpl. rewrite !app_nil_r. split; reflexivity.
  - apply updateRest_collections in Hrest. destruct Hrest as [-> ->].
    rewrite Hhidden, Hro. simpl. rewrite !andb_true_r.
    apply updateRelation_some in Hrel.
    rewrite (sameShape_isRelation f0 _ Hs), (sameShape_oneOf f0 _ _ Hs) in Hrel.
    destruct Hrel as [[Hr [-> _]] | [Hr [Hone [ri [Hri [-> _]]]]]]; rewrite Hr; simpl.
    + rewrite !app_nil_r. split; reflexivity.
    + rewrite Hone, Hri. simpl. unfold concatIntoArray.
      destruct (noDependencies _); simpl; [|split; reflexivity].
      rewrite app_nil_r. split; reflexivity.
Qed.

(** X14.  The generated classes the Create pipeline returns are, in field
    order, those of the relation inputs that collapse to a composite type:
    of the relation fields that are not hidden from create, not read-only
    and carry a create-time modifier, whether or not a later rule drops the
    field; a direct reference adds none.  The extra documentation models are
    collected in the same way, and there are none under [noDependencies]. *)
Theorem create_generated_classes (I : Imported) (param : ComputeParam)
  (out : DtoParams) :
  computeCreateDtoParams I param = Return out ->
  dp_extraClasses out = flat_map (createGenerated I param) (m_fields (model param))
  /\ dp_apiExtraModels out
     = flat_map (createExtraModels I param) (m_fields (model param))
  /\ (noDependencies (config (templateHelpers param)) = true ->
      dp_apiExtraModels out = []).
Proof.
  unfold computeCreateDtoParams, createReduce. intros H.
  destruct (reduceM (createStep I param) (m_fields (model param)) dtoInit)
    as [acc|] eqn:Hred; simpl in H; [|discriminate].
  inversion H; subst. simpl.
  pose proof (reduceM_collects (createStep I param) da_extraClasses
                (createGenerated I param)
                (fun a x a' Hx => proj1 (createStep_collects I param a x a' Hx))
                _ _ _ Hred) as Hcls.
  pose proof (reduceM_collects (createStep I param) da_apiExtraModels
                (createExtraModels I param)
                (fun a x a' Hx => proj2 (createStep_collects I param a x a' Hx))
                _ _ _ Hred) as Hext.
  simpl in Hcls, Hext. split; [exact Hcls|]. split; [exact Hext|].
  intros Hnd. rewrite Hext. clear Hred Hcls Hext H.
  induction (m_fields (model param)) as [|f fs IH]; [reflexivity|].
  simpl. rewrite IH. unfold createExtraModels. rewrite Hnd, andb_false_r. reflexivity.
Qed.

Lemma create_generated_classes_witness :
  exists out,
    computeCreateDtoParams Sample.imported (Sample.onPost false true) = Return out
    /\ dp_extraClasses out
       = flat_map (createGenerated Sample.imported (Sample.onPost false true))
           (m_fields (model (Sample.onPost false true)))
    /\ dp_apiExtraModels out
       = flat_map (createExtraModels Sample.imported (Sample.onPost false true))
           (m_fields (model (Sample.onPost false true)))
    /\ (noDependencies (config (templateHelpers (Sample.onPost false true))) = true ->
        dp_apiExtraModels out = []).
Proof.
  eexists. split; [vm_compute; reflexivity|].
  apply (create_generated_classes Sample.imported (Sample.onPost false true)).
  vm_compute. reflexivity.
Defined.

(** X15.  The generated classes the Update pipeline returns are, in field
    order, those of the relation inputs of the relation fields that are not
    hidden from update, not read-only and carry an update-time modifier,
    composite or not, and whether or not a later rule drops the field.  The
    extra documentation models are collected in the same way, and there are
    none under [noDependencies]. *)
Theorem update_generated_classes (I : Imported) (param : ComputeParam)
  (out : DtoParams) :
  computeUpdateDtoParams I param = Return out ->
  dp_extraClasses out = flat_map (updateGenerated I param) (m_fields (model param))
  /\ dp_apiExtraModels out
     = flat_map (updateExtraModels I param) (m_fields (model param))
  /\ (noDependencies (config (templateHelpers param)) = true ->
      dp_apiExtraModels out = []).
Proof.
  unfold computeUpdateDtoParams, updateReduce. intros H.
  destruct (reduceM (updateStep I param) (m_fields (model param)) dtoInit)
    as [acc|] eqn:Hred; simpl in H; [|discriminate].
  inversion H; subst. simpl.
  pose proof (reduceM_collects (updateStep I param) da_extraClasses
                (updateGenerated I param)
                (fun a x a' Hx => proj1 (updateStep_collects I param a x a' Hx))
                _ _ _ Hred) as Hcls.
  pose proof (reduceM_collects (updateStep I param) da_apiExtraModels
                (updateExtraModels I param)
                (fun a x a' Hx => proj2 (updateStep_collects I param a x a' Hx))
                _ _ _ Hred) as Hext.
  simpl in Hcls, Hext. split; [exact Hcls|]. split; [exact Hext|].
  intros Hnd. rewrite Hext. clear Hred Hcls Hext H.
  induction (m_fields (model param)) as [|f fs IH]; [reflexivity|].
  simpl. rewrite IH. unfold updateExtraModels. rewrite Hnd, andb_false_r. reflexivity.
Qed.

Lemma update_generated_classes_witness :
  exists out,
    computeUpdateDtoParams Sample.imported (Sample.onPost false true) = Return out
    /\ dp_extraClasses out
       = flat_map (updateGenerated Sample.imported (Sample.onPost false true))
           (m_fields (model (Sample.onPost false true)))
    /\ dp_apiExtraModels out
       = flat_map (updateExtraModels Sample.imported (Sample.onPost false true))
           (m_fields (model (Sample.onPost false true)))
    /\ (noDependencies (config (templateHelpers (Sample.onPost false true))) = true ->
        dp_apiExtraModels out = []).
Proof.
  eexists. split; [vm_compute; reflexivity|].
  apply (update_generated_classes Sample.imported (Sample.onPost false true)).
  vm_compute. reflexivity.
Defined.

(** ** The import-once test *)

Lemma includes_head (x : string) (xs : list string) : includes x (x :: xs) = true.
Proof. apply includes_true_iff. left. reflexivity. Qed.

Lemma importOnce_again (importName importFrom : string)
  (imports : list ImportStatementParams) :
  importOnce importName importFrom (importOnce importName importFrom imports)
  = importOnce importName importFrom imports.
Proof.
  unfold importOnce.
  destruct (existsb
              (fun item =>
                 includes importName (imp_destruct item)
                 && (imp_from item =? importFrom)%string) imports) eqn:Hseen.
  - rewrite Hseen. reflexivity.
  - rewrite existsb_app, Hseen.
    cbn [existsb imp_destruct imp_from].
    rewrite includes_head, String.eqb_refl. reflexivity.
Qed.

(** X16.  Importing the artifact of a related entity appends at most one
    record, at the end, holding the one imported name, and importing it
    again leaves the import list as it is.  The record is appended only when
    no earlier record holds that name from the same source: an earlier
    record of the name from another source does not prevent it. *)
Theorem import_once (I : Imported) (param : ComputeParam) (what : string) (f : Field)
  (fromOutput : string) (toOutput : Output -> string)
  (naming filenaming : string -> string) (imports imports' : list ImportStatementParams) :
  importRelated I param what f fromOutput toOutput naming filenaming imports
  = Return imports' ->
  importRelated I param what f fromOutput toOutput naming filenaming imports'
  = Return imports'
  /\ (imports' = imports
      \/ exists importFrom,
           imports' = imports ++ [{| imp_from := importFrom;
                                     imp_destruct := [naming (f_type f)] |}]
           /\ Forall (fun item =>
                        includes (naming (f_type f)) (imp_destruct item) = true ->
                        imp_from item <> importFrom)
                imports).
Proof.
  unfold importRelated. intros H.
  destruct (negb (f_type f =? m_name (model param))%string).
  - destruct (find _ (allModels param)) as [target|]; [|discriminate].
    cbv zeta in H. inversion H as [Himports]. rewrite importOnce_again.
    split; [reflexivity|].
    unfold importOnce.
    destruct (existsb _ imports) eqn:Hseen; [left; reflexivity|].
    right. eexists. split; [reflexivity|].
    apply Forall_forall. intros item Hin Hincl Hfrom.
    assert (Hany : existsb
                     (fun item0 =>
                        includes (naming (f_type f)) (imp_destruct item0)
                        && (imp_from item0
                            =? slash I
                                 (getRelativePath I fromOutput (toOutput (m_output target))
                                    ++ path_sep I ++ filenaming (f_type f)))%string)
                     imports = true).
    { apply existsb_exists. exists item. split; [exact Hin|].
      rewrite Hincl. apply String.eqb_eq in Hfrom. rewrite Hfrom. reflexivity. }
    rewrite Hany in Hseen. discriminate.
  - inversion H; subst. split; [reflexivity|left; reflexivity].
Qed.

Lemma import_once_witness :
  exists imports',
    importRelated Sample.imported (Sample.onPost false false) "model" Sample.author
      "src/entities" out_entity (entityName (Sample.helpers false false))
      (entityFilename (Sample.helpers false false))
      [{| imp_from := "../other/User.entity"; imp_destruct := ["User"] |}]
    = Return imports'
    /\ importRelated Sample.imported (Sample.onPost false false) "model" Sample.author
         "src/entities" out_entity (entityName (Sample.helpers false false))
         (entityFilename (Sample.helpers false false)) imports' = Return imports'
    /\ (imports' = [{| imp_from := "../other/User.entity"; imp_destruct := ["User"] |}]
        \/ exists importFrom,
             imports'
             = [{| imp_from := "../other/User.entity"; imp_destruct := ["User"] |}]
                 ++ [{| imp_from := importFrom;
                        imp_destruct :=
                          [entityName (Sample.helpers false false)
                             (f_type Sample.author)] |}]
             /\ Forall (fun item =>
                          includes
                            (entityName (Sample.helpers false false)
                               (f_type Sample.author))
                            (imp_destruct item) = true ->
                          imp_from item <> importFrom)
                  [{| imp_from := "../other/User.entity"; imp_destruct := ["User"] |}]).
Proof.
  eexists. split; [vm_compute; reflexivity|].
  apply (import_once Sample.imported (Sample.onPost false false) "model" Sample.author
           "src/entities" out_entity (entityName (Sample.helpers false false))
           (entityFilename (Sample.helpers false false))
           [{| imp_from := "../other/User.entity"; imp_destruct := ["User"] |}]).
  vm_compute. reflexivity.
Defined.

(** ** The first field that fails *)

Lemma reduceM_first_throw {S A : Type} (step : S -> A -> Outcome S) (msg : string)
  (pre post : list A) (x : A) :
  (forall y, In y pre -> forall acc, exists acc', step acc y = Return acc') ->
  (forall acc, step acc x = Throw msg) ->
  forall acc, reduceM step (pre ++ x :: post) acc = Throw msg.
Proof.
  intros Hpre Hx. induction pre as [|y pre IH]; intros acc; simpl.
  - rewrite Hx. reflexivity.
  - destruct (Hpre y (or_introl eq_refl) acc) as [acc' ->]. simpl.
    apply IH. intros z Hz. apply Hpre. right. exact Hz.
Qed.

Lemma entityStep_throws (I : Imported) (param : ComputeParam) (acc : EntityAcc)
  (f : Field) :
  entityResolves f && unresolved param f = true ->
  entityStep I param acc f = Throw (entityMessage param f).
Proof.
  unfold entityResolves, entityKeeps, entityStep, entityMessage. intros H.
  destruct (isAnnotatedWith f DTO_ENTITY_HIDDEN); simpl in H; [discriminate|].
  unfold isType, isRelation in *. destruct (f_kind f); simpl in H; try discriminate.
  - pose proof (importRelated_outcome I param "model" f
                  (out_entity (m_output (model param))) out_entity
                  (entityName (templateHelpers param))
                  (entityFilename (templateHelpers param)) (ea_imports acc)) as Hout.
    rewrite H in Hout. simpl. rewrite Hout. reflexivity.
  - pose proof (importRelated_outcome I param "type" f
                  (out_entity (m_output (model param))) out_dto
                  (plainDtoName (templateHelpers param))
                  (plainDtoFilename (templateHelpers param)) (ea_imports acc)) as Hout.
    rewrite H in Hout. rewrite Hout. reflexivity.
Qed.

(** X17.  The Entity pipeline fails on the first field, in field order,
    that is not hidden from the entity and is a relation or a nested
    structured type whose target is neither the entity itself nor in the
    entity set, whatever fields follow; the message is
    [related model 'T' for 'E.f' not found] for a relation and
    [related type 'T' for 'E.f' not found] for a nested structured type. *)
Theorem entity_first_failure (I : Imported) (param : ComputeParam)
  (pre post : list Field) (f : Field) :
  m_fields (model param) = pre ++ f :: post ->
  entityPasses param pre = true ->
  entityResolves f && unresolved param f = true ->
  computeEntityParams I param
  = Throw ("related " ++ (if isType f then "type" else "model") ++ " '" ++ f_type f
             ++ "' for '" ++ m_name (model param) ++ "." ++ f_name f
             ++ "' not found")%string.
Proof.
  intros Hfields Hpre Hbad. unfold computeEntityParams. rewrite Hfields.
  rewrite (reduceM_first_throw (entityStep I param) (entityMessage param f) pre post f).
  - reflexivity.
  - intros g Hg acc. unfold entityPasses in Hpre. rewrite forallb_forall in Hpre.
    specialize (Hpre g Hg). apply negb_true_iff in Hpre.
    pose proof (entityStep_decides I param acc g) as Hstep. cbv beta in Hstep.
    rewrite Hpre in Hstep. exact Hstep.
  - intros acc. apply entityStep_throws. exact Hbad.
Qed.

Lemma entity_first_failure_witness :
  computeEntityParams Sample.imported (Sample.onHaunted false false)
  = Throw "related model 'Ghost' for 'Haunted.ghost' not found".
Proof.
  apply (entity_first_failure Sample.imported (Sample.onHaunted false false)
           [Sample.identifier] [] Sample.ghost); vm_compute; reflexivity.
Defined.

(** ** What the pipelines hand to the parsers *)

Lemma updateTypeHint_shape (param : ComputeParam) (f g : Field) (ov : Overrides) :
  sameShape f g -> updateTypeHint param g ov = updateTypeHint param f ov.
Proof.
  intros Hs. unfold updateTypeHint.
  rewrite (sameShape_isType f g Hs), (sameShape_annotated f g DTO_TYPE_FULL_UPDATE Hs).
  reflexivity.
Qed.


Lemma updateDecorate_validators (I : Imported) (param : ComputeParam) (acc : DtoAcc)
  (f : Field) (ov : Overrides) (acc' : DtoAcc) (ov' : Overrides) (d : Decorators) :
  classValidation (config (templateHelpers param)) = true ->
  updateDecorate I param acc f ov = (acc', ov', d) ->
  d_classValidators d
  = Some (parseClassValidators I (mapDMMFToParsedField f ov noDecorators)
            (updateTypeHint param f ov)).
Proof.
  intros Hcv. unfold updateDecorate. rewrite Hcv.
  destruct (noDependencies _); simpl; intros H; inversion H; subst; reflexivity.
Qed.


(** ** The documentation properties the pipelines add *)

Lemma entityDecorate_properties (I : Imported) (param : ComputeParam) (f : Field)
  (imports : list ImportStatementParams) (has : bool) :
  noDependencies (config (templateHelpers param)) = false ->
  d_apiProperties (fst (fst (entityDecorate I param f imports has)))
  = Some (parseApiProperty I (entityDocumented f)
            {| opt_default := Some false; opt_type := None |}
            ++ entityTypeProperties I (f_type f) (f_kind f)).
Proof.
  intros Hnd. unfold entityDecorate, entityTypeProperties, entityDocumented.
  rewrite Hnd. simpl.
  destruct (truthy (PrismaScalarToFormat I (f_type f))); simpl.
  - rewrite app_nil_r. reflexivity.
  - destruct (isPlainType (f_type f)); simpl; [reflexivity|].
    destruct (f_kind f); simpl;
      solve [reflexivity | rewrite <- app_assoc; reflexivity].
Qed.

Lemma entityStep_decorated (I : Imported) (param : ComputeParam)
  (acc : EntityAcc) (f : Field) (acc' : EntityAcc) :
  entityStep I param acc f = Return acc' ->
  if entityKeeps f
  then exists pf,
         ea_result acc' = ea_result acc ++ [pf]
         /\ (noDependencies (config (templateHelpers param)) = false ->
             pf_type pf = f_type f
             /\ f_kind (pf_field pf) = f_kind f
             /\ pf_apiProperties pf
                = Some (parseApiProperty I (entityDocumented f)
                          {| opt_default := Some false; opt_type := None |}
                          ++ entityTypeProperties I (f_type f) (f_kind f)))
  else ea_result acc' = ea_result acc.
Proof.
  unfold entityStep, entityKeeps.
  destruct (isAnnotatedWith f DTO_ENTITY_HIDDEN); simpl.
  - intros H. inversion H; subst. reflexivity.
  - match goal with |- andThen ?c _ = _ -> _ => destruct c as [imports1|] end;
      simpl; [|discriminate].
    match goal with |- andThen ?c _ = _ -> _ => destruct c as [imports2|] end;
      simpl; [|discriminate].
    pose proof (entityDecorate_properties I param f imports2 (ea_hasApiProperty acc))
      as Hprops.
    destruct (entityDecorate I param f imports2 (ea_hasApiProperty acc))
      as [[decorators imports3] hasApi].
    simpl in Hprops.
    intros H. inversion H; subst; simpl. eexists. split; [reflexivity|].
    intros Hnd. fold (entityOverrides param f).
    destruct (entityOverrides_untouched param f) as [Hty _].
    unfold pf_type. simpl. rewrite Hty, Hnd. simpl.
    split; [reflexivity|]. split; [reflexivity|]. exact (Hprops Hnd).
Qed.

(** X18.  With [noDependencies] off, the documentation properties of an
    output field of the Entity pipeline are exactly those the documentation
    parser returns for the field with its own requiredness and with
    nullability the negation of it, followed by those of the field's type,
    which is also the type of the output: nothing more for a type with a
    scalar format; otherwise a [type] property, the bare name for [String],
    [Json] and [Boolean] and [() => T] for any other type [T], followed for
    such a [T] by a [type_decorator] property [T] unless the field is an
    enum. *)
Theorem entity_type_properties (I : Imported) (param : ComputeParam)
  (out : EntityParams) :
  noDependencies (config (templateHelpers param)) = false ->
  computeEntityParams I param = Return out ->
  Forall2
    (fun f pf =>
       pf_type pf = f_type f
       /\ f_kind (pf_field pf) = f_kind f
       /\ pf_apiProperties pf
          = Some (parseApiProperty I (entityDocumented f)
                    {| opt_default := Some false; opt_type := None |}
                    ++ entityTypeProperties I (f_type f) (f_kind f)))
    (filter entityKeeps (m_fields (model param))) (ep_fields out).
Proof.
  unfold computeEntityParams. intros Hnd H.
  destruct (reduceM (entityStep I param) (m_fields (model param)) entityInit)
    as [acc|] eqn:Hred; simpl in H; [|discriminate].
  inversion H; subst. simpl.
  destruct (reduceM_emits _ _ _ _ ea_result entityKeeps _
              (entityStep_decorated I param) _ _ _ Hred) as [bs [Hbs Hall]].
  rewrite Hbs. simpl.
  apply (Forall2_weaken_in _ _ _ _ (fun f pf _ Hpf => Hpf Hnd) Hall).
Qed.

Lemma entity_type_properties_witness :
  exists out,
    computeEntityParams Formats.imported (Sample.onAudit false false) = Return out
    /\ Forall2
         (fun f pf =>
            pf_type pf = f_type f
            /\ f_kind (pf_field pf) = f_kind f
            /\ pf_apiProperties pf
               = Some (parseApiProperty Formats.imported (entityDocumented f)
                         {| opt_default := Some false; opt_type := None |}
                         ++ entityTypeProperties Formats.imported (f_type f) (f_kind f)))
         (filter entityKeeps (m_fields (model (Sample.onAudit false false))))
         (ep_fields out).
Proof.
  eexists. split; [vm_compute; reflexivity|].
  apply (entity_type_properties Formats.imported (Sample.onAudit false false));
    vm_compute; reflexivity.
Defined.

(** On the sample with scalar formats, [id] of type [Int] comes out with the
    parser's properties alone and [payload] of type [Json] with a [type]
    property after them. *)
Example entity_scalar_format :
  exists out,
    computeEntityParams Formats.imported (Sample.onAudit false false) = Return out
    /\ map (fun pf => (pf_name pf, option_map (map ap_name) (pf_apiProperties pf)))
         (ep_fields out)
       = [("id", Some ["required"; "nullable"]);
          ("createdAt", Some ["required"; "nullable"]);
          ("updatedAt", Some ["required"; "nullable"]);
          ("payload", Some ["required"; "nullable"; "type"])].
Proof. eexists. split; vm_compute; reflexivity. Qed.

Lemma createDecorate_properties (I : Imported) (param : ComputeParam) (acc : DtoAcc)
  (f : Field) (ov : Overrides) (acc' : DtoAcc) (ov' : Overrides) (d : Decorators) :
  noDependencies (config (templateHelpers param)) = false ->
  createDecorate I param acc f ov = (acc', ov', d) ->
  exists parsed,
    d_apiProperties d
    = Some (parsed ++ isArrayProperties (f_isList f)
              ++ overrideTypeProperties (o_type ov)).
Proof.
  intros Hnd H.
  exists (parseApiProperty I (mapDMMFToParsedField f noOverrides noDecorators)
            {| opt_default := None; opt_type := Some (negb (truthy (o_type ov))) |}).
  revert H. unfold createDecorate, isArrayProperties, overrideTypeProperties.
  rewrite Hnd.
  destruct (classValidation _); simpl; intros H; inversion H; subst; simpl;
    (destruct (o_type ov) as [t|]; [destruct (negb (t =? "")%string)|];
     destruct (f_isList f); simpl;
     rewrite ?app_nil_r, <- ?app_assoc; reflexivity).
Qed.

Lemma createRelation_type (I : Imported) (param : ComputeParam) (acc : DtoAcc)
  (f0 : Field) (ov : Overrides) (acc1 : DtoAcc) (f1 : Field) (ov1 : Overrides) :
  o_type ov = None ->
  createRelation I param acc (includeIdentifier param f0) ov
  = Return (Some (acc1, f1, ov1)) ->
  o_type ov1 = createTypeOverride I param f0.
Proof.
  intros Hnone H. apply createRelation_some in H. unfold createTypeOverride.
  rewrite (sameShape_isRelation f0 _ (sameShape_includeIdentifier param f0)) in H.
  destruct H as [[Hr [_ [_ ->]]] | [Hr [_ [ri [Hri Happly]]]]]; rewrite Hr;
    [exact Hnone|].
  rewrite Hri. apply createApplyRelationInput_spec in Happly.
  destruct Happly as [_ [_ [_ [_ [_ [_ Hcase]]]]]].
  destruct (1 <? List.length (ri_imports ri))%nat.
  - destruct Hcase as [_ [Hty _]]. exact Hty.
  - destruct (coercionTarget ri) as [value|].
    + destruct Hcase as [_ ->]. reflexivity.
    + destruct Hcase as [_ ->]. exact Hnone.
Qed.

Lemma createStep_decorated (I : Imported) (param : ComputeParam) (acc : DtoAcc)
  (f0 : Field) (acc' : DtoAcc) :
  createStep I param acc f0 = Return acc' ->
  if createKeeps I param f0
  then exists pf,
         da_result acc' = da_result acc ++ [pf]
         /\ (noDependencies (config (templateHelpers param)) = false ->
             pf_type pf = orElse (createTypeOverride I param f0) (f_type f0)
             /\ exists parsed,
                  pf_apiProperties pf
                  = Some (parsed ++ isArrayProperties (f_isList f0)
                            ++ overrideTypeProperties (createTypeOverride I param f0)))
  else da_result acc' = da_result acc.
Proof.
  intros H. apply createStep_cases in H.
  pose proof (sameShape_includeIdentifier param f0) as Hshape.
  destruct H as [[Hk ->] | [acc1 [f1 [ov1 [Hrel Hcase]]]]].
  - rewrite Hk. reflexivity.
  - pose proof (createRelation_type I param acc f0 (set_createApiResp false noOverrides)
                  acc1 f1 ov1 eq_refl Hrel) as Hty1.
    apply createRelation_field in Hrel.
    destruct Hrel as [_ [Hres1 [Hshape1 _]]].
    pose proof (sameShape_trans _ _ _ Hshape Hshape1) as Hs.
    destruct Hcase as [[Hk ->] | [Hk [imports [acc2 [ov2 [d [_ [Hdec ->]]]]]]]];
      rewrite Hk; [exact Hres1|].
    pose proof (createDecorate_spec I param _ _ _ _ _ _ Hdec)
      as [Hres2 [_ [_ [Hty2 _]]]].
    eexists. split.
    { unfold emitField. simpl. rewrite Hres2. simpl. rewrite Hres1. reflexivity. }
    intros Hnd.
    destruct (createDecorate_properties I param _ _ _ _ _ _ Hnd Hdec) as [parsed Hparsed].
    assert (Htype : o_type ov2 = createTypeOverride I param f0).
    { rewrite Hty2, <- Hty1.
      destruct (isAnnotatedWith f1 DTO_CREATE_OPTIONAL); reflexivity. }
    assert (Hlist : f_isList f1 = f_isList f0)
      by (unfold sameShape in Hs; intuition congruence).
    assert (Hfty : f_type f1 = f_type f0)
      by (unfold sameShape in Hs; intuition congruence).
    split.
    + unfold pf_type. simpl. rewrite Htype, Hnd, Hfty. reflexivity.
    + exists parsed. simpl. rewrite Hparsed, Hlist, <- Htype, Hty2.
      destruct (isAnnotatedWith f1 DTO_CREATE_OPTIONAL); reflexivity.
Qed.

(** X19.  With [noDependencies] off, the type of an output field of the
    Create pipeline is the relation input type of a composite relation
    input, the coercion target of a direct reference that has one, and the
    field's own type otherwise; its documentation properties end with an
    [isArray] property when the field is a list, followed by a [type]
    property of the overriding type when there is one and it is not the
    empty string. *)
Theorem create_type_properties (I : Imported) (param : ComputeParam) (out : DtoParams) :
  noDependencies (config (templateHelpers param)) = false ->
  computeCreateDtoParams I param = Return out ->
  Forall2
    (fun f pf =>
       pf_type pf = orElse (createTypeOverride I param f) (f_type f)
       /\ exists parsed,
            pf_apiProperties pf
            = Some (parsed ++ isArrayProperties (f_isList f)
                      ++ overrideTypeProperties (createTypeOverride I param f)))
    (filter (createKeeps I param) (m_fields (model param))) (dp_fields out).
Proof.
  unfold computeCreateDtoParams, createReduce. intros Hnd H.
  destruct (reduceM (createStep I param) (m_fields (model param)) dtoInit)
    as [acc|] eqn:Hred; simpl in H; [|discriminate].
  inversion H; subst. simpl.
  destruct (reduceM_emits _ _ _ _ da_result (createKeeps I param) _
              (createStep_decorated I param) _ _ _ Hred) as [bs [Hbs Hall]].
  rewrite Hbs. simpl.
  apply (Forall2_weaken_in _ _ _ _ (fun f pf _ Hpf => Hpf Hnd) Hall).
Qed.

Lemma create_type_properties_witness :
  exists out,
    computeCreateDtoParams Sample.imported (Sample.onPost false true) = Return out
    /\ Forall2
         (fun f pf =>
            pf_type pf
            = orElse (createTypeOverride Sample.imported (Sample.onPost false true) f)
                (f_type f)
            /\ exists parsed,
                 pf_apiProperties pf
                 = Some (parsed ++ isArrayProperties (f_isList f)
                           ++ overrideTypeProperties
                                (createTypeOverride Sample.imported
                                   (Sample.onPost false true) f)))
         (filter (createKeeps Sample.imported (Sample.onPost false true))
            (m_fields (model (Sample.onPost false true))))
         (dp_fields out).
Proof.
  eexists. split; [vm_compute; reflexivity|].
  apply (create_type_properties Sample.imported (Sample.onPost false true));
    vm_compute; reflexivity.
Defined.

Lemma updateDecorate_properties (I : Imported) (param : ComputeParam) (acc : DtoAcc)
  (f : Field) (ov : Overrides) (acc' : DtoAcc) (ov' : Overrides) (d : Decorators) :
  noDependencies (config (templateHelpers param)) = false ->
  updateDecorate I param acc f ov = (acc', ov', d) ->
  d_apiProperties d
  = Some (parseApiProperty I
            (mapDMMFToParsedField f
               (set_isNullable (negb (f_isRequired f))
                  (set_updateApiResp (isAnnotatedWith f DTO_UPDATE_API_RESP) ov))
               noDecorators)
            {| opt_default := None; opt_type := Some (negb (truthy (o_type ov))) |}
            ++ overrideTypeProperties (o_type ov)).
Proof.
  intros Hnd. unfold updateDecorate, overrideTypeProperties.
  rewrite Hnd.
  destruct (classValidation _); simpl; intros H; inversion H; subst; simpl;
    (destruct (o_type ov) as [t|]; [destruct (negb (t =? "")%string)|];
     rewrite ?app_nil_r; reflexivity).
Qed.

(** The override set with which the Update pipeline leaves the relation
    block. *)
Lemma updateRelation_exact (I : Imported) (param : ComputeParam) (acc : DtoAcc)
  (f0 : Field) (acc1 : DtoAcc) (ov1 : Overrides) :
  updateRelation I param acc (includeIdentifier param f0) (updateInitialOverrides f0)
  = Return (Some (acc1, ov1)) ->
  da_result acc1 = da_result acc /\ ov1 = updateOverrides I param f0.
Proof.
  intros H. apply updateRelation_some in H.
  rewrite (sameShape_isRelation f0 _ (sameShape_includeIdentifier param f0)) in H.
  unfold updateOverrides, updateTypeOverride.
  destruct H as [[Hr [-> ->]] | [Hr [_ [ri [Hri [-> ->]]]]]]; rewrite Hr.
  - split; reflexivity.
  - rewrite Hri. split; reflexivity.
Qed.

Lemma updateStep_decorated (I : Imported) (param : ComputeParam) (acc : DtoAcc)
  (f0 : Field) (acc' : DtoAcc) :
  updateStep I param acc f0 = Return acc' ->
  if updateKeeps I param f0
  then exists pf,
         da_result acc' = da_result acc ++ [pf]
         /\ (noDependencies (config (templateHelpers param)) = false ->
             pf_type pf = orElse (updateTypeOverride I param f0) (f_type f0)
             /\ pf_apiProperties pf
                = Some (parseApiProperty I (updateDocumented I param f0)
                          {| opt_default := None;
                             opt_type :=
                               Some (negb (truthy (updateTypeOverride I param f0))) |}
                          ++ overrideTypeProperties (updateTypeOverride I param f0)))
         /\ (classValidation (config (templateHelpers param)) = true ->
             pf_classValidators pf
             = Some (parseClassValidators I
                       (mapDMMFToParsedField (includeIdentifier param f0)
                          (updateOverrides I param f0) noDecorators)
                       (updateTypeHint param f0 (updateOverrides I param f0))))
  else da_result acc' = da_result acc.
Proof.
  intros H. apply updateStep_cases in H. cbv zeta in H.
  pose proof (sameShape_includeIdentifier param f0) as Hs.
  destruct H as [[Hk ->] | [acc1 [ov1 [Hrel Hcase]]]].
  - rewrite Hk. reflexivity.
  - apply updateRelation_exact in Hrel. destruct Hrel as [Hres1 ->].
    destruct Hcase as [[Hk ->] | [Hk [imports [acc2 [ov2 [d [_ [Hdec ->]]]]]]]];
      rewrite Hk; [exact Hres1|].
    pose proof (updateDecorate_spec I param _ _ _ _ _ _ Hdec)
      as [Hres2 [_ [_ [Hty2 _]]]].
    eexists. split.
    { unfold emitField. simpl. rewrite Hres2. simpl. rewrite Hres1. reflexivity. }
    assert (Hfty : f_type (includeIdentifier param f0) = f_type f0)
      by (unfold sameShape in Hs; intuition congruence).
    assert (Hreq : f_isRequired (includeIdentifier param f0) = f_isRequired f0)
      by (unfold sameShape in Hs; intuition congruence).
    split.
    + intros Hnd.
      pose proof (updateDecorate_properties I param _ _ _ _ _ _ Hnd Hdec) as Hparsed.
      rewrite Hreq, (sameShape_annotated f0 _ DTO_UPDATE_API_RESP Hs) in Hparsed.
      split.
      * unfold pf_type. simpl. rewrite Hty2, Hnd, Hfty. reflexivity.
      * simpl. exact Hparsed.
    + intros Hcv.
      pose proof (updateDecorate_validators I param _ _ _ _ _ _ Hcv Hdec) as Hparsed.
      rewrite (updateTypeHint_shape param f0 _ _ Hs) in Hparsed.
      simpl. exact Hparsed.
Qed.

(** X20.  With [noDependencies] off, the type of an output field of the
    Update pipeline is the relation input type for a relation field and the
    field's own type otherwise.  Its documentation properties are exactly
    those the documentation parser returns for the field merged with its
    overrides, nullability being the negation of the schema's requiredness,
    followed by a [type] property of the relation input type for a relation
    field, unless that type is the empty string: the pipeline adds no
    [isArray] property. *)
Theorem update_type_properties (I : Imported) (param : ComputeParam) (out : DtoParams) :
  noDependencies (config (templateHelpers param)) = false ->
  computeUpdateDtoParams I param = Return out ->
  Forall2
    (fun f pf =>
       pf_type pf = orElse (updateTypeOverride I param f) (f_type f)
       /\ pf_apiProperties pf
          = Some (parseApiProperty I (updateDocumented I param f)
                    {| opt_default := None;
                       opt_type := Some (negb (truthy (updateTypeOverride I param f))) |}
                    ++ overrideTypeProperties (updateTypeOverride I param f)))
    (filter (updateKeeps I param) (m_fields (model param))) (dp_fields out).
Proof.
  unfold computeUpdateDtoParams, updateReduce. intros Hnd H.
  destruct (reduceM (updateStep I param) (m_fields (model param)) dtoInit)
    as [acc|] eqn:Hred; simpl in H; [|discriminate].
  inversion H; subst. simpl.
  destruct (reduceM_emits _ _ _ _ da_result (updateKeeps I param) _
              (updateStep_decorated I param) _ _ _ Hred) as [bs [Hbs Hall]].
  rewrite Hbs. simpl.
  apply (Forall2_weaken_in _ _ _ _ (fun f pf _ Hpf => proj1 Hpf Hnd) Hall).
Qed.

Lemma update_type_properties_witness :
  exists out,
    computeUpdateDtoParams Formats.imported (Sample.onPost false true) = Return out
    /\ Forall2
         (fun f pf =>
            pf_type pf
            = orElse (updateTypeOverride Formats.imported (Sample.onPost false true) f)
                (f_type f)
            /\ pf_apiProperties pf
               = Some (parseApiProperty Formats.imported
                         (updateDocumented Formats.imported (Sample.onPost false true) f)
                         {| opt_default := None;
                            opt_type :=
                              Some (negb (truthy
                                            (updateTypeOverride Formats.imported
                                               (Sample.onPost false true) f))) |}
                         ++ overrideTypeProperties
                              (updateTypeOverride Formats.imported
                                 (Sample.onPost false true) f)))
         (filter (updateKeeps Formats.imported (Sample.onPost false true))
            (m_fields (model (Sample.onPost false true))))
         (dp_fields out).
Proof.
  eexists. split; [vm_compute; reflexivity|].
  apply (update_type_properties Formats.imported (Sample.onPost false true));
    vm_compute; reflexivity.
Defined.

(** ** The validators of the output fields *)







